(** * GRID data-portal flatteners: League of Legends and Valorant

    A shallow embedding of the two batch scripts [lol_basic_parser.py] and
    [val_basic_parser.py].  Each script downloads vendor JSON and flattens one
    game into per-player and per-team rows.  Embedded are the flattening
    functions, the retry loop of the HTTP client, the column selection of the
    League of Legends CSV writer and the series loop of the Valorant script;
    the network, JSON decoding and file output are not.

    Modelling conventions.
    - A JSON object read with fixed keys is a record, a JSON array is a list,
      a JSON integer is a [Z] (Python integers are unbounded).
    - A Python [dict] that the code indexes with computed keys is a [gmap];
      indexing a missing key raises [KeyError].
    - A raised exception is the [Err] case of [result]; the exception class is
      kept, the message is not.
    - Python's true division [/] yields a float.  A float is represented by
      the exact rational quotient in lowest terms (the double Python stores
      is the one nearest to it); the zero-divisor check is the one Python
      performs.  The division is embedded for integers in the range of a
      double, where Python raises no [OverflowError]; a property that needs
      the range says so.  [float(...)], [round(...)] and
      [datetime.fromtimestamp(...)] of the Valorant script are parameters of
      its section.
    - A [str] of the flatteners is a [string], a sequence of code points
      below 256.  The name splitter is also embedded on sequences of
      arbitrary code points ([PyUnicode]), of which the one on [string] is
      the restriction.
    - The [log_to_terminal] flag only guards [print] calls and is dropped. *)

From Stdlib Require Import ZArith QArith Ascii String List Lia Bool Sorting.Sorted.
From Stdlib Require OrdersEx.
From stdpp Require Import base option list gmap strings.

Local Open Scope string_scope.
Local Open Scope Z_scope.

(** ** Exceptions *)

Inductive exn : Type :=
| KeyError
| IndexError
| ValueError
| ZeroDivisionError.

Inductive result (A : Type) : Type :=
| Ok (a : A)
| Err (e : exn).
Arguments Ok {A} a.
Arguments Err {A} e.

#[global] Instance result_ret : MRet result := fun _ a => Ok a.

#[global] Instance result_bind : MBind result := fun _ _ k r =>
  match r with
  | Ok a => k a
  | Err e => Err e
  end.

Definition is_ok {A : Type} (r : result A) : bool :=
  match r with Ok _ => true | Err _ => false end.

(** [d[k]] on a dict. *)
Definition getitem `{Countable K} {V : Type} (d : gmap K V) (k : K) : result V :=
  match d !! k with
  | Some v => Ok v
  | None => Err KeyError
  end.

(** [l[0]] on a list. *)
Definition first_item {A : Type} (l : list A) : result A :=
  match l with
  | x :: _ => Ok x
  | [] => Err IndexError
  end.

(** A [for] loop whose body may raise: the state is threaded left to right
    and the first exception ends the loop. *)
Fixpoint for_each {A S : Type} (body : S -> A -> result S) (xs : list A) (s : S)
  : result S :=
  match xs with
  | [] => Ok s
  | x :: xs' => s' ← body s x; for_each body xs' s'
  end.

(** [enumerate(xs)] *)
Fixpoint enumerate_from {A : Type} (i : Z) (xs : list A) : list (Z * A) :=
  match xs with
  | [] => []
  | x :: xs' => (i, x) :: enumerate_from (i + 1) xs'
  end.

Definition enumerate {A : Type} (xs : list A) : list (Z * A) :=
  enumerate_from 0 xs.

(** [sorted(xs, key=...)]: a stable sort.  Each element is put in front of
    the first already-placed element whose key is not smaller, so elements
    with equal keys keep their order. *)
Fixpoint sorted_insert {A K : Type} (leb : K -> K -> bool) (key : A -> K)
    (x : A) (l : list A) : list A :=
  match l with
  | [] => [x]
  | y :: l' =>
      if leb (key x) (key y) then x :: y :: l'
      else y :: sorted_insert leb key x l'
  end.

Fixpoint sorted {A K : Type} (leb : K -> K -> bool) (key : A -> K)
    (xs : list A) : list A :=
  match xs with
  | [] => []
  | x :: xs' => sorted_insert leb key x (sorted leb key xs')
  end.

(** [int(b)] for a boolean. *)
Definition int_of_bool (b : bool) : Z := if b then 1 else 0.

(** ** True division *)

Definition Qis_zero (q : Q) : bool := Qnum q =? 0.

(** [a / b] on floats (or on an integer and a float). *)
Definition truediv_q (a b : Q) : result Q :=
  if Qis_zero b then Err ZeroDivisionError else Ok (Qred (a / b)).

(** [a / b] on integers. *)
Definition truediv (a b : Z) : result Q :=
  truediv_q (inject_Z a) (inject_Z b).

(** ** Python string operations *)

Module PyStr.

Definition space : ascii := " "%char.

(** [s.find(c)] for a one-character needle: the least index, or [-1]. *)
Fixpoint find (c : ascii) (s : string) : Z :=
  match s with
  | EmptyString => -1
  | String a s' =>
      if Ascii.eqb a c then 0
      else let r := find c s' in if r =? -1 then -1 else r + 1
  end.

(** [s.split(c)] for a one-character separator: never the empty list. *)
Fixpoint split (c : ascii) (s : string) : list string :=
  match s with
  | EmptyString => [EmptyString]
  | String a s' =>
      if Ascii.eqb a c then EmptyString :: split c s'
      else match split c s' with
           | w :: ws => String a w :: ws
           | [] => [String a EmptyString]
           end
  end.

Fixpoint drop (n : nat) (s : string) : string :=
  match n, s with
  | O, _ => s
  | S _, EmptyString => EmptyString
  | S n', String _ s' => drop n' s'
  end.

(** [s[i:]]: a negative start counts from the end, both clipped. *)
Definition slice_from (i : Z) (s : string) : string :=
  let len := Z.of_nat (String.length s) in
  let start := if i <? 0 then Z.max 0 (i + len) else i in
  drop (Z.to_nat start) s.

Fixpoint take (n : nat) (s : string) : string :=
  match n, s with
  | O, _ => EmptyString
  | S _, EmptyString => EmptyString
  | S n', String a s' => String a (take n' s')
  end.

(** A slice bound brought into [0 .. len]. *)
Definition clip (i len : Z) : Z :=
  if i <? 0 then Z.max 0 (i + len) else Z.min i len.

(** [s[i:j]] *)
Definition slice (i j : Z) (s : string) : string :=
  let len := Z.of_nat (String.length s) in
  let lo := clip i len in
  let hi := clip j len in
  take (Z.to_nat (hi - lo)) (drop (Z.to_nat lo) s).

(** [s.find(c, start)] *)
Definition find_from (c : ascii) (start : Z) (s : string) : Z :=
  let len := Z.of_nat (String.length s) in
  let lo := clip start len in
  let r := find c (drop (Z.to_nat lo) s) in
  if r =? -1 then -1 else r + lo.

(** The [Lowercase] and [Uppercase] properties on code points below 256. *)
Definition is_lower (a : ascii) : bool :=
  let n := Z.of_N (N_of_ascii a) in
  ((97 <=? n) && (n <=? 122))
  || (n =? 170) || (n =? 181) || (n =? 186)
  || ((223 <=? n) && (n <=? 246))
  || ((248 <=? n) && (n <=? 255)).

Definition is_upper (a : ascii) : bool :=
  let n := Z.of_N (N_of_ascii a) in
  ((65 <=? n) && (n <=? 90))
  || ((192 <=? n) && (n <=? 214))
  || ((216 <=? n) && (n <=? 222)).

Fixpoint any (p : ascii -> bool) (s : string) : bool :=
  match s with
  | EmptyString => false
  | String a s' => p a || any p s'
  end.

(** [s.isupper()]: no lower-case character and at least one upper-case
    one; characters without case (digits, punctuation) are ignored. *)
Definition isupper (s : string) : bool :=
  negb (any is_lower s) && any is_upper s.

End PyStr.

(** ** League of Legends flattener *)

Module Lol.

(** [split_team_tag_and_player_nickname(summoner_name)]. *)
Definition split_team_tag_and_player_nickname (summoner_name : string)
  : result (option string * string) :=
  let team_tag := None in
  let player_name := summoner_name in
  if negb (PyStr.find PyStr.space summoner_name =? -1)
     && (PyStr.find PyStr.space summoner_name <? 5)
  then
    start_of_summoner_name ← first_item (PyStr.split PyStr.space summoner_name);
    if PyStr.isupper start_of_summoner_name
    then Ok (Some start_of_summoner_name,
             PyStr.slice_from (PyStr.find PyStr.space summoner_name + 1) summoner_name)
    else Ok (team_tag, player_name)
  else Ok (team_tag, player_name).

(** *** Input: the vendor's post-game stats and timeline files *)

Record participant := {
  p_participantId : Z;
  p_teamId : Z;
  p_riotIdGameName : string;
  p_teamPosition : string;
  p_championName : string;
  p_win : bool;
  p_kills : Z;
  p_deaths : Z;
  p_assists : Z;
  p_firstBloodKill : bool;
  p_firstBloodAssist : bool;
  p_totalDamageDealtToChampions : Z;
  p_wardsPlaced : Z;
  p_wardsKilled : Z;
  p_visionWardsBoughtInGame : Z;
  p_totalMinionsKilled : Z;
  p_neutralMinionsKilled : Z;
  p_goldEarned : Z
}.

Record objective := { o_first : bool; o_kills : Z }.

Record objectives := {
  champion : objective;
  tower : objective;
  dragon : objective;
  riftHerald : objective;
  baron : objective;
  inhibitor : objective
}.

Record team := {
  tm_teamId : Z;
  tm_win : bool;
  tm_objectives : objectives;
  tm_bans : list (Z * Z)
}.

Record stats_file := {
  gameDuration : Z;
  participants : list participant;
  teams : list team
}.

(** A timeline event.  Only the keys the flattener reads are kept: a
    plate event carries [teamId], a kill carries [killerId] and [victimId];
    every event has its own [timestamp], which the flattener never reads.
    [OTHER_EVENT] stands for an event of any other type. *)
Inductive event_data :=
| TURRET_PLATE_DESTROYED (teamId : Z)
| CHAMPION_KILL (killerId victimId : Z)
| OTHER_EVENT (type : string).

Record event := { ev_timestamp : Z; ev_data : event_data }.

Record frame := { timestamp : Z; events : list event }.

Record timeline_file := { frames : list frame }.

Record series_info := {
  si_tournament_id : string;
  si_tournament_name : string
}.

(** *** The [team_totals] dict *)

Record totals := {
  kills : Z;
  deaths : Z;
  damage_to_champions : Z;
  gold_earned : Z;
  creep_score : Z;
  wards_placed : Z;
  wards_killed : Z;
  control_wards_purchased : Z;
  turret_plates : Z
}.

Definition zero_totals : totals :=
  {| kills := 0; deaths := 0; damage_to_champions := 0; gold_earned := 0;
     creep_score := 0; wards_placed := 0; wards_killed := 0;
     control_wards_purchased := 0; turret_plates := 0 |}.

Definition initial_team_totals : gmap Z totals :=
  <[200 := zero_totals]> (<[100 := zero_totals]> ∅).

(** [team_totals[team_id]["turret_plates"] += 1] *)
Definition add_turret_plate (team_id : Z) (team_totals : gmap Z totals)
  : result (gmap Z totals) :=
  t ← getitem team_totals team_id;
  Ok (<[team_id :=
         {| kills := kills t; deaths := deaths t;
            damage_to_champions := damage_to_champions t;
            gold_earned := gold_earned t; creep_score := creep_score t;
            wards_placed := wards_placed t; wards_killed := wards_killed t;
            control_wards_purchased := control_wards_purchased t;
            turret_plates := turret_plates t + 1 |}]> team_totals).

(** The eight [+=] statements of the first loop over the participants;
    all of them index [team_totals] with the same key. *)
Definition add_participant (team_totals : gmap Z totals) (player : participant)
  : result (gmap Z totals) :=
  t ← getitem team_totals (p_teamId player);
  Ok (<[p_teamId player :=
         {| kills := kills t + p_kills player;
            deaths := deaths t + p_deaths player;
            damage_to_champions :=
              damage_to_champions t + p_totalDamageDealtToChampions player;
            gold_earned := gold_earned t + p_goldEarned player;
            creep_score :=
              creep_score t
              + (p_totalMinionsKilled player + p_neutralMinionsKilled player);
            wards_placed := wards_placed t + p_wardsPlaced player;
            wards_killed := wards_killed t + p_wardsKilled player;
            control_wards_purchased :=
              control_wards_purchased t + p_visionWardsBoughtInGame player;
            turret_plates := turret_plates t |}]> team_totals).

(** *** The timeline scan *)

Record scan_state := {
  team_totals : gmap Z totals;
  first_blood_found : bool;
  first_blood_victim : option Z
}.

Definition initial_scan_state : scan_state :=
  {| team_totals := initial_team_totals;
     first_blood_found := false;
     first_blood_victim := None |}.

(** The body of the inner loop, for one event. *)
Definition scan_event (st : scan_state) (ev : event) : result scan_state :=
  match ev_data ev with
  | TURRET_PLATE_DESTROYED teamId =>
      if teamId =? 200 then
        tt ← add_turret_plate 100 (team_totals st);
        Ok {| team_totals := tt;
              first_blood_found := first_blood_found st;
              first_blood_victim := first_blood_victim st |}
      else if teamId =? 100 then
        tt ← add_turret_plate 200 (team_totals st);
        Ok {| team_totals := tt;
              first_blood_found := first_blood_found st;
              first_blood_victim := first_blood_victim st |}
      else Ok st
  | CHAMPION_KILL killerId victimId =>
      if first_blood_found st then Ok st
      else if negb (killerId =? 0) then
        Ok {| team_totals := team_totals st;
              first_blood_found := true;
              first_blood_victim := Some victimId |}
      else Ok st
  | OTHER_EVENT _ => Ok st
  end.

(** The outer loop: it stops at the first frame past the cutoff. *)
Fixpoint scan_frames (fs : list frame) (st : scan_state) : result scan_state :=
  match fs with
  | [] => Ok st
  | frame :: fs' =>
      if timestamp frame >? 850000 then Ok st
      else st' ← for_each scan_event (events frame) st; scan_frames fs' st'
  end.

(** *** Output rows *)

Record player_dto := {
  pd_platform_game_id : string;
  pd_tournament_id : string;
  pd_tournament_name : string;
  pd_summoner_name : string;
  pd_team_tag : option string;
  pd_side : Z;
  pd_auto_detect_role : string;
  pd_champion : string;
  pd_win : Z;
  pd_game_duration : Z;
  pd_kills : Z;
  pd_deaths : Z;
  pd_assists : Z;
  pd_kda : Q;
  pd_kill_participation : Q;
  pd_team_kills : Z;
  pd_team_deaths : Z;
  pd_firstBloodKill : Z;
  pd_firstBloodAssist : Z;
  pd_firstBloodVictim : Z;
  pd_damagePerMinute : Q;
  pd_damageShare : Q;
  pd_wardsPlacedPerMinute : Q;
  pd_wardsClearedPerMinute : Q;
  pd_controlWardsPurchased : Z;
  pd_creepScore : Z;
  pd_creepScorePerMinute : Q;
  pd_goldEarned : Z;
  pd_goldEarnedPerMinute : Q
}.

Record team_dto := {
  td_platform_game_id : string;
  td_tournament_id : string;
  td_tournament_name : string;
  td_team_tag : option string;
  td_side : Z;
  td_win : Z;
  td_gameDuration : Z;
  td_teamKills : Z;
  td_teamDeaths : Z;
  td_firstBloodKill : Z;
  td_wardsPlacedPerMinute : Q;
  td_wardsClearedPerMinute : Q;
  td_controlWardsPurchased : Z;
  td_creepScorePerMinute : Q;
  td_goldEarnedPerMinute : Q;
  td_firstTurret : Z;
  td_turretKills : Z;
  td_turretPlates : Z;
  td_firstDragon : Z;
  td_dragonKills : Z;
  td_firstHerald : Z;
  td_riftHeraldKills : Z;
  td_baronKills : Z;
  td_inhibitorKills : Z;
  td_bans : list (Z * Z)
}.

Inductive row :=
| PlayerRow (d : player_dto)
| TeamRow (d : team_dto).

(** [row["side"]] and [row["team_tag"]]: both kinds of row have the keys. *)
Definition row_side (r : row) : Z :=
  match r with PlayerRow d => pd_side d | TeamRow d => td_side d end.

Definition row_team_tag (r : row) : option string :=
  match r with PlayerRow d => pd_team_tag d | TeamRow d => td_team_tag d end.

(** Truth value of an optional string: [None] and the empty string are
    false. *)
Definition truthy (o : option string) : bool :=
  match o with
  | Some EmptyString => false
  | Some _ => true
  | None => false
  end.

(** [x / (gameDuration / 60)] *)
Definition per_minute (x game_duration : Z) : result Q :=
  minutes ← truediv game_duration 60;
  truediv_q (inject_Z x) minutes.

(** The dict display [player_dto = {...}]; its entries are evaluated in
    the order written. *)
Definition make_player_dto (game_id : string) (si : series_info)
    (sf : stats_file) (team_totals : gmap Z totals)
    (first_blood_victim : option Z) (player : participant)
  : result player_dto :=
  '(team_tag, player_name) ←
     split_team_tag_and_player_nickname (p_riotIdGameName player);
  kda ← truediv (p_kills player + p_assists player)
                (if p_deaths player >? 0 then p_deaths player else 1);
  t ← getitem team_totals (p_teamId player);
  kill_participation ← truediv (p_kills player + p_assists player) (kills t);
  damagePerMinute ←
    per_minute (p_totalDamageDealtToChampions player) (gameDuration sf);
  damageShare ←
    truediv (p_totalDamageDealtToChampions player) (damage_to_champions t);
  wardsPlacedPerMinute ← per_minute (p_wardsPlaced player) (gameDuration sf);
  wardsClearedPerMinute ← per_minute (p_wardsKilled player) (gameDuration sf);
  creepScorePerMinute ←
    per_minute (p_totalMinionsKilled player + p_neutralMinionsKilled player)
               (gameDuration sf);
  goldEarnedPerMinute ← per_minute (p_goldEarned player) (gameDuration sf);
  Ok {| pd_platform_game_id := game_id;
        pd_tournament_id := si_tournament_id si;
        pd_tournament_name := si_tournament_name si;
        pd_summoner_name := player_name;
        pd_team_tag := team_tag;
        pd_side := p_teamId player;
        pd_auto_detect_role := p_teamPosition player;
        pd_champion := p_championName player;
        pd_win := int_of_bool (p_win player);
        pd_game_duration := gameDuration sf;
        pd_kills := p_kills player;
        pd_deaths := p_deaths player;
        pd_assists := p_assists player;
        pd_kda := kda;
        pd_kill_participation := kill_participation;
        pd_team_kills := kills t;
        pd_team_deaths := deaths t;
        pd_firstBloodKill := int_of_bool (p_firstBloodKill player);
        pd_firstBloodAssist := int_of_bool (p_firstBloodAssist player);
        pd_firstBloodVictim :=
          match first_blood_victim with
          | Some v => if p_participantId player =? v then 1 else 0
          | None => 0
          end;
        pd_damagePerMinute := damagePerMinute;
        pd_damageShare := damageShare;
        pd_wardsPlacedPerMinute := wardsPlacedPerMinute;
        pd_wardsClearedPerMinute := wardsClearedPerMinute;
        pd_controlWardsPurchased := p_visionWardsBoughtInGame player;
        pd_creepScore := p_totalMinionsKilled player + p_neutralMinionsKilled player;
        pd_creepScorePerMinute := creepScorePerMinute;
        pd_goldEarned := p_goldEarned player;
        pd_goldEarnedPerMinute := goldEarnedPerMinute |}.

(** The search for a team tag among the rows produced so far: the first
    row on that side with a non-empty tag ends the search. *)
Fixpoint find_team_tag (team_id : Z) (cleaned_game_data : list row)
  : option string :=
  match cleaned_game_data with
  | [] => None
  | player :: rest =>
      if (row_side player =? team_id) && truthy (row_team_tag player)
      then row_team_tag player
      else find_team_tag team_id rest
  end.

(** The dict display [team_dto = {...}]. *)
Definition make_team_dto (game_id : string) (si : series_info)
    (sf : stats_file) (team_totals : gmap Z totals)
    (cleaned_game_data : list row) (team : team)
  : result team_dto :=
  let team_tag := find_team_tag (tm_teamId team) cleaned_game_data in
  let team_id := tm_teamId team in
  t ← getitem team_totals team_id;
  wardsPlacedPerMinute ← per_minute (wards_placed t) (gameDuration sf);
  wardsClearedPerMinute ← per_minute (wards_killed t) (gameDuration sf);
  creepScorePerMinute ← per_minute (creep_score t) (gameDuration sf);
  goldEarnedPerMinute ← per_minute (gold_earned t) (gameDuration sf);
  Ok {| td_platform_game_id := game_id;
        td_tournament_id := si_tournament_id si;
        td_tournament_name := si_tournament_name si;
        td_team_tag := team_tag;
        td_side := team_id;
        td_win := int_of_bool (tm_win team);
        td_gameDuration := gameDuration sf;
        td_teamKills := o_kills (champion (tm_objectives team));
        td_teamDeaths := deaths t;
        td_firstBloodKill := int_of_bool (o_first (champion (tm_objectives team)));
        td_wardsPlacedPerMinute := wardsPlacedPerMinute;
        td_wardsClearedPerMinute := wardsClearedPerMinute;
        td_controlWardsPurchased := control_wards_purchased t;
        td_creepScorePerMinute := creepScorePerMinute;
        td_goldEarnedPerMinute := goldEarnedPerMinute;
        td_firstTurret := int_of_bool (o_first (tower (tm_objectives team)));
        td_turretKills := o_kills (tower (tm_objectives team));
        td_turretPlates := turret_plates t;
        td_firstDragon := int_of_bool (o_first (dragon (tm_objectives team)));
        td_dragonKills := o_kills (dragon (tm_objectives team));
        td_firstHerald := int_of_bool (o_first (riftHerald (tm_objectives team)));
        td_riftHeraldKills := o_kills (riftHerald (tm_objectives team));
        td_baronKills := o_kills (baron (tm_objectives team));
        td_inhibitorKills := o_kills (inhibitor (tm_objectives team));
        td_bans := tm_bans team |}.

(** [game_factory(game_id, series_info, stats_file, timeline_file,
    live_data)]; [live_data] is not read. *)
Definition game_factory (game_id : string) (si : series_info)
    (sf : stats_file) (tl : timeline_file) (live_data : string)
  : result (list row) :=
  let cleaned_game_data := [] in
  st ← scan_frames (frames tl) initial_scan_state;
  team_totals ← for_each add_participant (participants sf) (team_totals st);
  cleaned_game_data ←
    for_each
      (fun acc player =>
         player_dto ← make_player_dto game_id si sf team_totals
                        (first_blood_victim st) player;
         Ok (acc ++ [PlayerRow player_dto])%list)
      (participants sf) cleaned_game_data;
  for_each
    (fun acc team =>
       team_dto ← make_team_dto game_id si sf team_totals acc team;
       Ok (acc ++ [TeamRow team_dto])%list)
    (teams sf) cleaned_game_data.

End Lol.

(** ** Valorant flattener *)

(** The library calls whose results are floats, dates or Unicode case
    mappings.  [fromtimestamp] and [float_of_str] may raise. *)
Class PyRuntime := {
  datetime : Type;
  fromtimestamp : Q -> result datetime;
  float_of_str : string -> result Q;
  round_ndigits : Q -> Z -> Q;
  capitalize : string -> string
}.

Module Val.

(** *** Input: the end-state file of the data platform *)

Record grid_team := {
  gt_id : string;
  gt_name : string;
  gt_won : bool;
  gt_score : Z
}.

Record grid_game := {
  started : bool;
  finished : bool;
  gg_map_name : string;
  sequenceNumber : Z;
  gg_teams : list grid_team
}.

(** *** Game metadata: the value of [metadata["team_one"]] is either the
    empty dict or a dict with all four keys. *)

Record team_meta := {
  tmeta_id : string;
  tmeta_name : string;
  winner : bool;
  rounds_won : Z
}.

Record game_metadata := {
  map_name : string;
  game_number : Z;
  team_one : option team_meta;
  team_two : option team_meta
}.

Record series_metadata := {
  series_id : string;
  tournament_id : string;
  tournament_name : string;
  games : list game_metadata
}.

(** *** Input: the vendor's match file and the public reference tables *)

Record match_info := {
  matchId : string;
  mapId : string;
  gameStartMillis : Z;
  gameVersion : string
}.

Record raw_team := { rt_teamId : string; rt_roundsWon : Z }.

Record damage_entry := {
  damage : Z;
  headshots : Z;
  bodyshots : Z;
  legshots : Z
}.

Record kill := {
  timeSinceRoundStartMillis : Z;
  killer : string;
  victim : string
}.

Record player_round_stats := {
  prs_puuid : string;
  prs_damage : list damage_entry;
  prs_kills : list kill
}.

Record round_result := {
  winningTeam : string;
  playerStats : list player_round_stats
}.

Record player_stats := {
  roundsPlayed : Z;
  ps_kills : Z;
  ps_deaths : Z;
  ps_assists : Z;
  score : Z
}.

Record raw_player := {
  pl_puuid : string;
  pl_teamId : string;
  pl_gameName : string;
  pl_characterId : string;
  pl_stats : player_stats
}.

Record raw_game_data := {
  matchInfo : match_info;
  rg_teams : list raw_team;
  roundResults : list round_result;
  players : list raw_player
}.

Record api_entry := { displayName : string }.

Record val_metadata := {
  maps : gmap string api_entry;
  agents : gmap string api_entry
}.

(** *** Pre-aggregated statistics *)

Record player_agg := {
  total_damage : Z;
  agg_headshots : Z;
  agg_bodyshots : Z;
  agg_legshots : Z;
  first_kills : Z;
  first_deaths : Z
}.

Definition zero_player_agg : player_agg :=
  {| total_damage := 0; agg_headshots := 0; agg_bodyshots := 0;
     agg_legshots := 0; first_kills := 0; first_deaths := 0 |}.

Record side_agg := {
  attackWins : Z;
  attackLosses : Z;
  defenseWins : Z;
  defenseLosses : Z
}.

Definition zero_side_agg : side_agg :=
  {| attackWins := 0; attackLosses := 0; defenseWins := 0; defenseLosses := 0 |}.

Definition initial_team_preaggregated_stats : gmap string side_agg :=
  <["Red" := zero_side_agg]> (<["Blue" := zero_side_agg]> ∅).

Inductive side_counter := AttackWins | AttackLosses | DefenseWins | DefenseLosses.

Definition bump (c : side_counter) (t : side_agg) : side_agg :=
  match c with
  | AttackWins =>
      {| attackWins := attackWins t + 1; attackLosses := attackLosses t;
         defenseWins := defenseWins t; defenseLosses := defenseLosses t |}
  | AttackLosses =>
      {| attackWins := attackWins t; attackLosses := attackLosses t + 1;
         defenseWins := defenseWins t; defenseLosses := defenseLosses t |}
  | DefenseWins =>
      {| attackWins := attackWins t; attackLosses := attackLosses t;
         defenseWins := defenseWins t + 1; defenseLosses := defenseLosses t |}
  | DefenseLosses =>
      {| attackWins := attackWins t; attackLosses := attackLosses t;
         defenseWins := defenseWins t; defenseLosses := defenseLosses t + 1 |}
  end.

(** [team_preaggregated_stats[side][counter] += 1] *)
Definition incr_side (side : string) (c : side_counter)
    (stats : gmap string side_agg) : result (gmap string side_agg) :=
  t ← getitem stats side;
  Ok (<[side := bump c t]> stats).

(** The side that attacks in a round, from the round number alone. *)
Definition attackers (round_number : Z) : string :=
  if round_number <? 25 then
    if round_number <? 13 then "Red" else "Blue"
  else
    if round_number mod 2 =? 1 then "Red" else "Blue".

(** The attack/defence bookkeeping of one round. *)
Definition count_round_sides (round_number : Z) (round_data : round_result)
    (stats : gmap string side_agg) : result (gmap string side_agg) :=
  let attackers := attackers round_number in
  if String.eqb attackers "Blue" then
    if String.eqb (winningTeam round_data) "Blue" then
      stats ← incr_side "Blue" AttackWins stats;
      incr_side "Red" DefenseLosses stats
    else
      stats ← incr_side "Blue" AttackLosses stats;
      incr_side "Red" DefenseWins stats
  else if String.eqb attackers "Red" then
    if String.eqb (winningTeam round_data) "Red" then
      stats ← incr_side "Red" AttackWins stats;
      incr_side "Blue" DefenseLosses stats
    else
      stats ← incr_side "Red" AttackLosses stats;
      incr_side "Blue" DefenseWins stats
  else Ok stats.

(** [if not stats.get(puuid): stats[puuid] = {... all zero ...}];
    a stored entry is a non-empty dict, hence true. *)
Definition ensure_player (puuid : string) (stats : gmap string player_agg)
  : gmap string player_agg :=
  match stats !! puuid with
  | Some _ => stats
  | None => <[puuid := zero_player_agg]> stats
  end.

(** The four [+=] statements for one damage entry. *)
Definition add_damage (puuid : string) (stats : gmap string player_agg)
    (target : damage_entry) : result (gmap string player_agg) :=
  a ← getitem stats puuid;
  Ok (<[puuid :=
         {| total_damage := total_damage a + damage target;
            agg_headshots := agg_headshots a + headshots target;
            agg_bodyshots := agg_bodyshots a + bodyshots target;
            agg_legshots := agg_legshots a + legshots target;
            first_kills := first_kills a;
            first_deaths := first_deaths a |}]> stats).

(** The body of the loop over [round_data["playerStats"]]; the state is the
    stats dict and the list [round_kill_events]. *)
Definition add_player_round
    (st : gmap string player_agg * list kill) (player : player_round_stats)
  : result (gmap string player_agg * list kill) :=
  let '(stats, round_kill_events) := st in
  let stats := ensure_player (prs_puuid player) stats in
  stats ← for_each (add_damage (prs_puuid player)) (prs_damage player) stats;
  Ok (stats, (round_kill_events ++ prs_kills player)%list).

(** [stats[puuid]["first_kills"] += 1] and the same for [first_deaths]. *)
Definition incr_first_kills (puuid : string) (stats : gmap string player_agg)
  : result (gmap string player_agg) :=
  a ← getitem stats puuid;
  Ok (<[puuid :=
         {| total_damage := total_damage a; agg_headshots := agg_headshots a;
            agg_bodyshots := agg_bodyshots a; agg_legshots := agg_legshots a;
            first_kills := first_kills a + 1;
            first_deaths := first_deaths a |}]> stats).

Definition incr_first_deaths (puuid : string) (stats : gmap string player_agg)
  : result (gmap string player_agg) :=
  a ← getitem stats puuid;
  Ok (<[puuid :=
         {| total_damage := total_damage a; agg_headshots := agg_headshots a;
            agg_bodyshots := agg_bodyshots a; agg_legshots := agg_legshots a;
            first_kills := first_kills a;
            first_deaths := first_deaths a + 1 |}]> stats).

(** The kill events of a round, in the order the loop collects them. *)
Definition round_kill_events (round_data : round_result) : list kill :=
  concat (map prs_kills (playerStats round_data)).

(** The per-player part of one round: the loop over the players, the sort
    and the first-kill / first-death credit. *)
Definition credit_round (round_data : round_result)
    (stats : gmap string player_agg) : result (gmap string player_agg) :=
  '(stats, round_kill_events) ←
     for_each add_player_round (playerStats round_data) (stats, []);
  let sorted_kills := sorted Z.leb timeSinceRoundStartMillis round_kill_events in
  k ← first_item sorted_kills;
  stats ← incr_first_kills (killer k) stats;
  k ← first_item sorted_kills;
  incr_first_deaths (victim k) stats.

Record preagg := {
  player_preaggregated_stats : gmap string player_agg;
  team_preaggregated_stats : gmap string side_agg
}.

(** The body of the loop over [enumerate(raw_game_data["roundResults"])]. *)
Definition process_round (st : preagg) (item : Z * round_result) : result preagg :=
  let '(idx, round_data) := item in
  let round_number := idx + 1 in
  teams ← count_round_sides round_number round_data (team_preaggregated_stats st);
  players ← credit_round round_data (player_preaggregated_stats st);
  Ok {| player_preaggregated_stats := players;
        team_preaggregated_stats := teams |}.

Definition initial_preagg : preagg :=
  {| player_preaggregated_stats := ∅;
     team_preaggregated_stats := initial_team_preaggregated_stats |}.

(** *** Team identity *)

Inductive team_ref := team_one_ref | team_two_ref.

Definition initial_team_side_refs : gmap string (option team_ref) :=
  <["Red" := None]> (<["Blue" := None]> ∅).

(** [this_game_metadata[ref]]; the key [None] is never present. *)
Definition metadata_team (this_game_metadata : game_metadata)
    (ref : option team_ref) : result (option team_meta) :=
  match ref with
  | Some team_one_ref => Ok (team_one this_game_metadata)
  | Some team_two_ref => Ok (team_two this_game_metadata)
  | None => Err KeyError
  end.

(** [d[key]] on a team dict that is empty or complete. *)
Definition team_field {A : Type} (field : team_meta -> A)
    (d : option team_meta) : result A :=
  match d with
  | Some t => Ok (field t)
  | None => Err KeyError
  end.

(** The body of the loop over [raw_game_data["teams"]]. *)
Definition map_team (this_game_metadata : game_metadata)
    (team_side_refs : gmap string (option team_ref)) (team : raw_team)
  : result (gmap string (option team_ref)) :=
  one ← team_field rounds_won (team_one this_game_metadata);
  if rt_roundsWon team =? one then
    Ok (<[rt_teamId team := Some team_one_ref]> team_side_refs)
  else
    two ← team_field rounds_won (team_two this_game_metadata);
    if rt_roundsWon team =? two then
      Ok (<[rt_teamId team := Some team_two_ref]> team_side_refs)
    else Err ValueError.

Definition resolve_team_side_refs (this_game_metadata : game_metadata)
    (teams : list raw_team) : result (gmap string (option team_ref)) :=
  for_each (map_team this_game_metadata) teams initial_team_side_refs.

(** The first entry of [series_metadata["games"]] on the same map. *)
Fixpoint match_game_metadata (map_name' : string) (gs : list game_metadata)
  : result game_metadata :=
  match gs with
  | [] => Err ValueError
  | game_metadata :: gs' =>
      if String.eqb (map_name game_metadata) map_name' then Ok game_metadata
      else match_game_metadata map_name' gs'
  end.

(** A cell of an output row: a team row holds the empty string where a
    player row holds a number. *)
Inductive cell (A : Type) :=
| Num (a : A)
| Blank.
Arguments Num {A} a.
Arguments Blank {A}.

Section Flattener.
Context `{PyRuntime}.

(** The body of the loop over [enumerate(...["teams"])]: the first team
    fills [team_one], the second [team_two], a third one raises. *)
Definition set_team (metadata : game_metadata) (item : Z * grid_team)
  : result game_metadata :=
  let '(idx, team) := item in
  let t := {| tmeta_id := gt_id team; tmeta_name := gt_name team;
              winner := gt_won team; rounds_won := gt_score team |} in
  if idx =? 0 then
    Ok {| map_name := map_name metadata; game_number := game_number metadata;
          team_one := Some t; team_two := team_two metadata |}
  else if idx =? 1 then
    Ok {| map_name := map_name metadata; game_number := game_number metadata;
          team_one := team_one metadata; team_two := Some t |}
  else Err IndexError.

(** [game_metadata_factory(game_data_from_grid_endstate)] *)
Definition game_metadata_factory (g : grid_game) : result game_metadata :=
  if negb (started g) then Err ValueError
  else if negb (finished g) then Err ValueError
  else
    let metadata :=
      {| map_name := capitalize (gg_map_name g);
         game_number := sequenceNumber g;
         team_one := None;
         team_two := None |} in
    for_each set_team (enumerate (gg_teams g)) metadata.

(** *** Output rows *)

Record row := {
  r_game_id : string;
  r_series_id : string;
  r_tournament_id : string;
  r_tournament_name : string;
  r_map_id : string;
  r_map_name : string;
  r_game_start : datetime;
  r_game_version : Q;
  r_game_number : Z;
  r_player_name : string;
  r_team_id : string;
  r_team_name : string;
  r_agent_id : string;
  r_agent_name : string;
  r_win : Z;
  r_roundsWon : Z;
  r_roundsLost : Z;
  r_attackRoundsWon : Z;
  r_attackRoundsLost : Z;
  r_defenseRoundsWon : Z;
  r_defenseRoundsLost : Z;
  r_kills : cell Z;
  r_deaths : cell Z;
  r_assists : cell Z;
  r_averageCombatScore : cell Q;
  r_damagePerRound : cell Q;
  r_first_kills : cell Z;
  r_first_deaths : cell Z;
  r_headshot_rate : cell Q
}.

(** What is fixed before the rows are built. *)
Record header := {
  game_id : string;
  map_id : string;
  h_map_name : string;
  game_start : datetime;
  game_version_clean : Q;
  this_game_metadata : game_metadata;
  team_side_refs : gmap string (option team_ref);
  stats : preagg
}.

Definition team_row_key (teamId : string) : string :=
  (teamId ++ "_team_row_added")%string.

Definition initial_team_rows_added_map : gmap string bool :=
  <["Red_team_row_added" := false]> (<["Blue_team_row_added" := false]> ∅).

Record rows_state := {
  cleaned_game_data : list row;
  team_rows_added_map : gmap string bool;
  player_count_found : Z
}.

(** The body of the loop over [raw_game_data["players"]]. *)
Definition add_player_rows (sm : series_metadata) (vm : val_metadata)
    (h : header) (st : rows_state) (player : raw_player) : result rows_state :=
  if String.eqb (pl_teamId player) "Neutral" then Ok st
  else
    let player_count_found := player_count_found st + 1 in
    let player_id := pl_puuid player in
    ref ← getitem (team_side_refs h) (pl_teamId player);
    tm ← metadata_team (this_game_metadata h) ref;
    rounds_won ← team_field rounds_won tm;
    team_id ← team_field tmeta_id tm;
    team_name ← team_field tmeta_name tm;
    agent ← getitem (agents vm) (pl_characterId player);
    winner ← team_field winner tm;
    side ← getitem (team_preaggregated_stats (stats h)) (pl_teamId player);
    acs ← truediv (score (pl_stats player)) (roundsPlayed (pl_stats player));
    agg ← getitem (player_preaggregated_stats (stats h)) player_id;
    dpr ← truediv (total_damage agg) (roundsPlayed (pl_stats player));
    hsr ← truediv (agg_headshots agg)
                  (agg_headshots agg + agg_bodyshots agg + agg_legshots agg);
    let player_row :=
      {| r_game_id := game_id h;
         r_series_id := series_id sm;
         r_tournament_id := tournament_id sm;
         r_tournament_name := tournament_name sm;
         r_map_id := map_id h;
         r_map_name := h_map_name h;
         r_game_start := game_start h;
         r_game_version := game_version_clean h;
         r_game_number := game_number (this_game_metadata h);
         r_player_name := pl_gameName player;
         r_team_id := team_id;
         r_team_name := team_name;
         r_agent_id := pl_characterId player;
         r_agent_name := displayName agent;
         r_win := if (winner : bool) then 1 else 0;
         r_roundsWon := rounds_won;
         r_roundsLost := roundsPlayed (pl_stats player) - rounds_won;
         r_attackRoundsWon := attackWins side;
         r_attackRoundsLost := attackLosses side;
         r_defenseRoundsWon := defenseWins side;
         r_defenseRoundsLost := defenseLosses side;
         r_kills := Num (ps_kills (pl_stats player));
         r_deaths := Num (ps_deaths (pl_stats player));
         r_assists := Num (ps_assists (pl_stats player));
         r_averageCombatScore := Num (round_ndigits acs 1);
         r_damagePerRound := Num (round_ndigits dpr 1);
         r_first_kills := Num (first_kills agg);
         r_first_deaths := Num (first_deaths agg);
         r_headshot_rate := Num (round_ndigits hsr 3) |} in
    let cleaned_game_data := (cleaned_game_data st ++ [player_row])%list in
    added ← getitem (team_rows_added_map st) (team_row_key (pl_teamId player));
    if negb added then
      let team_row :=
        {| r_game_id := game_id h;
           r_series_id := series_id sm;
           r_tournament_id := tournament_id sm;
           r_tournament_name := tournament_name sm;
           r_map_id := map_id h;
           r_map_name := h_map_name h;
           r_game_start := game_start h;
           r_game_version := game_version_clean h;
           r_game_number := game_number (this_game_metadata h);
           r_player_name := EmptyString;
           r_team_id := team_id;
           r_team_name := team_name;
           r_agent_id := EmptyString;
           r_agent_name := EmptyString;
           r_win := if (winner : bool) then 1 else 0;
           r_roundsWon := rounds_won;
           r_roundsLost := roundsPlayed (pl_stats player) - rounds_won;
           r_attackRoundsWon := attackWins side;
           r_attackRoundsLost := attackLosses side;
           r_defenseRoundsWon := defenseWins side;
           r_defenseRoundsLost := defenseLosses side;
           r_kills := Blank;
           r_deaths := Blank;
           r_assists := Blank;
           r_averageCombatScore := Blank;
           r_damagePerRound := Blank;
           r_first_kills := Blank;
           r_first_deaths := Blank;
           r_headshot_rate := Blank |} in
      Ok {| cleaned_game_data := (cleaned_game_data ++ [team_row])%list;
            team_rows_added_map :=
              <[team_row_key (pl_teamId player) := true]> (team_rows_added_map st);
            player_count_found := player_count_found |}
    else
      Ok {| cleaned_game_data := cleaned_game_data;
            team_rows_added_map := team_rows_added_map st;
            player_count_found := player_count_found |}.

(** The sort key: whether the player name is empty, the player name, the
    team name; and the order of such tuples. *)
Definition row_key (r : row) : bool * string * string :=
  (String.eqb (r_player_name r) EmptyString, r_player_name r, r_team_name r).

Definition bool_cmp (a b : bool) : comparison :=
  match a, b with
  | false, true => Lt
  | true, false => Gt
  | _, _ => Eq
  end.

Definition row_key_leb (a b : bool * string * string) : bool :=
  let '(a1, a2, a3) := a in
  let '(b1, b2, b3) := b in
  match bool_cmp a1 b1 with
  | Lt => true
  | Gt => false
  | Eq =>
      match String.compare a2 b2 with
      | Lt => true
      | Gt => false
      | Eq => String.leb a3 b3
      end
  end.

(** The three checks after the loop over the players. *)
Definition check_rows (st : rows_state) : result unit :=
  if player_count_found st <? 10 then Err ValueError
  else
    blue ← getitem (team_rows_added_map st) "Blue_team_row_added";
    if negb blue then Err ValueError
    else
      red ← getitem (team_rows_added_map st) "Red_team_row_added";
      if negb red then Err ValueError
      else Ok tt.

(** [game_factory(raw_game_data, series_metadata, val_metadata)] *)
Definition game_factory (raw : raw_game_data) (sm : series_metadata)
    (vm : val_metadata) : result (list row) :=
  let game_id := matchId (matchInfo raw) in
  let map_id := mapId (matchInfo raw) in
  map_entry ← getitem (maps vm) map_id;
  let map_name := displayName map_entry in
  seconds ← truediv (gameStartMillis (matchInfo raw)) 1000;
  game_start ← fromtimestamp seconds;
  let dash := "-"%char in
  let start_simple_gm_ver := PyStr.find dash (gameVersion (matchInfo raw)) + 1 in
  let end_simple_gm_vr :=
    PyStr.find_from dash (start_simple_gm_ver + 1) (gameVersion (matchInfo raw)) in
  game_version_clean ←
    float_of_str (PyStr.slice start_simple_gm_ver end_simple_gm_vr
                    (gameVersion (matchInfo raw)));
  this_game_metadata ← match_game_metadata map_name (games sm);
  team_side_refs ← resolve_team_side_refs this_game_metadata (rg_teams raw);
  stats ← for_each process_round (enumerate (roundResults raw)) initial_preagg;
  let h := {| game_id := game_id; map_id := map_id; h_map_name := map_name;
              game_start := game_start;
              game_version_clean := game_version_clean;
              this_game_metadata := this_game_metadata;
              team_side_refs := team_side_refs;
              stats := stats |} in
  st ← for_each (add_player_rows sm vm h) (players raw)
         {| cleaned_game_data := [];
            team_rows_added_map := initial_team_rows_added_map;
            player_count_found := 0 |};
  _ ← check_rows st;
  Ok (sorted row_key_leb row_key (cleaned_game_data st)).

End Flattener.

End Val.

(** ** The HTTP client: [API_Messenger.get]

    Both scripts carry the same retry loop.  The network is a function that
    gives the reply to each request, numbered from 0; a reply is all the
    loop looks at.  The log lines are dropped, the sleeps are recorded. *)

Module Http.

(** What one [requests.get(request_url, headers=..., timeout=3)] does. *)
Inductive reply :=
| TimedOut
    (** raises [requests.exceptions.Timeout] *)
| Failed
    (** raises another exception, which the loop does not catch *)
| Response (status_code : Z) (retry_after : option Z) (content : string).
    (** [retry_after] is the number of seconds that
        [time.sleep(int(response.headers.get("Retry-After")))] sleeps,
        or [None] when that statement raises (no such header, a text
        that is no integer, a negative number). *)

Inductive raised :=
| Exception
    (** [Exception("API request failed too many times")] *)
| RequestError
| RetryAfterError.

Inductive outcome :=
| Return_content (content : string)
| Return_status (status_code : Z)
| Raise (e : raised).

(** The state in which [get] is left: what it returns or raises, the last
    value of [try_count], and the sleeps made, oldest first. *)
Record run := {
  outcome_of : outcome;
  try_count : nat;
  slept : list Z
}.

(** The [while True] loop.  [try_count] grows by one on every path that
    continues and the loop raises once it reaches 5, so the recursion is
    on [tries_left], the distance of [try_count] from 5.  One request is
    sent per iteration, so the request sent at [try_count] is request
    number [try_count]. *)
Fixpoint get_loop (tries_left : nat) (try_count : nat) (network : nat -> reply)
    (slept : list Z) : run :=
  match tries_left with
  | O => {| outcome_of := Raise Exception; try_count := try_count; slept := slept |}
  | S tries_left' =>
      match network try_count with
      | TimedOut => get_loop tries_left' (S try_count) network slept
      | Failed =>
          {| outcome_of := Raise RequestError; try_count := try_count; slept := slept |}
      | Response status_code retry_after content =>
          if status_code =? 200 then
            {| outcome_of := Return_content content;
               try_count := try_count; slept := slept |}
          else if status_code =? 429 then
            match retry_after with
            | Some seconds =>
                get_loop tries_left' (S try_count) network (slept ++ [seconds])%list
            | None =>
                {| outcome_of := Raise RetryAfterError;
                   try_count := try_count; slept := slept |}
            end
          else if status_code =? 401 then
            {| outcome_of := Return_status status_code;
               try_count := try_count; slept := slept |}
          else if status_code =? 403 then
            {| outcome_of := Return_status status_code;
               try_count := try_count; slept := slept |}
          else if status_code =? 404 then
            {| outcome_of := Return_status status_code;
               try_count := try_count; slept := slept |}
          else get_loop tries_left' (S try_count) network (slept ++ [1])%list
      end
  end.

(** [API_Messenger.get(...)] *)
Definition get (network : nat -> reply) : run := get_loop 5 0 network [].

End Http.

(** ** The CSV writer of the League of Legends script *)

Module LolCsv.
Import Lol.

(** A value of an output dict. *)
Inductive value :=
| VNone
| VStr (s : string)
| VInt (n : Z)
| VFloat (q : Q)
| VList (l : list (Z * Z)).

Definition of_tag (t : option string) : value :=
  match t with Some s => VStr s | None => VNone end.

Definition FIELD_LIST : list string :=
  [ "platform_game_id"; "tournament_id"; "tournament_name"; "summoner_name";
    "team_tag"; "side"; "auto_detect_role"; "champion"; "win"; "game_duration";
    "kills"; "deaths"; "assists"; "kda"; "kill_participation"; "team_kills";
    "team_deaths"; "firstBloodKill"; "firstBloodAssist"; "firstBloodVictim";
    "damagePerMinute"; "damageShare"; "wardsPlacedPerMinute";
    "wardsClearedPerMinute"; "controlWardsPurchased"; "creepScore";
    "creepScorePerMinute"; "goldEarned"; "goldEarnedPerMinute"; "firstTurret";
    "turretKills"; "turretPlates"; "firstDragon"; "dragonKills"; "firstHerald";
    "riftHeraldKills"; "baronKills"; "inhibitorKills"; "bans" ].

(** The keys and values of [player_dto], in the order of the dict display. *)
Definition player_items (d : player_dto) : list (string * value) :=
  [ ("platform_game_id", VStr (pd_platform_game_id d));
    ("tournament_id", VStr (pd_tournament_id d));
    ("tournament_name", VStr (pd_tournament_name d));
    ("summoner_name", VStr (pd_summoner_name d));
    ("team_tag", of_tag (pd_team_tag d));
    ("side", VInt (pd_side d));
    ("auto_detect_role", VStr (pd_auto_detect_role d));
    ("champion", VStr (pd_champion d));
    ("win", VInt (pd_win d));
    ("game_duration", VInt (pd_game_duration d));
    ("kills", VInt (pd_kills d));
    ("deaths", VInt (pd_deaths d));
    ("assists", VInt (pd_assists d));
    ("kda", VFloat (pd_kda d));
    ("kill_participation", VFloat (pd_kill_participation d));
    ("team_kills", VInt (pd_team_kills d));
    ("team_deaths", VInt (pd_team_deaths d));
    ("firstBloodKill", VInt (pd_firstBloodKill d));
    ("firstBloodAssist", VInt (pd_firstBloodAssist d));
    ("firstBloodVictim", VInt (pd_firstBloodVictim d));
    ("damagePerMinute", VFloat (pd_damagePerMinute d));
    ("damageShare", VFloat (pd_damageShare d));
    ("wardsPlacedPerMinute", VFloat (pd_wardsPlacedPerMinute d));
    ("wardsClearedPerMinute", VFloat (pd_wardsClearedPerMinute d));
    ("controlWardsPurchased", VInt (pd_controlWardsPurchased d));
    ("creepScore", VInt (pd_creepScore d));
    ("creepScorePerMinute", VFloat (pd_creepScorePerMinute d));
    ("goldEarned", VInt (pd_goldEarned d));
    ("goldEarnedPerMinute", VFloat (pd_goldEarnedPerMinute d)) ].

(** The keys and values of [team_dto]. *)
Definition team_items (d : team_dto) : list (string * value) :=
  [ ("platform_game_id", VStr (td_platform_game_id d));
    ("tournament_id", VStr (td_tournament_id d));
    ("tournament_name", VStr (td_tournament_name d));
    ("team_tag", of_tag (td_team_tag d));
    ("side", VInt (td_side d));
    ("win", VInt (td_win d));
    ("gameDuration", VInt (td_gameDuration d));
    ("teamKills", VInt (td_teamKills d));
    ("teamDeaths", VInt (td_teamDeaths d));
    ("firstBloodKill", VInt (td_firstBloodKill d));
    ("wardsPlacedPerMinute", VFloat (td_wardsPlacedPerMinute d));
    ("wardsClearedPerMinute", VFloat (td_wardsClearedPerMinute d));
    ("controlWardsPurchased", VInt (td_controlWardsPurchased d));
    ("creepScorePerMinute", VFloat (td_creepScorePerMinute d));
    ("goldEarnedPerMinute", VFloat (td_goldEarnedPerMinute d));
    ("firstTurret", VInt (td_firstTurret d));
    ("turretKills", VInt (td_turretKills d));
    ("turretPlates", VInt (td_turretPlates d));
    ("firstDragon", VInt (td_firstDragon d));
    ("dragonKills", VInt (td_dragonKills d));
    ("firstHerald", VInt (td_firstHerald d));
    ("riftHeraldKills", VInt (td_riftHeraldKills d));
    ("baronKills", VInt (td_baronKills d));
    ("inhibitorKills", VInt (td_inhibitorKills d));
    ("bans", VList (td_bans d)) ].

Definition items (r : row) : list (string * value) :=
  match r with
  | PlayerRow d => player_items d
  | TeamRow d => team_items d
  end.

(** [d.get(key)] on a dict given by its items: [None] for a missing key. *)
Fixpoint get (key : string) (d : list (string * value)) : value :=
  match d with
  | [] => VNone
  | (k, v) :: d' => if String.eqb k key then v else get key d'
  end.

(** [[row.get(field) for field in FIELD_LIST]] *)
Definition csv_line (r : row) : list value :=
  map (fun field => get field (items r)) FIELD_LIST.

(** The lines written after the header line. *)
Definition csv_lines (output_array : list row) : list (list value) :=
  map csv_line output_array.

End LolCsv.

(** ** The series loop of the Valorant script *)

Module ValMain.
Import Val.

Section Series.
Context `{PyRuntime}.

(** The loop over the games of the end-state file: a game whose
    metadata cannot be made is logged and left out. *)
Fixpoint collect_game_metadata (grid_games : list grid_game)
    (games : list game_metadata) : list game_metadata :=
  match grid_games with
  | [] => games
  | game_grid_endstate :: rest =>
      match game_metadata_factory game_grid_endstate with
      | Ok game_metadata => collect_game_metadata rest (games ++ [game_metadata])
      | Err _ => collect_game_metadata rest games
      end
  end.

(** The loop over the games of the match-history file: the flattener
    is called outside any [try]. *)
Definition flatten_series (series_data : list raw_game_data)
    (sm : series_metadata) (vm : val_metadata) (output_array : list row)
  : result (list row) :=
  for_each
    (fun output_array game_data =>
       cleaned_game_data ← game_factory game_data sm vm;
       Ok (output_array ++ cleaned_game_data)%list)
    series_data output_array.

(** The metadata of a series: the dict made from the series query,
    with the games that the loop over the end-state file appends. *)
Definition make_series_metadata (series_id tournament_id tournament_name : string)
    (grid_games : list grid_game) : series_metadata :=
  {| series_id := series_id; tournament_id := tournament_id;
     tournament_name := tournament_name;
     games := collect_game_metadata grid_games [] |}.

(** One series of [main], after its downloads. *)
Definition series_rows (series_id tournament_id tournament_name : string)
    (grid_games : list grid_game) (series_data : list raw_game_data)
    (vm : val_metadata) (output_array : list row) : result (list row) :=
  flatten_series series_data
    (make_series_metadata series_id tournament_id tournament_name grid_games)
    vm output_array.

End Series.
End ValMain.

(** ** Strings of arbitrary code points

    A Python [str] is a sequence of Unicode code points.  The name splitter
    is embedded once more on such sequences, with the three character
    tests of the interpreter's character database as parameters: whatever
    the database says of a code point, the splitter is the function below. *)

Class UnicodeData := {
  (** [Py_UNICODE_ISLOWER], [Py_UNICODE_ISTITLE], [Py_UNICODE_ISUPPER] *)
  cp_islower : N -> bool;
  cp_istitle : N -> bool;
  cp_isupper : N -> bool
}.

Module PyUnicode.

Definition str : Type := list N.

Definition space : N := 32%N.

(** [s.find(c)] for a one-character needle: the least index, or [-1]. *)
Fixpoint find (c : N) (s : str) : Z :=
  match s with
  | [] => -1
  | a :: s' =>
      if N.eqb a c then 0
      else let r := find c s' in if r =? -1 then -1 else r + 1
  end.

(** [s.split(c)] for a one-character separator: never the empty list. *)
Fixpoint split (c : N) (s : str) : list str :=
  match s with
  | [] => [[]]
  | a :: s' =>
      if N.eqb a c then [] :: split c s'
      else match split c s' with
           | w :: ws => (a :: w) :: ws
           | [] => [[a]]
           end
  end.

(** [s[i:]]: a negative start counts from the end, both clipped. *)
Definition slice_from (i : Z) (s : str) : str :=
  let len := Z.of_nat (length s) in
  let start := if i <? 0 then Z.max 0 (i + len) else i in
  skipn (Z.to_nat start) s.

Section Cased.
Context {U : UnicodeData}.

(** The loop of [str.isupper]: a lower-case or title-case character
    ends it with [False]; [cased] is set at the first upper-case one. *)
Fixpoint isupper_loop (cased : bool) (s : str) : bool :=
  match s with
  | [] => cased
  | ch :: s' =>
      if cp_islower ch || cp_istitle ch then false
      else if negb cased && cp_isupper ch then isupper_loop true s'
      else isupper_loop cased s'
  end.

(** [s.isupper()]: a string of one character is decided by the
    upper-case test alone, the empty string is not upper-case. *)
Definition isupper (s : str) : bool :=
  match s with
  | [ch] => cp_isupper ch
  | [] => false
  | _ => isupper_loop false s
  end.

(** [split_team_tag_and_player_nickname(summoner_name)] *)
Definition split_team_tag_and_player_nickname (summoner_name : str)
  : result (option str * str) :=
  let team_tag := None in
  let player_name := summoner_name in
  if negb (find space summoner_name =? -1) && (find space summoner_name <? 5)
  then
    start_of_summoner_name ← first_item (split space summoner_name);
    if isupper start_of_summoner_name
    then Ok (Some start_of_summoner_name,
             slice_from (find space summoner_name + 1) summoner_name)
    else Ok (team_tag, player_name)
  else Ok (team_tag, player_name).

End Cased.

End PyUnicode.

(** * Vocabulary of the properties *)

(** The character [c] does not occur in [s]. *)
Definition no_char (c : ascii) (s : string) : Prop :=
  PyStr.any (fun a => Ascii.eqb a c) s = false.

(** The events the timeline loop reads: those of the frames before the first
    frame whose timestamp exceeds the cutoff, in frame and event order. *)
Fixpoint scanned_events (fs : list Lol.frame) : list Lol.event :=
  match fs with
  | [] => []
  | f :: fs' =>
      if Lol.timestamp f >? 850000 then []
      else (Lol.events f ++ scanned_events fs')%list
  end.

(** The victim of the first kill in list order whose killer is not 0. *)
Fixpoint first_blood (evs : list Lol.event) : option Z :=
  match evs with
  | [] => None
  | e :: evs' =>
      match Lol.ev_data e with
      | Lol.CHAMPION_KILL killerId victimId =>
          if killerId =? 0 then first_blood evs' else Some victimId
      | _ => first_blood evs'
      end
  end.

(** The number of plate events tagged with [teamId]. *)
Fixpoint plate_events (teamId : Z) (evs : list Lol.event) : Z :=
  match evs with
  | [] => 0
  | e :: evs' =>
      match Lol.ev_data e with
      | Lol.TURRET_PLATE_DESTROYED t =>
          if t =? teamId then 1 + plate_events teamId evs'
          else plate_events teamId evs'
      | _ => plate_events teamId evs'
      end
  end.

(** The sum of a raw counter over the participants of one side. *)
Fixpoint team_sum (f : Lol.participant -> Z) (side : Z)
    (ps : list Lol.participant) : Z :=
  match ps with
  | [] => 0
  | p :: ps' =>
      if Lol.p_teamId p =? side then f p + team_sum f side ps'
      else team_sum f side ps'
  end.

(** The number of player rows whose first-blood-victim flag is 1. *)
Fixpoint flagged_rows (rows : list Lol.row) : nat :=
  match rows with
  | [] => 0
  | Lol.PlayerRow d :: rows' =>
      if Lol.pd_firstBloodVictim d =? 1 then S (flagged_rows rows')
      else flagged_rows rows'
  | Lol.TeamRow _ :: rows' => flagged_rows rows'
  end.

Definition with_turret_plates (n : Z) (t : Lol.totals) : Lol.totals :=
  {| Lol.kills := Lol.kills t; Lol.deaths := Lol.deaths t;
     Lol.damage_to_champions := Lol.damage_to_champions t;
     Lol.gold_earned := Lol.gold_earned t; Lol.creep_score := Lol.creep_score t;
     Lol.wards_placed := Lol.wards_placed t; Lol.wards_killed := Lol.wards_killed t;
     Lol.control_wards_purchased := Lol.control_wards_purchased t;
     Lol.turret_plates := n |}.

(** A totals record with the raw counters of one side added. *)
Definition with_side_added (side : Z) (ps : list Lol.participant)
    (t : Lol.totals) : Lol.totals :=
  {| Lol.kills := Lol.kills t + team_sum Lol.p_kills side ps;
     Lol.deaths := Lol.deaths t + team_sum Lol.p_deaths side ps;
     Lol.damage_to_champions :=
       Lol.damage_to_champions t
       + team_sum Lol.p_totalDamageDealtToChampions side ps;
     Lol.gold_earned := Lol.gold_earned t + team_sum Lol.p_goldEarned side ps;
     Lol.creep_score :=
       Lol.creep_score t
       + team_sum (fun p => Lol.p_totalMinionsKilled p + Lol.p_neutralMinionsKilled p)
                  side ps;
     Lol.wards_placed := Lol.wards_placed t + team_sum Lol.p_wardsPlaced side ps;
     Lol.wards_killed := Lol.wards_killed t + team_sum Lol.p_wardsKilled side ps;
     Lol.control_wards_purchased :=
       Lol.control_wards_purchased t
       + team_sum Lol.p_visionWardsBoughtInGame side ps;
     Lol.turret_plates := Lol.turret_plates t |}.

(** A loop that only collects: the results of [f] on the elements, in
    order, or the first exception. *)
Fixpoint traverse {A B : Type} (f : A -> result B) (xs : list A) : result (list B) :=
  match xs with
  | [] => Ok []
  | x :: xs' => y ← f x; ys ← traverse f xs'; Ok (y :: ys)
  end.

(** The only exception [r] can raise is [E]. *)
Definition only_raises {A : Type} (E : exn) (r : result A) : Prop :=
  forall e, r = Err e -> e = E.

(** The first-blood-victim flag a participant should get when the first
    blood, if any, is [fb]. *)
Definition flag_of (fb : option Z) (p : Lol.participant) : Z :=
  match fb with
  | Some v => if Lol.p_participantId p =? v then 1 else 0
  | None => 0
  end.

(** [k] is the earliest entry of [l]: no entry has a smaller key, and the
    entries in front of [k] have a strictly larger one. *)
Definition is_earliest {A : Type} (key : A -> Z) (l : list A) (k : A) : Prop :=
  exists pre post,
    l = (pre ++ k :: post)%list
    /\ (forall y, In y pre -> key k < key y)
    /\ (forall y, In y post -> key k <= key y).

(** The first-kill and first-death counters of a player, 0 when the player
    has no entry yet. *)
Definition first_kills_of (stats : gmap string Val.player_agg) (puuid : string) : Z :=
  match stats !! puuid with
  | Some a => Val.first_kills a
  | None => 0
  end.

Definition first_deaths_of (stats : gmap string Val.player_agg) (puuid : string) : Z :=
  match stats !! puuid with
  | Some a => Val.first_deaths a
  | None => 0
  end.

(** The number of players that are not on the [Neutral] side. *)
Fixpoint non_neutral (ps : list Val.raw_player) : Z :=
  match ps with
  | [] => 0
  | p :: ps' =>
      if String.eqb (Val.pl_teamId p) "Neutral" then non_neutral ps'
      else 1 + non_neutral ps'
  end.

(** The round count of a metadata team, when the team dict is not empty. *)
Definition expected_rounds (d : option Val.team_meta) : option Z :=
  Val.rounds_won <$> d.

(** A vendor team matches one of the two metadata teams by its round wins. *)
Definition matches_metadata (gm : Val.game_metadata) (team : Val.raw_team) : Prop :=
  expected_rounds (Val.team_one gm) = Some (Val.rt_roundsWon team)
  \/ expected_rounds (Val.team_two gm) = Some (Val.rt_roundsWon team).

(** Both sides have an entry in the attack/defence table. *)
Definition has_both_sides (stats : gmap string Val.side_agg) : Prop :=
  is_Some (stats !! "Blue") /\ is_Some (stats !! "Red").

(** The killer and the victim of the earliest kill of a round, if any. *)
Definition first_killer (rd : Val.round_result) : option string :=
  Val.killer
    <$> head (sorted Z.leb Val.timeSinceRoundStartMillis (Val.round_kill_events rd)).

Definition first_victim (rd : Val.round_result) : option string :=
  Val.victim
    <$> head (sorted Z.leb Val.timeSinceRoundStartMillis (Val.round_kill_events rd)).

(** The number of rounds in which [who] names the player [puuid]. *)
Fixpoint rounds_credited (who : Val.round_result -> option string) (puuid : string)
    (rounds : list Val.round_result) : Z :=
  match rounds with
  | [] => 0
  | rd :: rounds' =>
      match who rd with
      | Some q =>
          if String.eqb puuid q then 1 + rounds_credited who puuid rounds'
          else rounds_credited who puuid rounds'
      | None => rounds_credited who puuid rounds'
      end
  end.

(** The tag and the name that the name splitter gives for a participant. *)
Definition tag_of (p : Lol.participant) : option string :=
  match Lol.split_team_tag_and_player_nickname (Lol.p_riotIdGameName p) with
  | Ok (tag, _) => tag
  | Err _ => None
  end.

Definition name_of (p : Lol.participant) : string :=
  match Lol.split_team_tag_and_player_nickname (Lol.p_riotIdGameName p) with
  | Ok (_, name) => name
  | Err _ => Lol.p_riotIdGameName p
  end.

(** The tag of the first participant of a side that has one. *)
Fixpoint side_tag (side : Z) (ps : list Lol.participant) : option string :=
  match ps with
  | [] => None
  | p :: ps' =>
      if Lol.p_teamId p =? side then
        match tag_of p with
        | Some t => Some t
        | None => side_tag side ps'
        end
      else side_tag side ps'
  end.

(** A side the flattener knows. *)
Definition known_side (side : Z) : Prop := side = 100 \/ side = 200.

(** The number of rounds, numbered from [i + 1], in which [side] attacks and
    wins, and in which it attacks and does not win. *)
Fixpoint attack_wins (side : string) (i : Z) (rounds : list Val.round_result) : Z :=
  match rounds with
  | [] => 0
  | rd :: rounds' =>
      int_of_bool (String.eqb (Val.attackers (i + 1)) side
                   && String.eqb (Val.winningTeam rd) side)
      + attack_wins side (i + 1) rounds'
  end.

Fixpoint attack_losses (side : string) (i : Z) (rounds : list Val.round_result) : Z :=
  match rounds with
  | [] => 0
  | rd :: rounds' =>
      int_of_bool (String.eqb (Val.attackers (i + 1)) side
                   && negb (String.eqb (Val.winningTeam rd) side))
      + attack_losses side (i + 1) rounds'
  end.

(** The four damage counters, as read from a damage entry and from the
    pre-aggregated statistics of a player. *)
Inductive shot_kind := Damage | Head | Body | Leg.

Definition entry_get (k : shot_kind) (t : Val.damage_entry) : Z :=
  match k with
  | Damage => Val.damage t
  | Head => Val.headshots t
  | Body => Val.bodyshots t
  | Leg => Val.legshots t
  end.

Definition agg_get (k : shot_kind) (a : Val.player_agg) : Z :=
  match k with
  | Damage => Val.total_damage a
  | Head => Val.agg_headshots a
  | Body => Val.agg_bodyshots a
  | Leg => Val.agg_legshots a
  end.

(** A counter of a player in the statistics, 0 without an entry. *)
Definition agg_field (k : shot_kind) (stats : gmap string Val.player_agg)
    (puuid : string) : Z :=
  match stats !! puuid with
  | Some a => agg_get k a
  | None => 0
  end.

(** The sum of a counter over damage entries, over the entries of a player
    in one round, and over all rounds. *)
Fixpoint hits (k : shot_kind) (targets : list Val.damage_entry) : Z :=
  match targets with
  | [] => 0
  | t :: targets' => entry_get k t + hits k targets'
  end.

Fixpoint round_hits (k : shot_kind) (puuid : string)
    (prs : list Val.player_round_stats) : Z :=
  match prs with
  | [] => 0
  | pr :: prs' =>
      (if String.eqb (Val.prs_puuid pr) puuid then hits k (Val.prs_damage pr) else 0)
      + round_hits k puuid prs'
  end.

Fixpoint game_hits (k : shot_kind) (puuid : string)
    (rounds : list Val.round_result) : Z :=
  match rounds with
  | [] => 0
  | rd :: rounds' =>
      round_hits k puuid (Val.playerStats rd) + game_hits k puuid rounds'
  end.

(** The player has statistics in some round. *)
Definition plays_in (puuid : string) (rounds : list Val.round_result) : Prop :=
  exists rd pr,
    In rd rounds /\ In pr (Val.playerStats rd) /\ Val.prs_puuid pr = puuid.

(** The number of team rows written so far, read off the two flags. *)
Definition flag_set (m : gmap string bool) (key : string) : Z :=
  match m !! key with
  | Some true => 1
  | _ => 0
  end.

Definition team_rows_written (m : gmap string bool) : Z :=
  flag_set m "Blue_team_row_added" + flag_set m "Red_team_row_added".

(** [a] is at or before [b] in the order of the sort keys
    [(player_name == '', player_name, team_name)], compared as tuples:
    a row with a player name is before a row without one; two rows that
    both have one, or both have none, are in the order of their player
    names and, when these are equal, of their team names. *)
Definition in_key_order `{PyRuntime} (a b : Val.row) : Prop :=
  (Val.r_player_name a <> EmptyString /\ Val.r_player_name b = EmptyString)
  \/ ((Val.r_player_name a = EmptyString <-> Val.r_player_name b = EmptyString)
      /\ (String.compare (Val.r_player_name a) (Val.r_player_name b) = Lt
          \/ (Val.r_player_name a = Val.r_player_name b
              /\ String.leb (Val.r_team_name a) (Val.r_team_name b) = true))).

(** The rows written so far are one per counted player plus the team rows,
    and the flag table has no key but the two it starts with. *)
Definition rows_accounted `{PyRuntime} (st : Val.rows_state) : Prop :=
  Z.of_nat (length (Val.cleaned_game_data st))
  = Val.player_count_found st + team_rows_written (Val.team_rows_added_map st)
  /\ forall k, is_Some (Val.team_rows_added_map st !! k) ->
       k = "Blue_team_row_added" \/ k = "Red_team_row_added".

(** The text the flattener hands to [float]: the slice of the game version
    between the position after the first dash and the next dash found from
    two positions after the first one. *)
Definition version_text (gameVersion : string) : string :=
  let dash := "-"%char in
  let start := PyStr.find dash gameVersion + 1 in
  PyStr.slice start (PyStr.find_from dash (start + 1) gameVersion) gameVersion.

(** The table has no side but Blue and Red. *)
Definition only_sides (stats : gmap string Val.side_agg) : Prop :=
  forall k, is_Some (stats !! k) -> k = "Blue" \/ k = "Red".

(** The metadata team made from an end-state team. *)
Definition team_meta_of (t : Val.grid_team) : Val.team_meta :=
  {| Val.tmeta_id := Val.gt_id t; Val.tmeta_name := Val.gt_name t;
     Val.winner := Val.gt_won t; Val.rounds_won := Val.gt_score t |}.

(** The separator of the parts of a game version. *)
Definition dash : ascii := "-"%char.

(** A reply after which the retry loop asks again: a timeout, a 429 whose
    Retry-After can be slept, or a status other than 200, 401, 403, 404. *)
Definition retryable (r : Http.reply) : bool :=
  match r with
  | Http.TimedOut => true
  | Http.Failed => false
  | Http.Response code retry_after _ =>
      if code =? 429 then bool_decide (is_Some retry_after)
      else negb ((code =? 200) || (code =? 401) || (code =? 403) || (code =? 404))
  end.

(** The sleep that follows a reply before the next request. *)
Definition pause (r : Http.reply) : list Z :=
  match r with
  | Http.Response code retry_after _ =>
      if code =? 429 then match retry_after with Some n => [n] | None => [] end
      else [1]
  | _ => []
  end.

(** The number of requests a run has sent: one per retry, and the one that
    ended it unless it ended on the retry limit. *)
Definition requests_sent (r : Http.run) : nat :=
  match Http.outcome_of r with
  | Http.Raise Http.Exception => Http.try_count r
  | _ => S (Http.try_count r)
  end.

(** The replies to the first [n] requests. *)
Definition first_replies (network : nat -> Http.reply) (n : nat) : list Http.reply :=
  map network (seq 0 n).

(** An end-state game of which the metadata can be made. *)
Definition usable (g : Val.grid_game) : bool :=
  Val.started g && Val.finished g && (length (Val.gg_teams g) <=? 2)%nat.

(** What a run [r] of the retry loop satisfies when it was entered with
    [try_count = k], [n] tries left and the sleeps [sl] behind it: it stops
    within the tries left, has seen only retryable replies since, has slept
    after each of them, raises the retry-limit exception exactly when the
    tries are used up, and otherwise stops at a reply that is not retryable
    and returns its content or status code. *)
Definition run_from (network : nat -> Http.reply) (k n : nat) (sl : list Z)
    (r : Http.run) : Prop :=
  (k <= Http.try_count r <= k + n)%nat
  /\ (forall j, (k <= j < Http.try_count r)%nat -> retryable (network j) = true)
  /\ Http.slept r
     = (sl ++ flat_map pause (map network (seq k (Http.try_count r - k))))%list
  /\ (Http.outcome_of r = Http.Raise Http.Exception
      <-> Http.try_count r = (k + n)%nat)
  /\ ((Http.try_count r < k + n)%nat ->
      retryable (network (Http.try_count r)) = false)
  /\ (forall c,
        Http.outcome_of r = Http.Return_content c
        <-> (Http.try_count r < k + n)%nat
            /\ exists ra, network (Http.try_count r) = Http.Response 200 ra c)
  /\ (forall code,
        Http.outcome_of r = Http.Return_status code
        <-> (Http.try_count r < k + n)%nat
            /\ (code = 401 \/ code = 403 \/ code = 404)
            /\ exists ra c, network (Http.try_count r) = Http.Response code ra c).

(** The keys of a row. *)
Definition keys (r : Lol.row) : list string := map fst (LolCsv.items r).

Definition mentions (names : list string) (name : string) : bool :=
  existsb (String.eqb name) names.

(** The keys of a row that no column of the CSV file reads. *)
Definition unread_keys (r : Lol.row) : list string :=
  List.filter (fun key => negb (mentions LolCsv.FIELD_LIST key)) (keys r).

(** The columns of the CSV file for which a row has no key. *)
Definition unfed_columns (r : Lol.row) : list string :=
  List.filter (fun field => negb (mentions (keys r) field)) LolCsv.FIELD_LIST.

(** The code points of a text of characters below 256. *)
Definition code_points (s : string) : PyUnicode.str :=
  map N_of_ascii (list_ascii_of_string s).

(** The character database says of the code points below 256 what the
    tables of [PyStr] say; none of them is title-case. *)
Definition extends_latin1 (U : UnicodeData) : Prop :=
  forall a : ascii,
    cp_islower (N_of_ascii a) = PyStr.is_lower a
    /\ cp_isupper (N_of_ascii a) = PyStr.is_upper a
    /\ cp_istitle (N_of_ascii a) = false.

(** The result of the splitter on characters below 256, as code points. *)
Definition as_code_points (r : result (option string * string))
  : result (option PyUnicode.str * PyUnicode.str) :=
  match r with
  | Ok (tag, name) => Ok (code_points <$> tag, code_points name)
  | Err e => Err e
  end.

(** An integer that Python turns into a float, and divides, without an
    [OverflowError]: its magnitude is below [2 ^ 1023]. *)
Definition fits_double (n : Z) : bool := Z.abs n <? 2 ^ 1023.

(** The numerators of the divisions of a player row fit a float. *)
Definition participant_fits (p : Lol.participant) : bool :=
  fits_double (Lol.p_kills p + Lol.p_assists p)
  && fits_double (Lol.p_totalDamageDealtToChampions p)
  && fits_double (Lol.p_wardsPlaced p)
  && fits_double (Lol.p_wardsKilled p)
  && fits_double (Lol.p_totalMinionsKilled p + Lol.p_neutralMinionsKilled p)
  && fits_double (Lol.p_goldEarned p).

(** The numerators of the divisions of the team row of a side fit a float. *)
Definition side_fits (side : Z) (ps : list Lol.participant) : bool :=
  fits_double (team_sum Lol.p_wardsPlaced side ps)
  && fits_double (team_sum Lol.p_wardsKilled side ps)
  && fits_double
       (team_sum (fun p => Lol.p_totalMinionsKilled p + Lol.p_neutralMinionsKilled p)
          side ps)
  && fits_double (team_sum Lol.p_goldEarned side ps).

(** The counters of a stats file are in the range in which Python's
    division raises no [OverflowError]; the embedding of the division is
    meant for this range. *)
Definition counters_fit (sf : Lol.stats_file) : bool :=
  fits_double (Lol.gameDuration sf)
  && forallb participant_fits (Lol.participants sf)
  && side_fits 100 (Lol.participants sf)
  && side_fits 200 (Lol.participants sf).

(** The side that defends when [side] attacks. *)
Definition other_side (side : string) : string :=
  if String.eqb side "Blue" then "Red" else "Blue".

(** What a row holds of the matched metadata, of a metadata team and of
    the attack and defence counters of a side. *)
Definition row_common `{PyRuntime} (gm : Val.game_metadata) (map_name : string)
    (tm : Val.team_meta) (side : Val.side_agg) (r : Val.row) : Prop :=
  Val.r_map_name r = map_name
  /\ Val.r_game_number r = Val.game_number gm
  /\ Val.r_team_id r = Val.tmeta_id tm
  /\ Val.r_team_name r = Val.tmeta_name tm
  /\ Val.r_roundsWon r = Val.rounds_won tm
  /\ Val.r_attackRoundsWon r = Val.attackWins side
  /\ Val.r_attackRoundsLost r = Val.attackLosses side
  /\ Val.r_defenseRoundsWon r = Val.defenseWins side
  /\ Val.r_defenseRoundsLost r = Val.defenseLosses side.

(** A team of the metadata. *)
Definition team_of (gm : Val.game_metadata) (tm : Val.team_meta) : Prop :=
  Val.team_one gm = Some tm \/ Val.team_two gm = Some tm.

(** The metadata team that a reference names. *)
Definition referred (gm : Val.game_metadata) (ref : Val.team_ref)
  : option Val.team_meta :=
  match ref with
  | Val.team_one_ref => Val.team_one gm
  | Val.team_two_ref => Val.team_two gm
  end.

(** The steps of the flattener before the three checks: the lookups, the
    loops over the teams and the rounds, and the loop over the players. *)
Definition before_checks `{PyRuntime} (raw : Val.raw_game_data)
    (sm : Val.series_metadata) (vm : Val.val_metadata) : result Val.rows_state :=
  map_entry ← getitem (Val.maps vm) (Val.mapId (Val.matchInfo raw));
  seconds ← truediv (Val.gameStartMillis (Val.matchInfo raw)) 1000;
  game_start ← fromtimestamp seconds;
  game_version_clean ←
    float_of_str (version_text (Val.gameVersion (Val.matchInfo raw)));
  this_game_metadata ← Val.match_game_metadata (Val.displayName map_entry) (Val.games sm);
  team_side_refs ← Val.resolve_team_side_refs this_game_metadata (Val.rg_teams raw);
  stats ← for_each Val.process_round (enumerate (Val.roundResults raw)) Val.initial_preagg;
  for_each
    (Val.add_player_rows sm vm
       {| Val.game_id := Val.matchId (Val.matchInfo raw);
          Val.map_id := Val.mapId (Val.matchInfo raw);
          Val.h_map_name := Val.displayName map_entry;
          Val.game_start := game_start;
          Val.game_version_clean := game_version_clean;
          Val.this_game_metadata := this_game_metadata;
          Val.team_side_refs := team_side_refs;
          Val.stats := stats |})
    (Val.players raw)
    {| Val.cleaned_game_data := [];
       Val.team_rows_added_map := Val.initial_team_rows_added_map;
       Val.player_count_found := 0 |}.

(** * Sample games *)

Module LolSample.
Import Lol.

Definition player (id side : Z) (name : string) (k d a : Z) : participant :=
  {| p_participantId := id; p_teamId := side; p_riotIdGameName := name;
     p_teamPosition := "MIDDLE"; p_championName := "Ahri";
     p_win := side =? 100;
     p_kills := k; p_deaths := d; p_assists := a;
     p_firstBloodKill := false; p_firstBloodAssist := false;
     p_totalDamageDealtToChampions := 12000;
     p_wardsPlaced := 15; p_wardsKilled := 6; p_visionWardsBoughtInGame := 3;
     p_totalMinionsKilled := 180; p_neutralMinionsKilled := 12;
     p_goldEarned := 9000 |}.

Definition no_objective : objective := {| o_first := false; o_kills := 0 |}.

Definition side_team (side : Z) (won : bool) (champion_kills : Z) : team :=
  {| tm_teamId := side; tm_win := won;
     tm_objectives :=
       {| champion := {| o_first := won; o_kills := champion_kills |};
          tower := no_objective; dragon := no_objective;
          riftHerald := no_objective; baron := no_objective;
          inhibitor := no_objective |};
     tm_bans := [] |}.

Definition plate (ts teamId : Z) : event :=
  {| ev_timestamp := ts; ev_data := TURRET_PLATE_DESTROYED teamId |}.

Definition kill_event (ts killerId victimId : Z) : event :=
  {| ev_timestamp := ts; ev_data := CHAMPION_KILL killerId victimId |}.

Definition info : series_info :=
  {| si_tournament_id := "42"; si_tournament_name := "Scrim" |}.

(** Ten players, five a side; side 100 wins 10 kills to 4. *)
Definition ten_players : list participant :=
  [ player 1 100 "TSM Bjergsen" 4 0 3;
    player 2 100 "TSM Spica" 1 1 6;
    player 3 100 "TSM Huni" 2 1 2;
    player 4 100 "TSM Lost" 3 1 4;
    player 5 100 "TSM SwordArt" 0 1 9;
    player 6 200 "Faker" 2 2 1;
    player 7 200 "Zeus" 1 2 1;
    player 8 200 "Oner" 0 2 3;
    player 9 200 "Gumayusi" 1 2 2;
    player 10 200 "Keria" 0 2 4 ].

Definition stats : stats_file :=
  {| gameDuration := 1800;
     participants := ten_players;
     teams := [side_team 100 true 10; side_team 200 false 4] |}.

(** An execution, then the first blood on player 7 although the later
    kill in the same frame carries an earlier timestamp; plates for both
    sides, one with an unknown team id, and one past the cutoff. *)
Definition timeline : timeline_file :=
  {| frames :=
       [ {| timestamp := 0; events := [] |};
         {| timestamp := 240000;
            events := [ kill_event 200000 0 3;
                        kill_event 230000 1 7;
                        kill_event 210000 6 2;
                        plate 235000 200 ] |};
         {| timestamp := 840000;
            events := [ plate 800000 100; plate 810000 200; plate 820000 300 ] |};
         {| timestamp := 900000; events := [ plate 860000 100 ] |} ] |}.

(** The same game with the first kill only after the cutoff. *)
Definition late_timeline : timeline_file :=
  {| frames :=
       [ {| timestamp := 0; events := [] |};
         {| timestamp := 840000; events := [ plate 800000 100 ] |};
         {| timestamp := 900000; events := [ kill_event 880000 1 7 ] |} ] |}.

(** Side 200 has no kill at all. *)
Definition shutout_stats : stats_file :=
  {| gameDuration := 1800;
     participants :=
       [ player 1 100 "TSM Bjergsen" 4 0 3;
         player 6 200 "Faker" 0 4 0 ];
     teams := [side_team 100 true 4; side_team 200 false 0] |}.

(** The vendor's team object reports 9 kills for side 100. *)
Definition miscounted_stats : stats_file :=
  {| gameDuration := 1800;
     participants := ten_players;
     teams := [side_team 100 true 9; side_team 200 false 4] |}.

(** Only two players and one team. *)
Definition short_stats : stats_file :=
  {| gameDuration := 1800;
     participants :=
       [ player 1 100 "TSM Bjergsen" 4 0 3;
         player 6 200 "Faker" 2 2 1 ];
     teams := [side_team 100 true 4] |}.

End LolSample.

Module ValSample.
Import Val.

(** A runtime for the sample games: a date is kept as its POSIX seconds,
    rounding is left out, map names are taken as already capitalised, and
    of the texts given to [float] only the version of the samples is
    read; the other text the samples give to it, [v8.03], is no numeral
    and is rejected by [float] as well. *)
Definition runtime : PyRuntime :=
  {| datetime := Q;
     fromtimestamp := fun q => Ok q;
     float_of_str := fun s =>
       if String.eqb s "08.03" then Ok (803 # 100) else Err ValueError;
     round_ndigits := fun q _ => q;
     capitalize := fun s => s |}.

Definition reference : val_metadata :=
  {| maps := <["/Game/Maps/Ascent/Ascent" := {| displayName := "Ascent" |}]> ∅;
     agents := <["jett" := {| displayName := "Jett" |}]> ∅ |}.

Definition series : series_metadata :=
  {| series_id := "2001"; tournament_id := "77"; tournament_name := "Masters";
     games :=
       [ {| map_name := "Ascent"; game_number := 1;
            team_one := Some {| tmeta_id := "t1"; tmeta_name := "Alpha";
                                winner := true; rounds_won := 13 |};
            team_two := Some {| tmeta_id := "t2"; tmeta_name := "Bravo";
                                winner := false; rounds_won := 5 |} |} ] |}.

Definition info : match_info :=
  {| matchId := "m-1"; mapId := "/Game/Maps/Ascent/Ascent";
     gameStartMillis := 1700000000000;
     gameVersion := "release-08.03-shipping-5-2319959" |}.

Definition hit : damage_entry :=
  {| damage := 150; headshots := 1; bodyshots := 2; legshots := 0 |}.

Definition in_round (puuid : string) (kills : list kill) : player_round_stats :=
  {| prs_puuid := puuid; prs_damage := [hit]; prs_kills := kills |}.

Definition shot (ms : Z) (by_ on : string) : kill :=
  {| timeSinceRoundStartMillis := ms; killer := by_; victim := on |}.

(** A round in which r1 kills b1 after 15 s, and b1 had killed r2 after
    9 s: the earliest kill is listed second. *)
Definition played_round (won_by : string) : round_result :=
  {| winningTeam := won_by;
     playerStats :=
       [ in_round "r1" [shot 15000 "r1" "b1"];
         in_round "r2" []; in_round "r3" []; in_round "r4" []; in_round "r5" [];
         in_round "b1" [shot 9000 "b1" "r2"];
         in_round "b2" []; in_round "b3" []; in_round "b4" []; in_round "b5" [] ] |}.

(** A round without any kill. *)
Definition quiet_round (won_by : string) : round_result :=
  {| winningTeam := won_by;
     playerStats :=
       [ in_round "r1" []; in_round "r2" []; in_round "r3" []; in_round "r4" [];
         in_round "r5" []; in_round "b1" []; in_round "b2" []; in_round "b3" [];
         in_round "b4" []; in_round "b5" [] ] |}.

Definition on_side (puuid side : string) : raw_player :=
  {| pl_puuid := puuid; pl_teamId := side; pl_gameName := puuid;
     pl_characterId := "jett";
     pl_stats := {| roundsPlayed := 18; ps_kills := 12; ps_deaths := 11;
                    ps_assists := 4; score := 3600 |} |}.

Definition red_five : list raw_player :=
  [ on_side "r1" "Red"; on_side "r2" "Red"; on_side "r3" "Red";
    on_side "r4" "Red"; on_side "r5" "Red" ].

Definition blue_five : list raw_player :=
  [ on_side "b1" "Blue"; on_side "b2" "Blue"; on_side "b3" "Blue";
    on_side "b4" "Blue"; on_side "b5" "Blue" ].

Definition observer : raw_player := on_side "obs" "Neutral".

Definition eighteen_rounds : list round_result :=
  (repeat (played_round "Red") 13 ++ repeat (played_round "Blue") 5)%list.

(** Red wins 13 to 5; ten players and an observer. *)
Definition game : raw_game_data :=
  {| matchInfo := info;
     rg_teams := [ {| rt_teamId := "Red"; rt_roundsWon := 13 |};
                   {| rt_teamId := "Blue"; rt_roundsWon := 5 |} ];
     roundResults := eighteen_rounds;
     players := (red_five ++ observer :: blue_five)%list |}.

(** The same game with one Blue player missing. *)
Definition nine_player_game : raw_game_data :=
  {| matchInfo := info;
     rg_teams := rg_teams game;
     roundResults := eighteen_rounds;
     players := (red_five ++ observer :: tail blue_five)%list |}.

(** The same game with a Blue round count that the metadata does not
    have. *)
Definition unmatched_game : raw_game_data :=
  {| matchInfo := info;
     rg_teams := [ {| rt_teamId := "Red"; rt_roundsWon := 13 |};
                   {| rt_teamId := "Blue"; rt_roundsWon := 7 |} ];
     roundResults := eighteen_rounds;
     players := players game |}.

(** The same game with a third round in which nobody is killed. *)
Definition game_with_quiet_round : raw_game_data :=
  {| matchInfo := info;
     rg_teams := rg_teams game;
     roundResults :=
       (repeat (played_round "Red") 2 ++ quiet_round "Red"
          :: repeat (played_round "Red") 10 ++ repeat (played_round "Blue") 5)%list;
     players := players game |}.

Definition grid_side (id name : string) (won : bool) (score : Z) : grid_team :=
  {| gt_id := id; gt_name := name; gt_won := won; gt_score := score |}.

(** An end-state game that lists three teams. *)
Definition three_team_game : grid_game :=
  {| started := true; finished := true; gg_map_name := "Ascent";
     sequenceNumber := 1;
     gg_teams := [ grid_side "t1" "Alpha" true 13;
                   grid_side "t2" "Bravo" false 5;
                   grid_side "t3" "Charlie" false 0 ] |}.

End ValSample.

Module ValVersionSample.
Import Val.

(** The sample game with a game version whose second part is no
    number. *)
Definition unnumbered_game : raw_game_data :=
  {| matchInfo := {| matchId := "m-1"; mapId := "/Game/Maps/Ascent/Ascent";
                     gameStartMillis := 1700000000000;
                     gameVersion := "release-v8.03-shipping" |};
     rg_teams := rg_teams ValSample.game;
     roundResults := roundResults ValSample.game;
     players := players ValSample.game |}.

(** The end-state game of the sample game. *)
Definition ascent_game : grid_game :=
  {| started := true; finished := true; gg_map_name := "Ascent";
     sequenceNumber := 1;
     gg_teams := [ ValSample.grid_side "t1" "Alpha" true 13;
                   ValSample.grid_side "t2" "Bravo" false 5 ] |}.

End ValVersionSample.

Module HttpSample.
Import Http.

(** A server that times out, then rate-limits for two seconds, then
    fails with a 500, and answers the fourth request. *)
Definition busy_network (request : nat) : reply :=
  match request with
  | 0%nat => TimedOut
  | 1%nat => Response 429 (Some 2) EmptyString
  | 2%nat => Response 500 None EmptyString
  | 3%nat => Response 200 None "zip"
  | _ => Failed
  end.

End HttpSample.

Module UnicodeSample.

(** An excerpt of the character database: the code points below 256,
    the Greek capital letters (upper-case), the Greek small letters
    (lower-case) and the three title-case digraphs of Latin Extended-B;
    every other code point is taken as uncased. *)
Definition excerpt : UnicodeData :=
  {| cp_islower := fun n =>
       if (n <? 256)%N then PyStr.is_lower (ascii_of_N n)
       else ((945 <=? n) && (n <=? 969))%N;
     cp_istitle := fun n => ((n =? 453) || (n =? 456) || (n =? 459))%N;
     cp_isupper := fun n =>
       if (n <? 256)%N then PyStr.is_upper (ascii_of_N n)
       else (((913 <=? n) && (n <=? 929)) || ((931 <=? n) && (n <=? 937)))%N |}.

(** A name with a Greek tag: capital alpha, beta, gamma, a space, capital
    delta. *)
Definition greek_name : PyUnicode.str := [913; 914; 915; 32; 916]%N.

End UnicodeSample.

Module ValMatchSample.
Import Val.

(** The series of the sample game with a second game on the same map,
    played later with the round counts the other way round. *)
Definition two_ascent_series : series_metadata :=
  {| series_id := "2001"; tournament_id := "77"; tournament_name := "Masters";
     games :=
       (games ValSample.series
        ++ [ {| map_name := "Ascent"; game_number := 2;
                team_one := Some {| tmeta_id := "t1"; tmeta_name := "Alpha";
                                    winner := false; rounds_won := 5 |};
                team_two := Some {| tmeta_id := "t2"; tmeta_name := "Bravo";
                                    winner := true; rounds_won := 13 |} |} ])%list |}.

(** The metadata of the sample game. *)
Definition ascent_metadata : game_metadata :=
  {| map_name := "Ascent"; game_number := 1;
     team_one := Some {| tmeta_id := "t1"; tmeta_name := "Alpha";
                         winner := true; rounds_won := 13 |};
     team_two := Some {| tmeta_id := "t2"; tmeta_name := "Bravo";
                         winner := false; rounds_won := 5 |} |}.

(** The sample game with one Blue player missing and a Red player whose
    agent is not in the reference table. *)
Definition nine_players_unknown_agent : raw_game_data :=
  {| matchInfo := matchInfo ValSample.game;
     rg_teams := rg_teams ValSample.game;
     roundResults := roundResults ValSample.game;
     players :=
       ({| pl_puuid := "r1"; pl_teamId := "Red"; pl_gameName := "r1";
           pl_characterId := "unknown";
           pl_stats := pl_stats (ValSample.on_side "r1" "Red") |}
        :: tail ValSample.red_five ++ tail ValSample.blue_five)%list |}.

End ValMatchSample.

(** * Properties *)

(** ** The result monad and loops *)

Lemma bind_ok {A B : Type} (r : result A) (k : A -> result B) (b : B) :
  r ≫= k = Ok b -> exists a, r = Ok a /\ k a = Ok b.
Proof. destruct r as [a|e]; simpl; [eauto | discriminate]. Qed.

Lemma for_each_app {A S : Type} (body : S -> A -> result S) (xs ys : list A) (s : S) :
  for_each body (xs ++ ys) s = for_each body xs s ≫= for_each body ys.
Proof.
  revert s. induction xs as [|x xs IH]; intros s; simpl; [reflexivity|].
  destruct (body s x) as [s'|e]; simpl; [apply IH | reflexivity].
Qed.

Lemma find_nonneg_or_absent c s :
  PyStr.find c s = -1 \/ 0 <= PyStr.find c s.
Proof.
  induction s as [|a s IH]; simpl; [now left|].
  destruct (Ascii.eqb a c); [right; lia|].
  destruct (PyStr.find c s =? -1) eqn:E; [now left | right].
  apply Z.eqb_neq in E. lia.
Qed.

Lemma find_prefix c pre post :
  no_char c pre ->
  PyStr.find c (pre ++ String c post) = Z.of_nat (String.length pre).
Proof.
  unfold no_char. induction pre as [|a pre IH]; simpl; intros Hno.
  - now rewrite Ascii.eqb_refl.
  - apply orb_false_iff in Hno as [Ha Hpre]. rewrite Ha, (IH Hpre).
    destruct (Z.of_nat (String.length pre) =? -1) eqn:E; [apply Z.eqb_eq in E|]; lia.
Qed.

Lemma find_absent c s : PyStr.find c s = -1 -> no_char c s.
Proof.
  unfold no_char. induction s as [|a s IH]; simpl; [reflexivity|].
  destruct (Ascii.eqb a c); [discriminate|].
  destruct (PyStr.find c s =? -1) eqn:E.
  - apply Z.eqb_eq in E. intros _. now apply IH.
  - destruct (find_nonneg_or_absent c s); [apply Z.eqb_neq in E; contradiction | lia].
Qed.

Lemma find_decompose c s :
  PyStr.find c s <> -1 ->
  exists pre post, s = pre ++ String c post /\ no_char c pre.
Proof.
  unfold no_char. induction s as [|a s IH]; simpl; [congruence|].
  destruct (Ascii.eqb a c) eqn:Ha.
  - apply Ascii.eqb_eq in Ha as ->. intros _. now exists EmptyString, s.
  - destruct (PyStr.find c s =? -1) eqn:E; [congruence|]. intros _.
    apply Z.eqb_neq in E. destruct (IH E) as (pre & post & -> & Hno).
    exists (String a pre), post. simpl. now rewrite Ha, Hno.
Qed.

Lemma split_prefix c pre post :
  no_char c pre ->
  PyStr.split c (pre ++ String c post) = pre :: PyStr.split c post.
Proof.
  unfold no_char. induction pre as [|a pre IH]; simpl; intros Hno.
  - now rewrite Ascii.eqb_refl.
  - apply orb_false_iff in Hno as [Ha Hpre]. now rewrite Ha, (IH Hpre).
Qed.

Lemma drop_prefix pre post c :
  PyStr.drop (S (String.length pre)) (pre ++ String c post) = post.
Proof. induction pre as [|a pre IH]; simpl; [now destruct post | exact IH]. Qed.

Lemma slice_from_prefix pre post c :
  PyStr.slice_from (Z.of_nat (String.length pre) + 1) (pre ++ String c post) = post.
Proof.
  unfold PyStr.slice_from.
  destruct (Z.of_nat (String.length pre) + 1 <? 0) eqn:E; [apply Z.ltb_lt in E; lia|].
  replace (Z.to_nat (Z.of_nat (String.length pre) + 1)) with (S (String.length pre)) by lia.
  apply drop_prefix.
Qed.

Section LolScan.
Import Lol.

Lemma add_turret_plate_ok (k : Z) (tt : gmap Z totals) (t : totals) :
  tt !! k = Some t ->
  add_turret_plate k tt = Ok (<[k := with_turret_plates (turret_plates t + 1) t]> tt).
Proof. intros Hk. unfold add_turret_plate, getitem. rewrite Hk. reflexivity. Qed.

Lemma with_turret_plates_id (t : totals) : with_turret_plates (turret_plates t) t = t.
Proof. now destruct t. Qed.

Lemma for_each_cons {A S : Type} (body : S -> A -> result S) x xs s :
  for_each body (x :: xs) s = body s x ≫= for_each body xs.
Proof. reflexivity. Qed.

Lemma scan_event_plate (st : scan_state) (ts t : Z) :
  scan_event st {| ev_timestamp := ts; ev_data := TURRET_PLATE_DESTROYED t |}
  = if t =? 200 then
      tt ← add_turret_plate 100 (team_totals st);
      Ok {| team_totals := tt;
            first_blood_found := first_blood_found st;
            first_blood_victim := first_blood_victim st |}
    else if t =? 100 then
      tt ← add_turret_plate 200 (team_totals st);
      Ok {| team_totals := tt;
            first_blood_found := first_blood_found st;
            first_blood_victim := first_blood_victim st |}
    else Ok st.
Proof. reflexivity. Qed.

Lemma scan_event_kill (st : scan_state) (ts k v : Z) :
  scan_event st {| ev_timestamp := ts; ev_data := CHAMPION_KILL k v |}
  = if first_blood_found st then Ok st
    else if negb (k =? 0) then
      Ok {| team_totals := team_totals st;
            first_blood_found := true;
            first_blood_victim := Some v |}
    else Ok st.
Proof. reflexivity. Qed.

Lemma scan_event_other (st : scan_state) (ts : Z) (ty : string) :
  scan_event st {| ev_timestamp := ts; ev_data := OTHER_EVENT ty |} = Ok st.
Proof. reflexivity. Qed.

(** One pass over a list of events, from any state that has both sides. *)
Lemma scan_events_spec (evs : list event) :
  forall (st : scan_state) (a b : totals),
    team_totals st !! 100 = Some a ->
    team_totals st !! 200 = Some b ->
    exists st',
      for_each scan_event evs st = Ok st'
      /\ team_totals st' !! 100
         = Some (with_turret_plates (turret_plates a + plate_events 200 evs) a)
      /\ team_totals st' !! 200
         = Some (with_turret_plates (turret_plates b + plate_events 100 evs) b)
      /\ (forall k, k <> 100 -> k <> 200 ->
            team_totals st' !! k = team_totals st !! k)
      /\ first_blood_found st'
         = first_blood_found st || bool_decide (is_Some (first_blood evs))
      /\ first_blood_victim st'
         = if first_blood_found st then first_blood_victim st
           else match first_blood evs with
                | Some v => Some v
                | None => first_blood_victim st
                end.
Proof.
  induction evs as [|e evs IH]; intros st a b Ha Hb.
  - exists st. simpl. rewrite !Z.add_0_r, !with_turret_plates_id, orb_false_r.
    repeat split; try assumption. now destruct (first_blood_found st).
  - rewrite for_each_cons. destruct e as [ts [t|k v|ty]].
    + rewrite scan_event_plate. simpl plate_events. simpl first_blood.
      destruct (t =? 200) eqn:E200; [|destruct (t =? 100) eqn:E100].
      * apply Z.eqb_eq in E200 as ->. rewrite (add_turret_plate_ok _ _ _ Ha). simpl.
        edestruct (IH {| team_totals :=
                           <[100 := with_turret_plates (turret_plates a + 1) a]>
                             (team_totals st);
                         first_blood_found := first_blood_found st;
                         first_blood_victim := first_blood_victim st |}
                     (with_turret_plates (turret_plates a + 1) a) b)
          as (st' & Hrun & H100 & H200 & Ho & Hf & Hv).
        { apply lookup_insert_eq. }
        { simpl. rewrite lookup_insert_ne by lia. exact Hb. }
        exists st'. simpl in *. rewrite Hrun, H100, H200, Hf, Hv.
        repeat split; try reflexivity.
        { unfold with_turret_plates; simpl. do 2 f_equal. lia. }
        intros k Hk1 Hk2. rewrite (Ho k Hk1 Hk2). now apply lookup_insert_ne.
      * apply Z.eqb_eq in E100 as ->. rewrite (add_turret_plate_ok _ _ _ Hb). simpl.
        edestruct (IH {| team_totals :=
                           <[200 := with_turret_plates (turret_plates b + 1) b]>
                             (team_totals st);
                         first_blood_found := first_blood_found st;
                         first_blood_victim := first_blood_victim st |}
                     a (with_turret_plates (turret_plates b + 1) b))
          as (st' & Hrun & H100 & H200 & Ho & Hf & Hv).
        { simpl. rewrite lookup_insert_ne by lia. exact Ha. }
        { apply lookup_insert_eq. }
        exists st'. simpl in *. rewrite Hrun, H100, H200, Hf, Hv.
        repeat split; try reflexivity.
        { unfold with_turret_plates; simpl. do 2 f_equal. lia. }
        intros k Hk1 Hk2. rewrite (Ho k Hk1 Hk2). now apply lookup_insert_ne.
      * simpl. apply IH; assumption.
    + rewrite scan_event_kill. simpl plate_events. simpl first_blood.
      destruct (first_blood_found st) eqn:Ef.
      * simpl. destruct (IH st a b Ha Hb) as (st' & Hrun & H100 & H200 & Ho & Hf & Hv).
        exists st'. rewrite Ef in *. simpl in *. repeat split; assumption.
      * destruct (k =? 0) eqn:Ek; simpl.
        -- destruct (IH st a b Ha Hb) as (st' & Hrun & H100 & H200 & Ho & Hf & Hv).
           exists st'. rewrite Ef in *. repeat split; assumption.
        -- edestruct (IH {| team_totals := team_totals st;
                            first_blood_found := true;
                            first_blood_victim := Some v |} a b)
             as (st' & Hrun & H100 & H200 & Ho & Hf & Hv); simpl; try assumption.
           exists st'. simpl in *. repeat split; assumption.
    + rewrite scan_event_other. simpl. apply IH; assumption.
Qed.

Lemma scan_frames_events (fs : list frame) :
  forall st, scan_frames fs st = for_each scan_event (scanned_events fs) st.
Proof.
  induction fs as [|f fs IH]; intros st; simpl; [reflexivity|].
  destruct (timestamp f >? 850000); [reflexivity|].
  rewrite for_each_app.
  destruct (for_each scan_event (events f) st) as [st'|e]; simpl; [apply IH | reflexivity].
Qed.

Lemma scan_timeline_spec (fs : list frame) :
  exists st,
    scan_frames fs initial_scan_state = Ok st
    /\ team_totals st !! 100
       = Some (with_turret_plates (plate_events 200 (scanned_events fs)) zero_totals)
    /\ team_totals st !! 200
       = Some (with_turret_plates (plate_events 100 (scanned_events fs)) zero_totals)
    /\ (forall k, k <> 100 -> k <> 200 -> team_totals st !! k = None)
    /\ first_blood_victim st = first_blood (scanned_events fs).
Proof.
  destruct (scan_events_spec (scanned_events fs) initial_scan_state
              zero_totals zero_totals)
    as (st & Hrun & H100 & H200 & Ho & _ & Hv); [reflexivity | reflexivity |].
  exists st. rewrite scan_frames_events. simpl in *.
  repeat split; try assumption.
  { intros k Hk1 Hk2. rewrite (Ho k Hk1 Hk2). unfold initial_team_totals.
    now rewrite !lookup_insert_ne, lookup_empty by congruence. }
  rewrite Hv. now destruct (first_blood (scanned_events fs)).
Qed.

End LolScan.

Lemma bind_err {A B : Type} (r : result A) (k : A -> result B) (e : exn) :
  r ≫= k = Err e -> r = Err e \/ exists a, r = Ok a /\ k a = Err e.
Proof. destruct r as [a|e']; simpl; [eauto | intros [= ->]; now left]. Qed.

Lemma only_raises_ok {A : Type} (E : exn) (a : A) : only_raises E (Ok a).
Proof. intros e [=]. Qed.

Lemma only_raises_bind {A B : Type} (E : exn) (r : result A) (k : A -> result B) :
  only_raises E r -> (forall a, r = Ok a -> only_raises E (k a)) ->
  only_raises E (r ≫= k).
Proof.
  intros Hr Hk e He. apply bind_err in He as [He | (a & Ha & He)]; [now apply Hr|].
  exact (Hk a Ha e He).
Qed.

Lemma traverse_lookup {A B : Type} (f : A -> result B) (xs : list A) :
  forall ys, traverse f xs = Ok ys ->
    length ys = length xs
    /\ forall i x, xs !! i = Some x -> exists y, ys !! i = Some y /\ f x = Ok y.
Proof.
  induction xs as [|x xs IH]; simpl; intros ys Hys.
  - injection Hys as <-. split; [reflexivity | intros i x' Hi; discriminate].
  - apply bind_ok in Hys as (y & Hy & Hys). apply bind_ok in Hys as (ys' & Hys' & Hys).
    injection Hys as <-. destruct (IH ys' Hys') as [Hlen Hlk]. split; [simpl; lia|].
    intros [|i] x' Hi; simpl in *.
    + injection Hi as <-. eauto.
    + now apply Hlk.
Qed.

Lemma traverse_only_raises {A B : Type} (E : exn) (f : A -> result B) (xs : list A) :
  (forall x, In x xs -> only_raises E (f x)) -> only_raises E (traverse f xs).
Proof.
  induction xs as [|x xs IH]; simpl; intros Hxs; [apply only_raises_ok|].
  apply only_raises_bind; [apply Hxs; now left|]. intros y _.
  apply only_raises_bind; [apply IH; intros; apply Hxs; now right|].
  intros; apply only_raises_ok.
Qed.


(** A loop that appends one computed item per element is a [traverse]. *)
Lemma for_each_collect {A B R : Type} (f : A -> result B) (g : B -> R) (xs : list A) :
  forall acc : list R,
    for_each (fun acc x => y ← f x; Ok (acc ++ [g y])%list) xs acc
    = (ys ← traverse f xs; Ok (acc ++ map g ys)%list).
Proof.
  induction xs as [|x xs IH]; intros acc; simpl; [now rewrite app_nil_r|].
  destruct (f x) as [y|e]; simpl; [|reflexivity]. rewrite IH.
  destruct (traverse f xs) as [ys|e]; simpl; [|reflexivity].
  now rewrite <- app_assoc.
Qed.

(** The same when the item also depends on what was collected so far. *)
Lemma for_each_collect_dep {A B R : Type} (f : list R -> A -> result B) (g : B -> R)
    (xs : list A) :
  forall (acc out : list R),
    for_each (fun acc x => y ← f acc x; Ok (acc ++ [g y])%list) xs acc = Ok out ->
    exists ys,
      out = (acc ++ map g ys)%list
      /\ length ys = length xs
      /\ forall i x, xs !! i = Some x ->
           exists y acc', ys !! i = Some y /\ f acc' x = Ok y.
Proof.
  induction xs as [|x xs IH]; intros acc out Hrun; simpl in Hrun.
  - injection Hrun as <-. exists []. rewrite app_nil_r.
    repeat split. intros i x Hi. discriminate.
  - apply bind_ok in Hrun as (acc1 & Hstep & Hrun).
    apply bind_ok in Hstep as (y & Hy & Hstep). injection Hstep as <-.
    destruct (IH _ _ Hrun) as (ys & -> & Hlen & Hlk).
    exists (y :: ys). rewrite <- app_assoc. simpl. repeat split; [lia|].
    intros [|i] x' Hi; simpl in *.
    + injection Hi as <-. eauto.
    + now apply Hlk.
Qed.

(** ** True division *)

Lemma truediv_q_zero (a b : Q) :
  Qis_zero b = true -> truediv_q a b = Err ZeroDivisionError.
Proof. unfold truediv_q. now intros ->. Qed.

Lemma truediv_q_nonzero (a b : Q) :
  Qis_zero b = false -> truediv_q a b = Ok (Qred (a / b)).
Proof. unfold truediv_q. now intros ->. Qed.

Lemma truediv_zero (a : Z) : truediv a 0 = Err ZeroDivisionError.
Proof. reflexivity. Qed.

Lemma truediv_nonzero (a b : Z) :
  b <> 0 -> truediv a b = Ok (Qred (inject_Z a / inject_Z b)).
Proof.
  intros Hb. unfold truediv. apply truediv_q_nonzero.
  unfold Qis_zero. simpl. now apply Z.eqb_neq.
Qed.

Lemma truediv_ok_inv (a b : Z) (q : Q) :
  truediv a b = Ok q -> b <> 0 /\ q = Qred (inject_Z a / inject_Z b).
Proof.
  intros Hq. destruct (Z.eq_dec b 0) as [->|Hb]; [discriminate|].
  rewrite (truediv_nonzero _ _ Hb) in Hq. injection Hq as <-. now split.
Qed.

Lemma truediv_q_only_raises (a b : Q) : only_raises ZeroDivisionError (truediv_q a b).
Proof. unfold truediv_q. intros e. destruct (Qis_zero b); congruence. Qed.

Lemma truediv_only_raises (a b : Z) : only_raises ZeroDivisionError (truediv a b).
Proof. apply truediv_q_only_raises. Qed.

Lemma per_minute_only_raises (x d : Z) :
  only_raises ZeroDivisionError (Lol.per_minute x d).
Proof.
  unfold Lol.per_minute. apply only_raises_bind; [apply truediv_only_raises|].
  intros; apply truediv_q_only_raises.
Qed.

Section LolRows.
Import Lol.

Lemma split_team_tag_total (s : string) :
  exists r, split_team_tag_and_player_nickname s = Ok r.
Proof.
  unfold split_team_tag_and_player_nickname.
  destruct (_ && _); [|eauto].
  assert (Hne : exists w ws, PyStr.split PyStr.space s = w :: ws).
  { destruct s as [|a s]; simpl; [eauto|].
    destruct (Ascii.eqb a PyStr.space); [eauto|].
    destruct (PyStr.split PyStr.space s); eauto. }
  destruct Hne as (w & ws & ->). simpl. destruct (PyStr.isupper w); eauto.
Qed.

(** *** The first loop over the participants *)

Lemma team_sum_cons_same f (p : participant) ps :
  team_sum f (p_teamId p) (p :: ps) = f p + team_sum f (p_teamId p) ps.
Proof. simpl. now rewrite Z.eqb_refl. Qed.

Lemma team_sum_cons_other f (p : participant) ps k :
  p_teamId p <> k -> team_sum f k (p :: ps) = team_sum f k ps.
Proof. intros Hk. simpl. apply Z.eqb_neq in Hk. now rewrite Hk. Qed.

Lemma with_side_added_nil k t : with_side_added k [] t = t.
Proof. destruct t. unfold with_side_added. simpl. f_equal; lia. Qed.

Lemma totals_after_participants (ps : list participant) :
  forall (tt tt' : gmap Z totals),
    for_each add_participant ps tt = Ok tt' ->
    forall k t, tt !! k = Some t -> tt' !! k = Some (with_side_added k ps t).
Proof.
  induction ps as [|p ps IH]; intros tt tt' Hrun k t Hk.
  - injection Hrun as <-. now rewrite with_side_added_nil.
  - rewrite for_each_cons in Hrun. apply bind_ok in Hrun as (tt1 & Hstep & Hrun).
    unfold add_participant, getitem in Hstep.
    destruct (tt !! p_teamId p) as [tp|] eqn:Hp; [|discriminate].
    injection Hstep as <-.
    destruct (Z.eq_dec (p_teamId p) k) as [<-|Hne].
    + rewrite Hp in Hk. injection Hk as ->.
      rewrite (IH _ _ Hrun (p_teamId p) _ (lookup_insert_eq _ _ _)).
      f_equal. unfold with_side_added. rewrite !team_sum_cons_same. simpl.
      f_equal; lia.
    + rewrite (IH _ _ Hrun k t); [|now rewrite lookup_insert_ne].
      f_equal. unfold with_side_added. now rewrite !(team_sum_cons_other _ _ _ _ Hne).
Qed.

Lemma absent_after_participants (ps : list participant) :
  forall (tt tt' : gmap Z totals) k,
    for_each add_participant ps tt = Ok tt' -> tt !! k = None -> tt' !! k = None.
Proof.
  induction ps as [|p ps IH]; intros tt tt' k Hrun Hk.
  - now injection Hrun as <-.
  - rewrite for_each_cons in Hrun. apply bind_ok in Hrun as (tt1 & Hstep & Hrun).
    unfold add_participant, getitem in Hstep.
    destruct (tt !! p_teamId p) as [tp|] eqn:Hp; [|discriminate].
    injection Hstep as <-. apply (IH _ _ _ Hrun).
    rewrite lookup_insert_ne; [assumption | congruence].
Qed.

Lemma add_participant_some (tt : gmap Z totals) (p : participant) (t : totals) :
  tt !! p_teamId p = Some t ->
  exists t', add_participant tt p = Ok (<[p_teamId p := t']> tt).
Proof. intros Ht. unfold add_participant, getitem. rewrite Ht. simpl. eauto. Qed.

Lemma participants_loop_ok (ps : list participant) :
  forall tt : gmap Z totals,
    (forall p, In p ps -> is_Some (tt !! p_teamId p)) ->
    exists tt', for_each add_participant ps tt = Ok tt'.
Proof.
  induction ps as [|p ps IH]; intros tt Hdom; [simpl; eauto|].
  rewrite for_each_cons. destruct (Hdom p (or_introl eq_refl)) as [t Ht].
  destruct (add_participant_some _ _ _ Ht) as [t' ->]. simpl.
  apply IH. intros q Hq. apply lookup_insert_is_Some'. right. apply Hdom. now right.
Qed.

(** *** One player row *)

Lemma make_player_dto_ok game_id si sf (tt : gmap Z totals) fbv p d :
  make_player_dto game_id si sf tt fbv p = Ok d ->
  exists t,
    tt !! p_teamId p = Some t
    /\ kills t <> 0
    /\ pd_kill_participation d
       = Qred (inject_Z (p_kills p + p_assists p) / inject_Z (kills t))
    /\ pd_kda d
       = Qred (inject_Z (p_kills p + p_assists p)
               / inject_Z (if p_deaths p >? 0 then p_deaths p else 1))
    /\ pd_side d = p_teamId p
    /\ pd_kills d = p_kills p
    /\ pd_deaths d = p_deaths p
    /\ pd_assists d = p_assists p
    /\ pd_team_kills d = kills t
    /\ pd_team_deaths d = deaths t
    /\ pd_firstBloodVictim d
       = match fbv with
         | Some v => if p_participantId p =? v then 1 else 0
         | None => 0
         end.
Proof.
  unfold make_player_dto. intros Hd.
  apply bind_ok in Hd as ([tag name] & _ & Hd).
  apply bind_ok in Hd as (kda & Hkda & Hd).
  apply bind_ok in Hd as (t & Ht & Hd).
  apply bind_ok in Hd as (kp & Hkp & Hd).
  do 6 (apply bind_ok in Hd as (? & _ & Hd)).
  injection Hd as <-. simpl.
  unfold getitem in Ht. destruct (tt !! p_teamId p) as [t'|]; [|discriminate].
  injection Ht as ->.
  apply truediv_ok_inv in Hkda as [_ ->]. apply truediv_ok_inv in Hkp as [Hnz ->].
  exists t. repeat split; try reflexivity; assumption.
Qed.

Lemma make_player_dto_only_raises game_id si sf (tt : gmap Z totals) fbv p :
  is_Some (tt !! p_teamId p) ->
  only_raises ZeroDivisionError (make_player_dto game_id si sf tt fbv p).
Proof.
  intros [t Ht]. unfold make_player_dto.
  destruct (split_team_tag_total (p_riotIdGameName p)) as [[tag name] ->]. simpl.
  apply only_raises_bind; [apply truediv_only_raises|]. intros kda _.
  unfold getitem. rewrite Ht. simpl.
  repeat first
    [ apply only_raises_ok
    | apply only_raises_bind;
      [first [apply truediv_only_raises | apply per_minute_only_raises] | intros ? _] ].
Qed.


(** *** One team row *)

Lemma make_team_dto_ok game_id si sf (tt : gmap Z totals) acc tm d :
  make_team_dto game_id si sf tt acc tm = Ok d ->
  exists t,
    tt !! tm_teamId tm = Some t
    /\ td_side d = tm_teamId tm
    /\ td_teamKills d = o_kills (champion (tm_objectives tm))
    /\ td_teamDeaths d = deaths t
    /\ td_controlWardsPurchased d = control_wards_purchased t
    /\ td_turretPlates d = turret_plates t.
Proof.
  unfold make_team_dto. intros Hd.
  apply bind_ok in Hd as (t & Ht & Hd).
  do 4 (apply bind_ok in Hd as (? & _ & Hd)).
  injection Hd as <-. simpl.
  unfold getitem in Ht. destruct (tt !! tm_teamId tm) as [t'|]; [|discriminate].
  injection Ht as ->. exists t. repeat split; reflexivity.
Qed.

(** *** The whole flattener *)

(** What a successful run consists of. *)
Lemma game_factory_ok game_id si sf tl live rows :
  game_factory game_id si sf tl live = Ok rows ->
  exists (tt : gmap Z totals) (pds : list player_dto) (tds : list team_dto),
    let evs := scanned_events (frames tl) in
    let fbv := first_blood evs in
    rows = (map PlayerRow pds ++ map TeamRow tds)%list
    /\ tt !! 100
       = Some (with_side_added 100 (participants sf)
                 (with_turret_plates (plate_events 200 evs) zero_totals))
    /\ tt !! 200
       = Some (with_side_added 200 (participants sf)
                 (with_turret_plates (plate_events 100 evs) zero_totals))
    /\ (forall k, k <> 100 -> k <> 200 -> tt !! k = None)
    /\ traverse (make_player_dto game_id si sf tt fbv) (participants sf) = Ok pds
    /\ length tds = length (teams sf)
    /\ forall j tm, teams sf !! j = Some tm ->
         exists d acc, tds !! j = Some d
                       /\ make_team_dto game_id si sf tt acc tm = Ok d.
Proof.
  unfold game_factory. intros Hrun.
  destruct (scan_timeline_spec (frames tl)) as (st & Hscan & H100 & H200 & Ho & Hfb).
  rewrite Hscan in Hrun. simpl in Hrun.
  apply bind_ok in Hrun as (tt & Hagg & Hrun).
  rewrite for_each_collect in Hrun.
  apply bind_ok in Hrun as (rows1 & Hplayers & Hrun).
  apply bind_ok in Hplayers as (pds & Hpds & Hplayers). injection Hplayers as <-.
  apply for_each_collect_dep in Hrun as (tds & -> & Hlen & Hteams).
  exists tt, pds, tds. simpl. rewrite <- Hfb.
  repeat split; try assumption.
  - apply (totals_after_participants _ _ _ Hagg 100 _ H100).
  - apply (totals_after_participants _ _ _ Hagg 200 _ H200).
  - intros k Hk1 Hk2. apply (absent_after_participants _ _ _ _ Hagg). now apply Ho.
Qed.

(** After a successful run every side that occurs is 100 or 200, and the
    totals of a side are the sums of its raw counters plus its plates. *)
Lemma side_totals (ps : list participant) (evs : list event) (tt : gmap Z totals) :
  tt !! 100 = Some (with_side_added 100 ps
                      (with_turret_plates (plate_events 200 evs) zero_totals)) ->
  tt !! 200 = Some (with_side_added 200 ps
                      (with_turret_plates (plate_events 100 evs) zero_totals)) ->
  (forall k, k <> 100 -> k <> 200 -> tt !! k = None) ->
  forall k t, tt !! k = Some t ->
    (k = 100 \/ k = 200)
    /\ kills t = team_sum p_kills k ps
    /\ deaths t = team_sum p_deaths k ps
    /\ damage_to_champions t = team_sum p_totalDamageDealtToChampions k ps
    /\ gold_earned t = team_sum p_goldEarned k ps
    /\ creep_score t
       = team_sum (fun p => p_totalMinionsKilled p + p_neutralMinionsKilled p) k ps
    /\ wards_placed t = team_sum p_wardsPlaced k ps
    /\ wards_killed t = team_sum p_wardsKilled k ps
    /\ control_wards_purchased t = team_sum p_visionWardsBoughtInGame k ps
    /\ turret_plates t
       = plate_events (if k =? 100 then 200 else 100) evs.
Proof.
  intros H100 H200 Ho k t Ht.
  destruct (Z.eq_dec k 100) as [->|Hk1]; [|destruct (Z.eq_dec k 200) as [->|Hk2]].
  - rewrite H100 in Ht. injection Ht as <-. simpl. repeat split; auto.
  - rewrite H200 in Ht. injection Ht as <-. simpl. repeat split; auto.
  - rewrite (Ho k Hk1 Hk2) in Ht. discriminate.
Qed.
End LolRows.

Section LolKillParticipation.
Import Lol.

Lemma lookup_player_row (pds : list player_dto) (tds : list team_dto) i d :
  pds !! i = Some d ->
  (map PlayerRow pds ++ map TeamRow tds)%list !! i = Some (PlayerRow d).
Proof.
  intros Hd. rewrite lookup_app_l by (rewrite length_map; now apply lookup_lt_Some in Hd).
  now rewrite list_lookup_fmap, Hd.
Qed.

Lemma lookup_team_row (pds : list player_dto) (tds : list team_dto) j d :
  tds !! j = Some d ->
  (map PlayerRow pds ++ map TeamRow tds)%list !! (length pds + j)%nat
  = Some (TeamRow d).
Proof.
  intros Hd. rewrite lookup_app_r by (rewrite length_map; lia).
  rewrite length_map. replace (length pds + j - length pds)%nat with j by lia.
  now rewrite list_lookup_fmap, Hd.
Qed.


End LolKillParticipation.

Section LolFirstBlood.
Import Lol.

(** *** First blood *)

(** [first_blood] is the victim of the first event, in list order, that is
    a kill with a killer other than 0. *)
Lemma first_blood_first (evs : list event) (v : Z) :
  first_blood evs = Some v <->
  exists pre e post killerId,
    evs = (pre ++ e :: post)%list
    /\ ev_data e = CHAMPION_KILL killerId v
    /\ killerId <> 0
    /\ forall e' k' v', In e' pre -> ev_data e' = CHAMPION_KILL k' v' -> k' = 0.
Proof.
  induction evs as [|e evs IH]; simpl.
  - split; [discriminate|]. intros (pre & e & post & k & Heq & _).
    now destruct pre.
  - split.
    + destruct (ev_data e) as [t|k v0|ty] eqn:Ed.
      * intros Hfb. apply IH in Hfb as (pre & e1 & post & k1 & -> & Hd & Hk & Hpre).
        exists (e :: pre), e1, post, k1. repeat split; try assumption.
        intros e' k' v' [<-|Hin] He'; [congruence | eauto].
      * destruct (k =? 0) eqn:Ek.
        -- apply Z.eqb_eq in Ek as ->.
           intros Hfb. apply IH in Hfb as (pre & e1 & post & k1 & -> & Hd & Hk & Hpre).
           exists (e :: pre), e1, post, k1. repeat split; try assumption.
           intros e' k' v' [<-|Hin] He'; [congruence | eauto].
        -- apply Z.eqb_neq in Ek. intros [= <-].
           exists [], e, evs, k. repeat split; try assumption. intros ? ? ? [].
      * intros Hfb. apply IH in Hfb as (pre & e1 & post & k1 & -> & Hd & Hk & Hpre).
        exists (e :: pre), e1, post, k1. repeat split; try assumption.
        intros e' k' v' [<-|Hin] He'; [congruence | eauto].
    + intros (pre & e1 & post & k1 & Heq & Hd & Hk & Hpre).
      destruct pre as [|e0 pre]; simpl in Heq; injection Heq as <- ->.
      * rewrite Hd. apply Z.eqb_neq in Hk. now rewrite Hk.
      * assert (Hrest : first_blood (pre ++ e1 :: post) = Some v).
        { apply IH. exists pre, e1, post, k1. repeat split; try assumption.
          intros e' k' v' Hin. apply Hpre. now right. }
        destruct (ev_data e) as [t|k v0|ty] eqn:Ed; try assumption.
        rewrite (Hpre e k v0 (or_introl eq_refl) Ed). exact Hrest.
Qed.

Lemma flagged_rows_team_rows (tds : list team_dto) :
  flagged_rows (map TeamRow tds) = 0%nat.
Proof. induction tds; simpl; auto. Qed.

Lemma flagged_rows_app (r1 r2 : list row) :
  flagged_rows (r1 ++ r2) = (flagged_rows r1 + flagged_rows r2)%nat.
Proof.
  induction r1 as [|[d|d] r1 IH]; simpl; [reflexivity | | exact IH].
  destruct (pd_firstBloodVictim d =? 1); simpl; now rewrite IH.
Qed.

Lemma flagged_rows_players (f : participant -> result player_dto) (fb : option Z)
    (ps : list participant) :
  (forall p d, f p = Ok d -> pd_firstBloodVictim d = flag_of fb p) ->
  forall pds, traverse f ps = Ok pds ->
    flagged_rows (map PlayerRow pds)
    = length (filter (fun p => flag_of fb p = 1) ps).
Proof.
  intros Hf. induction ps as [|p ps IH]; simpl; intros pds Hpds.
  - now injection Hpds as <-.
  - apply bind_ok in Hpds as (d & Hd & Hpds).
    apply bind_ok in Hpds as (pds' & Hpds' & Hpds). injection Hpds as <-.
    simpl. rewrite (Hf _ _ Hd), (IH _ Hpds').
    rewrite filter_cons. destruct (flag_of fb p =? 1) eqn:E.
    + apply Z.eqb_eq in E. now rewrite decide_True.
    + apply Z.eqb_neq in E. now rewrite decide_False.
Qed.

Lemma no_flag_without_first_blood (ps : list participant) :
  length (filter (fun p => flag_of None p = 1) ps) = 0%nat.
Proof.
  induction ps as [|p ps IH]; [reflexivity|].
  rewrite filter_cons, decide_False; [exact IH | simpl; lia].
Qed.

Lemma flag_absent (v : Z) (ps : list participant) :
  ~ In v (map p_participantId ps) ->
  length (filter (fun p => flag_of (Some v) p = 1) ps) = 0%nat.
Proof.
  induction ps as [|p ps IH]; intros Hnin; [reflexivity|]. simpl in Hnin.
  rewrite filter_cons, decide_False; [apply IH; tauto|]. simpl.
  destruct (p_participantId p =? v) eqn:E; [apply Z.eqb_eq in E; tauto | lia].
Qed.

Lemma one_flag_when_ids_differ (v : Z) (ps : list participant) :
  List.NoDup (map p_participantId ps) ->
  In v (map p_participantId ps) ->
  length (filter (fun p => flag_of (Some v) p = 1) ps) = 1%nat.
Proof.
  induction ps as [|p ps IH]; intros Hnd Hin; [contradiction|].
  simpl in Hnd, Hin.
  apply List.NoDup_cons_iff in Hnd as [Hp Hnd]. rewrite filter_cons.
  destruct (Z.eq_dec (p_participantId p) v) as [E|E].
  - rewrite decide_True by (simpl; now rewrite E, Z.eqb_refl).
    rewrite length_cons, flag_absent; [reflexivity | now rewrite <- E].
  - rewrite decide_False by (simpl; apply Z.eqb_neq in E; rewrite E; lia).
    apply IH; [assumption | tauto].
Qed.

(** C2, as the code has it.  The flag of a player row is 1 exactly when a
    kill with a killer other than 0 occurs in the scanned frames and the
    player's participant id is the victim id of the first such kill in
    frame and event order (event timestamps are not read).  Hence no row is
    flagged when there is no such kill, and exactly one row is flagged when
    there is one, its victim is a participant and the participant ids are
    distinct. *)
Theorem first_blood_victim_flag :
  forall game_id si sf tl live rows,
    game_factory game_id si sf tl live = Ok rows ->
    let fb := first_blood (scanned_events (frames tl)) in
    (forall i p, participants sf !! i = Some p ->
       exists d, rows !! i = Some (PlayerRow d)
                 /\ pd_firstBloodVictim d
                    = match fb with
                      | Some v => if p_participantId p =? v then 1 else 0
                      | None => 0
                      end)
    /\ (fb = None -> flagged_rows rows = 0%nat)
    /\ (forall v, fb = Some v ->
          List.NoDup (map p_participantId (participants sf)) ->
          In v (map p_participantId (participants sf)) ->
          flagged_rows rows = 1%nat).
Proof.
  intros game_id si sf tl live rows Hrun fb.
  apply game_factory_ok in Hrun
    as (tt & pds & tds & -> & H100 & H200 & Ho & Hpds & _).
  fold fb in Hpds.
  assert (Hflag : forall p d,
             make_player_dto game_id si sf tt fb p = Ok d ->
             pd_firstBloodVictim d = flag_of fb p).
  { intros p d Hd. apply make_player_dto_ok in Hd as (t & _ & _ & _ & _ & _ & _ & _ & _ & _ & _ & Hf).
    exact Hf. }
  assert (Hcount : flagged_rows (map PlayerRow pds ++ map TeamRow tds)
                   = length (filter (fun p => flag_of fb p = 1) (participants sf))).
  { rewrite flagged_rows_app, flagged_rows_team_rows, Nat.add_0_r.
    now apply (flagged_rows_players _ fb (participants sf) Hflag). }
  split; [|split].
  - intros i p Hp. destruct (traverse_lookup _ _ _ Hpds) as [_ Hlk].
    destruct (Hlk i p Hp) as (d & Hd & Hmk). exists d.
    split; [now apply lookup_player_row | now apply Hflag].
  - intros Hnone. rewrite Hcount, Hnone. apply no_flag_without_first_blood.
  - intros v Hv Hnd Hin. rewrite Hcount, Hv. now apply one_flag_when_ids_differ.
Qed.

Lemma first_blood_victim_flag_witness :
  exists rows,
    game_factory "NA1_1" LolSample.info LolSample.stats LolSample.timeline
      EmptyString = Ok rows
    /\ first_blood (scanned_events (frames LolSample.timeline)) = Some 7
    /\ flagged_rows rows = 1%nat.
Proof.
  eassert (Hrun : game_factory "NA1_1" LolSample.info LolSample.stats
                    LolSample.timeline EmptyString = Ok _)
    by (vm_compute; reflexivity).
  eexists. split; [exact Hrun|]. split; [reflexivity|].
  apply (proj2 (proj2 (first_blood_victim_flag _ _ _ _ _ _ Hrun)) 7 eq_refl).
  - simpl. repeat constructor; simpl; intuition discriminate.
  - simpl. tauto.
Defined.

(** C2 as stated fails: when the first kill comes after the cutoff the
    flattener succeeds and flags no row. *)
Lemma first_blood_flag_can_be_absent :
  exists rows,
    game_factory "NA1_1" LolSample.info LolSample.stats LolSample.late_timeline
      EmptyString = Ok rows
    /\ length rows = 12%nat
    /\ flagged_rows rows <> 1%nat.
Proof.
  eexists. split; [vm_compute; reflexivity|]. split; [reflexivity|].
  vm_compute. discriminate.
Qed.

End LolFirstBlood.

Section LolPlatesAndTotals.
Import Lol.

(** *** Turret plates *)

(** C5.  A plate event tagged 200 adds one to the plates of side 100 and
    leaves side 200 alone, a plate event tagged 100 does the converse, and
    a plate event with any other tag leaves the state as it is.  The plates
    in the row of side 100 are therefore the plate events tagged 200 in the
    scanned frames, and those of side 200 the ones tagged 100. *)
Theorem turret_plates_credit_opposing_side :
  (forall (st : scan_state) (ts : Z) (a b : totals),
      team_totals st !! 100 = Some a ->
      team_totals st !! 200 = Some b ->
      exists st',
        scan_event st {| ev_timestamp := ts; ev_data := TURRET_PLATE_DESTROYED 200 |}
        = Ok st'
        /\ team_totals st' !! 100
           = Some (with_turret_plates (turret_plates a + 1) a)
        /\ team_totals st' !! 200 = Some b)
  /\ (forall (st : scan_state) (ts : Z) (a b : totals),
      team_totals st !! 100 = Some a ->
      team_totals st !! 200 = Some b ->
      exists st',
        scan_event st {| ev_timestamp := ts; ev_data := TURRET_PLATE_DESTROYED 100 |}
        = Ok st'
        /\ team_totals st' !! 200
           = Some (with_turret_plates (turret_plates b + 1) b)
        /\ team_totals st' !! 100 = Some a)
  /\ (forall (st : scan_state) (ts teamId : Z),
      teamId <> 100 -> teamId <> 200 ->
      scan_event st {| ev_timestamp := ts; ev_data := TURRET_PLATE_DESTROYED teamId |}
      = Ok st)
  /\ (forall game_id si sf tl live rows,
      game_factory game_id si sf tl live = Ok rows ->
      forall j tm, teams sf !! j = Some tm ->
        exists d,
          rows !! (length (participants sf) + j)%nat = Some (TeamRow d)
          /\ ((tm_teamId tm = 100
               /\ td_turretPlates d
                  = plate_events 200 (scanned_events (frames tl)))
              \/ (tm_teamId tm = 200
                  /\ td_turretPlates d
                     = plate_events 100 (scanned_events (frames tl))))).
Proof.
  repeat split.
  - intros st ts a b Ha Hb. rewrite scan_event_plate. simpl.
    rewrite (add_turret_plate_ok _ _ _ Ha). simpl. eexists. split; [reflexivity|].
    simpl. split; [apply lookup_insert_eq | now rewrite lookup_insert_ne].
  - intros st ts a b Ha Hb. rewrite scan_event_plate. simpl.
    rewrite (add_turret_plate_ok _ _ _ Hb). simpl. eexists. split; [reflexivity|].
    simpl. split; [apply lookup_insert_eq | now rewrite lookup_insert_ne].
  - intros st ts t H1 H2. rewrite scan_event_plate.
    apply Z.eqb_neq in H1, H2. now rewrite H1, H2.
  - intros game_id si sf tl live rows Hrun j tm Hj.
    apply game_factory_ok in Hrun
      as (tt & pds & tds & -> & H100 & H200 & Ho & Hpds & Hlen & Htds).
    destruct (traverse_lookup _ _ _ Hpds) as [Hlp _].
    destruct (Htds j tm Hj) as (d & acc & Hd & Hmk).
    apply make_team_dto_ok in Hmk as (t & Ht & _ & _ & _ & _ & Hplates).
    destruct (side_totals _ _ _ H100 H200 Ho _ _ Ht) as (Hside & _ & _ & _ & _ & _ & _ & _ & _ & Hp).
    exists d. rewrite <- Hlp. split; [now apply lookup_team_row|].
    rewrite Hplates, Hp. destruct Hside as [E | E]; rewrite E; [left | right]; now split.
Qed.

Lemma turret_plates_credit_opposing_side_witness :
  exists rows d100 d200,
    game_factory "NA1_1" LolSample.info LolSample.stats LolSample.timeline
      EmptyString = Ok rows
    /\ rows !! 10%nat = Some (TeamRow d100)
    /\ td_turretPlates d100 = 2
    /\ rows !! 11%nat = Some (TeamRow d200)
    /\ td_turretPlates d200 = 1.
Proof.
  eassert (Hrun : game_factory "NA1_1" LolSample.info LolSample.stats
                    LolSample.timeline EmptyString = Ok _)
    by (vm_compute; reflexivity).
  pose proof (proj2 (proj2 (proj2 turret_plates_credit_opposing_side))
                _ _ _ _ _ _ Hrun) as Hrows.
  destruct (Hrows 0%nat _ eq_refl) as (d100 & Hd100 & [[_ H1] | [Hside _]]);
    [|discriminate Hside].
  destruct (Hrows 1%nat _ eq_refl) as (d200 & Hd200 & [[Hside _] | [_ H2]]);
    [discriminate Hside|].
  eexists _, d100, d200. split; [exact Hrun|].
  split; [exact Hd100|]. split; [exact H1|]. split; [exact Hd200 | exact H2].
Defined.

(** *** Team aggregates *)

(** C6, as the code has it.  The first loop over the participants leaves
    in [team_totals] of each side the sums of the raw counters of that
    side.  Player rows copy the player's own kills and deaths and take
    [team_kills] and [team_deaths] from those sums; a team row takes
    [teamDeaths] from the sums and [teamKills] from the kill count of the
    vendor's team object. *)
Theorem team_aggregates_are_sums :
  forall game_id si sf tl live rows,
    game_factory game_id si sf tl live = Ok rows ->
    (forall st tt k t,
        scan_frames (frames tl) initial_scan_state = Ok st ->
        for_each add_participant (participants sf) (team_totals st) = Ok tt ->
        tt !! k = Some t ->
        kills t = team_sum p_kills k (participants sf)
        /\ deaths t = team_sum p_deaths k (participants sf)
        /\ damage_to_champions t
           = team_sum p_totalDamageDealtToChampions k (participants sf)
        /\ gold_earned t = team_sum p_goldEarned k (participants sf)
        /\ creep_score t
           = team_sum (fun p => p_totalMinionsKilled p + p_neutralMinionsKilled p)
                      k (participants sf)
        /\ wards_placed t = team_sum p_wardsPlaced k (participants sf)
        /\ wards_killed t = team_sum p_wardsKilled k (participants sf)
        /\ control_wards_purchased t
           = team_sum p_visionWardsBoughtInGame k (participants sf))
    /\ (forall i p, participants sf !! i = Some p ->
          exists d,
            rows !! i = Some (PlayerRow d)
            /\ pd_kills d = p_kills p
            /\ pd_deaths d = p_deaths p
            /\ pd_team_kills d = team_sum p_kills (p_teamId p) (participants sf)
            /\ pd_team_deaths d = team_sum p_deaths (p_teamId p) (participants sf))
    /\ (forall j tm, teams sf !! j = Some tm ->
          exists d,
            rows !! (length (participants sf) + j)%nat = Some (TeamRow d)
            /\ td_teamDeaths d = team_sum p_deaths (tm_teamId tm) (participants sf)
            /\ td_teamKills d = o_kills (champion (tm_objectives tm))).
Proof.
  intros game_id si sf tl live rows Hrun.
  apply game_factory_ok in Hrun
    as (tt & pds & tds & -> & H100 & H200 & Ho & Hpds & Hlen & Htds).
  destruct (traverse_lookup _ _ _ Hpds) as [Hlp Hlk].
  split; [|split].
  - intros st tt0 k t Hscan Hagg Hk.
    destruct (scan_timeline_spec (frames tl)) as (st' & Hscan' & S100 & S200 & So & _).
    rewrite Hscan in Hscan'. injection Hscan' as <-.
    destruct (side_totals (participants sf) (scanned_events (frames tl)) tt0
                (totals_after_participants _ _ _ Hagg 100 _ S100)
                (totals_after_participants _ _ _ Hagg 200 _ S200)
                (fun k' N1 N2 =>
                   absent_after_participants _ _ _ _ Hagg (So k' N1 N2))
                k t Hk)
      as (_ & E1 & E2 & E3 & E4 & E5 & E6 & E7 & E8 & _).
    now repeat split.
  - intros i p Hp. destruct (Hlk i p Hp) as (d & Hd & Hmk).
    apply make_player_dto_ok in Hmk
      as (t & Ht & _ & _ & _ & _ & Hk & Hde & _ & Htk & Htd & _).
    destruct (side_totals _ _ _ H100 H200 Ho _ _ Ht) as (_ & Hks & Hds & _).
    exists d. split; [now apply lookup_player_row|].
    rewrite Htk, Htd, Hks, Hds. now repeat split.
  - intros j tm Hj. destruct (Htds j tm Hj) as (d & acc & Hd & Hmk).
    apply make_team_dto_ok in Hmk as (t & Ht & _ & Hk & Hde & _).
    destruct (side_totals _ _ _ H100 H200 Ho _ _ Ht) as (_ & _ & Hds & _).
    exists d. rewrite <- Hlp. split; [now apply lookup_team_row|].
    rewrite Hde, Hds. now split.
Qed.

Lemma team_aggregates_are_sums_witness :
  exists rows d p,
    game_factory "NA1_1" LolSample.info LolSample.stats LolSample.timeline
      EmptyString = Ok rows
    /\ rows !! 10%nat = Some (TeamRow d)
    /\ td_teamDeaths d = 4
    /\ rows !! 5%nat = Some (PlayerRow p)
    /\ pd_team_kills p = 4
    /\ pd_team_deaths p = 10.
Proof.
  eassert (Hrun : game_factory "NA1_1" LolSample.info LolSample.stats
                    LolSample.timeline EmptyString = Ok _)
    by (vm_compute; reflexivity).
  destruct (team_aggregates_are_sums _ _ _ _ _ _ Hrun) as (_ & Hplayers & Hteams).
  destruct (Hteams 0%nat _ eq_refl) as (d & Hd & Hde & _).
  destruct (Hplayers 5%nat _ eq_refl) as (p & Hp & _ & _ & Htk & Htd).
  eexists _, d, p. split; [exact Hrun|].
  split; [exact Hd|]. split; [exact Hde|]. split; [exact Hp|].
  split; [exact Htk | exact Htd].
Defined.

(** C6 as stated fails for [teamKills]: the value is copied from the
    vendor's team object and need not be the sum of the players' kills. *)
Lemma team_kills_can_differ_from_sum :
  exists rows d,
    game_factory "NA1_1" LolSample.info LolSample.miscounted_stats
      LolSample.timeline EmptyString = Ok rows
    /\ rows !! 10%nat = Some (TeamRow d)
    /\ td_side d = 100
    /\ td_teamKills d = 9
    /\ team_sum p_kills 100 (participants LolSample.miscounted_stats) = 10.
Proof.
  eexists _, _. split; [vm_compute; reflexivity|].
  split; [reflexivity|]. repeat split; reflexivity.
Qed.

(** *** No validation of the team and player counts *)

(** C7 as stated fails for this flattener: a game with two players and one
    team is flattened into three rows without any exception. *)
Lemma short_game_is_flattened :
  exists rows,
    game_factory "NA1_1" LolSample.info LolSample.short_stats
      LolSample.timeline EmptyString = Ok rows
    /\ length (participants LolSample.short_stats) = 2%nat
    /\ length (teams LolSample.short_stats) = 1%nat
    /\ length rows = 3%nat.
Proof.
  eexists. split; [vm_compute; reflexivity|]. repeat split; reflexivity.
Qed.

End LolPlatesAndTotals.

Section LolSuccess.
Import Lol.

(** *** When the flattener returns rows *)

Lemma traverse_succeeds {A B : Type} (f : A -> result B) (xs : list A) :
  (forall x, In x xs -> exists y, f x = Ok y) ->
  exists ys, traverse f xs = Ok ys.
Proof.
  induction xs as [|x xs IH]; intros Hall; simpl; [eauto|].
  destruct (Hall x (or_introl eq_refl)) as [y ->]. simpl.
  destruct IH as [ys ->]; [intros; apply Hall; now right|]. simpl. eauto.
Qed.

Lemma for_each_collect_dep_succeeds {A B R : Type} (f : list R -> A -> result B)
    (g : B -> R) (xs : list A) :
  (forall x acc, In x xs -> exists y, f acc x = Ok y) ->
  forall acc, exists out,
    for_each (fun acc x => y ← f acc x; Ok (acc ++ [g y])%list) xs acc = Ok out.
Proof.
  induction xs as [|x xs IH]; intros Hall acc; [simpl; eauto|].
  rewrite for_each_cons. destruct (Hall x acc (or_introl eq_refl)) as [y ->]. simpl.
  apply IH. intros; apply Hall; now right.
Qed.

Lemma Qis_zero_false (q : Q) : ~ (q == 0)%Q -> Qis_zero q = false.
Proof.
  intros Hq. unfold Qis_zero. apply Z.eqb_neq. intros Hz. apply Hq.
  unfold Qeq. simpl. rewrite Hz. reflexivity.
Qed.

Lemma per_minute_succeeds (x d : Z) : d <> 0 -> exists q, per_minute x d = Ok q.
Proof.
  intros Hd. unfold per_minute. rewrite truediv_nonzero by lia. simpl.
  rewrite truediv_q_nonzero; [eauto|]. apply Qis_zero_false.
  rewrite Qred_correct. intros Hz.
  assert (H60 : ~ (inject_Z 60 == 0)%Q) by discriminate.
  pose proof (Qmult_div_r (inject_Z d) (inject_Z 60) H60) as Hmul.
  rewrite Hz, Qmult_0_r in Hmul. apply Hd.
  unfold Qeq in Hmul. simpl in Hmul. lia.
Qed.

Lemma make_player_dto_succeeds game_id si sf (tt : gmap Z totals) fbv p t :
  tt !! p_teamId p = Some t ->
  kills t <> 0 -> damage_to_champions t <> 0 -> gameDuration sf <> 0 ->
  exists d, make_player_dto game_id si sf tt fbv p = Ok d.
Proof.
  intros Ht Hk Hdmg Hdur. unfold make_player_dto.
  destruct (split_team_tag_total (p_riotIdGameName p)) as [[tag name] ->]. simpl.
  rewrite truediv_nonzero by (destruct (p_deaths p >? 0) eqn:E; [apply Z.gtb_lt in E|]; lia).
  simpl. unfold getitem. rewrite Ht. simpl.
  rewrite (truediv_nonzero _ _ Hk). simpl.
  destruct (per_minute_succeeds (p_totalDamageDealtToChampions p) _ Hdur) as [q1 ->]. simpl.
  rewrite (truediv_nonzero _ _ Hdmg). simpl.
  destruct (per_minute_succeeds (p_wardsPlaced p) _ Hdur) as [q2 ->]. simpl.
  destruct (per_minute_succeeds (p_wardsKilled p) _ Hdur) as [q3 ->]. simpl.
  destruct (per_minute_succeeds
              (p_totalMinionsKilled p + p_neutralMinionsKilled p) _ Hdur) as [q4 ->].
  simpl.
  destruct (per_minute_succeeds (p_goldEarned p) _ Hdur) as [q5 ->]. simpl. eauto.
Qed.

Lemma make_team_dto_succeeds game_id si sf (tt : gmap Z totals) acc tm t :
  tt !! tm_teamId tm = Some t -> gameDuration sf <> 0 ->
  exists d, make_team_dto game_id si sf tt acc tm = Ok d.
Proof.
  intros Ht Hdur. unfold make_team_dto, getitem. rewrite Ht. simpl.
  destruct (per_minute_succeeds (wards_placed t) _ Hdur) as [q1 ->]. simpl.
  destruct (per_minute_succeeds (wards_killed t) _ Hdur) as [q2 ->]. simpl.
  destruct (per_minute_succeeds (creep_score t) _ Hdur) as [q3 ->]. simpl.
  destruct (per_minute_succeeds (gold_earned t) _ Hdur) as [q4 ->]. simpl. eauto.
Qed.

(** The flattener returns rows for a game of non-zero duration whose
    players and teams are on sides 100 and 200 and whose sides with a
    player have kills and damage. *)
Lemma game_factory_succeeds game_id si sf tl live :
  gameDuration sf <> 0 ->
  (forall p, In p (participants sf) ->
     (p_teamId p = 100 \/ p_teamId p = 200)
     /\ team_sum p_kills (p_teamId p) (participants sf) <> 0
     /\ team_sum p_totalDamageDealtToChampions (p_teamId p) (participants sf) <> 0) ->
  (forall tm, In tm (teams sf) -> tm_teamId tm = 100 \/ tm_teamId tm = 200) ->
  exists rows, game_factory game_id si sf tl live = Ok rows.
Proof.
  intros Hdur Hplayers Hteams. unfold game_factory.
  destruct (scan_timeline_spec (frames tl)) as (st & -> & H100 & H200 & Ho & Hfb).
  simpl.
  destruct (participants_loop_ok (participants sf) (team_totals st)) as [tt Hagg].
  { intros q Hq. destruct (Hplayers q Hq) as [[-> | ->] _];
      [rewrite H100 | rewrite H200]; eauto. }
  rewrite Hagg. simpl. rewrite for_each_collect.
  pose proof (totals_after_participants _ _ _ Hagg 100 _ H100) as T100.
  pose proof (totals_after_participants _ _ _ Hagg 200 _ H200) as T200.
  destruct (traverse_succeeds
              (make_player_dto game_id si sf tt (first_blood_victim st))
              (participants sf)) as [pds ->].
  { intros p Hp. destruct (Hplayers p Hp) as (Hside & Hk & Hd).
    destruct Hside as [E | E]; rewrite E in Hk, Hd;
      eapply make_player_dto_succeeds; try rewrite E; eauto. }
  simpl. apply for_each_collect_dep_succeeds.
  intros tm acc Htm. destruct (Hteams tm Htm) as [E | E];
    eapply make_team_dto_succeeds; try rewrite E; eauto.
Qed.

End LolSuccess.

(** ** Loops, enumeration and sorting *)

Lemma for_each_ok_each {A S : Type} (body : S -> A -> result S) (xs : list A) :
  forall s s', for_each body xs s = Ok s' ->
    forall x, In x xs -> exists s1 s2, body s1 x = Ok s2.
Proof.
  induction xs as [|x xs IH]; intros s s' Hrun y Hy; [destruct Hy|].
  rewrite for_each_cons in Hrun. apply bind_ok in Hrun as (s1 & Hstep & Hrun).
  destruct Hy as [<- | Hy]; [eauto | exact (IH _ _ Hrun y Hy)].
Qed.

Lemma for_each_invariant {A S : Type} (P : S -> Prop) (body : S -> A -> result S)
    (xs : list A) :
  (forall s x s', P s -> body s x = Ok s' -> P s') ->
  forall s s', P s -> for_each body xs s = Ok s' -> P s'.
Proof.
  intros Hstep. induction xs as [|x xs IH]; intros s s' Hs Hrun.
  - now injection Hrun as <-.
  - rewrite for_each_cons in Hrun. apply bind_ok in Hrun as (s1 & H1 & Hrun).
    exact (IH _ _ (Hstep _ _ _ Hs H1) Hrun).
Qed.

Lemma enumerate_from_app {A : Type} (xs ys : list A) :
  forall i, enumerate_from i (xs ++ ys)
            = (enumerate_from i xs ++ enumerate_from (i + Z.of_nat (length xs)) ys)%list.
Proof.
  induction xs as [|x xs IH]; intros i; simpl.
  - now rewrite Z.add_0_r.
  - rewrite IH. do 3 f_equal. lia.
Qed.

Lemma enumerate_from_lookup {A : Type} (xs : list A) :
  forall i n x, xs !! n = Some x ->
    enumerate_from i xs !! n = Some (i + Z.of_nat n, x).
Proof.
  induction xs as [|y xs IH]; intros i [|n] x Hx; simpl in *; try discriminate.
  - injection Hx as <-. now rewrite Z.add_0_r.
  - rewrite (IH (i + 1) n x Hx). do 2 f_equal. lia.
Qed.

Lemma enumerate_from_snd {A : Type} (xs : list A) :
  forall i p, In p (enumerate_from i xs) -> In (snd p) xs.
Proof.
  induction xs as [|y xs IH]; intros i p Hp; simpl in *; [assumption|].
  destruct Hp as [<- | Hp]; [now left | right; exact (IH _ _ Hp)].
Qed.

Lemma enumerate_from_in {A : Type} (xs : list A) (x : A) :
  forall i, In x xs -> exists n, In (n, x) (enumerate_from i xs).
Proof.
  induction xs as [|y xs IH]; intros i Hx; simpl in *; [destruct Hx|].
  destruct Hx as [-> | Hx]; [eauto|]. destruct (IH (i + 1) Hx) as [n Hn]. eauto.
Qed.

Lemma sorted_insert_length {A K : Type} (leb : K -> K -> bool) (key : A -> K) x l :
  length (sorted_insert leb key x l) = S (length l).
Proof. induction l as [|y l IH]; simpl; [reflexivity|]. destruct (leb _ _); simpl; lia. Qed.

Lemma sorted_length {A K : Type} (leb : K -> K -> bool) (key : A -> K) (l : list A) :
  length (sorted leb key l) = length l.
Proof. induction l as [|x l IH]; simpl; [reflexivity|]. now rewrite sorted_insert_length, IH. Qed.

Lemma sorted_nil_inv {A K : Type} (leb : K -> K -> bool) (key : A -> K) (l : list A) :
  sorted leb key l = [] -> l = [].
Proof.
  intros Hs. apply (f_equal length) in Hs. rewrite sorted_length in Hs.
  now destruct l.
Qed.

(** The head of the sorted list is the earliest entry of the list. *)
Lemma sorted_head_earliest {A : Type} (key : A -> Z) (l : list A) :
  l <> [] ->
  exists k rest, sorted Z.leb key l = k :: rest /\ is_earliest key l k.
Proof.
  induction l as [|x l IH]; [congruence|]. intros _. simpl.
  destruct l as [|y l'].
  - exists x, []. split; [reflexivity|]. exists [], []. repeat split; intros ? [].
  - destruct IH as (k & rest & Hs & pre & post & Hl & Hpre & Hpost); [congruence|].
    rewrite Hs. simpl. destruct (key x <=? key k) eqn:E.
    + apply Z.leb_le in E. exists x, (k :: rest). split; [reflexivity|].
      exists [], (y :: l'). split; [reflexivity|]. split; [intros ? []|].
      intros z Hz. rewrite Hl in Hz. apply in_app_or in Hz as [Hz | [<- | Hz]].
      * specialize (Hpre z Hz). lia.
      * exact E.
      * specialize (Hpost z Hz). lia.
    + apply Z.leb_gt in E. eexists k, _. split; [reflexivity|].
      exists (x :: pre), post. rewrite Hl. split; [reflexivity|]. split; [|exact Hpost].
      intros z [<- | Hz]; [exact E | exact (Hpre z Hz)].
Qed.

Section ValRounds.
Import Val.

(** *** Sides *)

Lemma attackers_red_or_blue (n : Z) : attackers n = "Red" \/ attackers n = "Blue".
Proof.
  unfold attackers. destruct (n <? 25); [destruct (n <? 13) | destruct (n mod 2 =? 1)]; auto.
Qed.

Lemma incr_side_ok (side : string) (c : side_counter) (stats : gmap string side_agg) :
  has_both_sides stats -> (side = "Blue" \/ side = "Red") ->
  exists stats', incr_side side c stats = Ok stats' /\ has_both_sides stats'.
Proof.
  intros [HB HR] Hside. unfold incr_side, getitem.
  assert (Hs : is_Some (stats !! side)) by (destruct Hside as [-> | ->]; assumption).
  destruct Hs as [t ->]. simpl. eexists. split; [reflexivity|].
  split; apply lookup_insert_is_Some'; now right.
Qed.

Lemma count_round_sides_ok (n : Z) (rd : round_result) (stats : gmap string side_agg) :
  has_both_sides stats ->
  exists stats', count_round_sides n rd stats = Ok stats' /\ has_both_sides stats'.
Proof.
  intros Hs. unfold count_round_sides.
  destruct (String.eqb (attackers n) "Blue");
    [|destruct (String.eqb (attackers n) "Red"); [|eauto]];
    destruct (String.eqb (winningTeam rd) _);
    match goal with
    | |- context [incr_side ?s ?c stats] =>
        destruct (incr_side_ok s c stats Hs) as (s1 & -> & H1); [auto|]; simpl;
        apply incr_side_ok; auto
    end.
Qed.

(** *** The loop over the players of a round *)

Lemma add_damage_spec (puuid : string) (stats : gmap string player_agg)
    (target : damage_entry) (a : player_agg) :
  stats !! puuid = Some a ->
  exists a',
    add_damage puuid stats target = Ok (<[puuid := a']> stats)
    /\ first_kills a' = first_kills a /\ first_deaths a' = first_deaths a.
Proof.
  intros Ha. unfold add_damage, getitem. rewrite Ha. simpl.
  eexists. split; [reflexivity|]. now split.
Qed.

Lemma damage_loop_spec (puuid : string) (targets : list damage_entry) :
  forall (stats : gmap string player_agg) (a : player_agg),
    stats !! puuid = Some a ->
    exists a',
      for_each (add_damage puuid) targets stats = Ok (<[puuid := a']> stats)
      /\ first_kills a' = first_kills a /\ first_deaths a' = first_deaths a.
Proof.
  induction targets as [|t ts IH]; intros stats a Ha.
  - exists a. simpl. rewrite insert_id by assumption. now repeat split.
  - rewrite for_each_cons.
    destruct (add_damage_spec puuid stats t a Ha) as (a1 & -> & Hk1 & Hd1). simpl.
    destruct (IH (<[puuid := a1]> stats) a1 (lookup_insert_eq _ _ _))
      as (a2 & -> & Hk2 & Hd2).
    exists a2. rewrite insert_insert_eq. split; [reflexivity|]. split; congruence.
Qed.

Lemma add_player_round_spec (stats : gmap string player_agg) (acc : list kill)
    (player : player_round_stats) :
  exists stats',
    add_player_round (stats, acc) player
    = Ok (stats', (acc ++ prs_kills player)%list)
    /\ (forall q, first_kills_of stats' q = first_kills_of stats q)
    /\ (forall q, first_deaths_of stats' q = first_deaths_of stats q)
    /\ (forall q, is_Some (stats !! q) -> is_Some (stats' !! q))
    /\ is_Some (stats' !! prs_puuid player).
Proof.
  unfold add_player_round.
  assert (He : exists a,
             ensure_player (prs_puuid player) stats !! prs_puuid player = Some a
             /\ first_kills a = first_kills_of stats (prs_puuid player)
             /\ first_deaths a = first_deaths_of stats (prs_puuid player)
             /\ forall q, q <> prs_puuid player ->
                  ensure_player (prs_puuid player) stats !! q = stats !! q).
  { unfold ensure_player, first_kills_of, first_deaths_of.
    destruct (stats !! prs_puuid player) as [a|] eqn:E.
    - exists a. now repeat split.
    - exists zero_player_agg. rewrite lookup_insert_eq. repeat split.
      intros q Hq. now rewrite lookup_insert_ne. }
  destruct He as (a & Ha & Hk & Hd & Ho).
  destruct (damage_loop_spec (prs_puuid player) (prs_damage player) _ a Ha)
    as (a' & -> & Hk' & Hd'). simpl.
  eexists. split; [reflexivity|].
  assert (Hlk : forall q, q <> prs_puuid player ->
            <[prs_puuid player := a']> (ensure_player (prs_puuid player) stats) !! q
            = stats !! q).
  { intros q Hq. rewrite lookup_insert_ne by congruence. now apply Ho. }
  repeat split.
  - intros q. unfold first_kills_of at 1.
    destruct (String.string_dec q (prs_puuid player)) as [-> | Hq].
    + rewrite lookup_insert_eq. congruence.
    + now rewrite (Hlk q Hq).
  - intros q. unfold first_deaths_of at 1.
    destruct (String.string_dec q (prs_puuid player)) as [-> | Hq].
    + rewrite lookup_insert_eq. congruence.
    + now rewrite (Hlk q Hq).
  - intros q Hq. destruct (String.string_dec q (prs_puuid player)) as [-> | Hne].
    + rewrite lookup_insert_eq. eauto.
    + now rewrite (Hlk q Hne).
  - rewrite lookup_insert_eq. eauto.
Qed.

Lemma players_loop_spec (prs : list player_round_stats) :
  forall (stats : gmap string player_agg) (acc : list kill),
    exists stats',
      for_each add_player_round prs (stats, acc)
      = Ok (stats', (acc ++ concat (map prs_kills prs))%list)
      /\ (forall q, first_kills_of stats' q = first_kills_of stats q)
      /\ (forall q, first_deaths_of stats' q = first_deaths_of stats q)
      /\ (forall q, is_Some (stats !! q) -> is_Some (stats' !! q))
      /\ (forall p, In p prs -> is_Some (stats' !! prs_puuid p)).
Proof.
  induction prs as [|p prs IH]; intros stats acc.
  - exists stats. simpl. rewrite app_nil_r. repeat split; auto. intros p [].
  - rewrite for_each_cons.
    destruct (add_player_round_spec stats acc p)
      as (s1 & -> & Hk1 & Hd1 & Hs1 & Hp1). simpl.
    destruct (IH s1 (acc ++ prs_kills p)%list) as (s2 & -> & Hk2 & Hd2 & Hs2 & Hp2).
    exists s2. rewrite <- app_assoc. split; [reflexivity|].
    split; [intros q; now rewrite Hk2|]. split; [intros q; now rewrite Hd2|].
    split; [auto|]. intros p' [<- | Hin]; auto.
Qed.

(** *** The credit *)

Lemma incr_first_kills_spec (p : string) (stats stats' : gmap string player_agg) :
  incr_first_kills p stats = Ok stats' ->
  (forall q, first_kills_of stats' q
             = first_kills_of stats q + (if String.eqb q p then 1 else 0))
  /\ (forall q, first_deaths_of stats' q = first_deaths_of stats q).
Proof.
  unfold incr_first_kills, getitem. destruct (stats !! p) as [a|] eqn:Ha; [|discriminate].
  simpl. intros [= <-]. split; intros q.
  - unfold first_kills_of. destruct (String.eqb_spec q p) as [-> | Hq].
    + now rewrite lookup_insert_eq, Ha.
    + rewrite lookup_insert_ne by congruence. lia.
  - unfold first_deaths_of. destruct (String.eqb_spec q p) as [-> | Hq].
    + now rewrite lookup_insert_eq, Ha.
    + now rewrite lookup_insert_ne by congruence.
Qed.

Lemma incr_first_deaths_spec (p : string) (stats stats' : gmap string player_agg) :
  incr_first_deaths p stats = Ok stats' ->
  (forall q, first_deaths_of stats' q
             = first_deaths_of stats q + (if String.eqb q p then 1 else 0))
  /\ (forall q, first_kills_of stats' q = first_kills_of stats q).
Proof.
  unfold incr_first_deaths, getitem. destruct (stats !! p) as [a|] eqn:Ha; [|discriminate].
  simpl. intros [= <-]. split; intros q.
  - unfold first_deaths_of. destruct (String.eqb_spec q p) as [-> | Hq].
    + now rewrite lookup_insert_eq, Ha.
    + rewrite lookup_insert_ne by congruence. lia.
  - unfold first_kills_of. destruct (String.eqb_spec q p) as [-> | Hq].
    + now rewrite lookup_insert_eq, Ha.
    + now rewrite lookup_insert_ne by congruence.
Qed.

Lemma credit_round_no_kills (rd : round_result) (stats : gmap string player_agg) :
  round_kill_events rd = [] -> credit_round rd stats = Err IndexError.
Proof.
  intros Hno. unfold credit_round.
  destruct (players_loop_spec (playerStats rd) stats []) as (s1 & -> & _).
  simpl. fold (round_kill_events rd). now rewrite Hno.
Qed.

Lemma credit_round_ok (rd : round_result) (stats stats' : gmap string player_agg) :
  credit_round rd stats = Ok stats' ->
  exists k rest,
    sorted Z.leb timeSinceRoundStartMillis (round_kill_events rd) = k :: rest
    /\ is_earliest timeSinceRoundStartMillis (round_kill_events rd) k
    /\ (forall q, first_kills_of stats' q
                  = first_kills_of stats q
                    + (if String.eqb q (killer k) then 1 else 0))
    /\ (forall q, first_deaths_of stats' q
                  = first_deaths_of stats q
                    + (if String.eqb q (victim k) then 1 else 0)).
Proof.
  unfold credit_round. intros Hrun.
  destruct (players_loop_spec (playerStats rd) stats []) as (s1 & Hloop & Hk1 & Hd1 & _ & _).
  rewrite Hloop in Hrun. simpl in Hrun. fold (round_kill_events rd) in Hrun.
  destruct (round_kill_events rd) as [|k0 ks] eqn:Hev; [discriminate|].
  destruct (sorted_head_earliest timeSinceRoundStartMillis (k0 :: ks))
    as (k & rest & Hs & Hearly); [congruence|].
  rewrite Hs in Hrun. simpl in Hrun.
  apply bind_ok in Hrun as (s2 & Hfk & Hfd).
  apply incr_first_kills_spec in Hfk as [Hk2 Hd2].
  apply incr_first_deaths_spec in Hfd as [Hd3 Hk3].
  exists k, rest. split; [exact Hs|]. split; [assumption|].
  split; intros q.
  - now rewrite Hk3, Hk2, Hk1.
  - now rewrite Hd3, Hd2, Hd1.
Qed.

Lemma incr_first_kills_some (p : string) (stats : gmap string player_agg) :
  is_Some (stats !! p) ->
  exists stats', incr_first_kills p stats = Ok stats'
                 /\ forall q, is_Some (stats !! q) -> is_Some (stats' !! q).
Proof.
  intros [a Ha]. unfold incr_first_kills, getitem. rewrite Ha. simpl.
  eexists. split; [reflexivity|]. intros q Hq. apply lookup_insert_is_Some'. now right.
Qed.

Lemma incr_first_deaths_some (p : string) (stats : gmap string player_agg) :
  is_Some (stats !! p) -> exists stats', incr_first_deaths p stats = Ok stats'.
Proof.
  intros [a Ha]. unfold incr_first_deaths, getitem. rewrite Ha. simpl. eauto.
Qed.

(** The credit succeeds when the round has a kill and the players named by
    its kill events are among the players of the round. *)
Lemma credit_round_succeeds (rd : round_result) (stats : gmap string player_agg) :
  round_kill_events rd <> [] ->
  (forall k, In k (round_kill_events rd) ->
     In (killer k) (map prs_puuid (playerStats rd))
     /\ In (victim k) (map prs_puuid (playerStats rd))) ->
  exists stats', credit_round rd stats = Ok stats'.
Proof.
  intros Hne Hnamed. unfold credit_round.
  destruct (players_loop_spec (playerStats rd) stats [])
    as (s1 & -> & _ & _ & _ & Hkeys).
  simpl. fold (round_kill_events rd).
  destruct (sorted_head_earliest timeSinceRoundStartMillis (round_kill_events rd) Hne)
    as (k & rest & -> & pre & post & Hl & _).
  simpl.
  assert (Hk : In k (round_kill_events rd)) by (rewrite Hl; apply in_elt).
  destruct (Hnamed k Hk) as [Hkiller Hvictim].
  apply in_map_iff in Hkiller as (p1 & E1 & Hp1).
  apply in_map_iff in Hvictim as (p2 & E2 & Hp2).
  destruct (incr_first_kills_some (killer k) s1) as (s2 & -> & Hkeep).
  { rewrite <- E1. now apply Hkeys. }
  simpl. apply incr_first_deaths_some. apply Hkeep. rewrite <- E2. now apply Hkeys.
Qed.

(** *** The loop over the rounds *)

Lemma process_round_no_kills (st : preagg) (idx : Z) (rd : round_result) :
  has_both_sides (team_preaggregated_stats st) ->
  round_kill_events rd = [] ->
  process_round st (idx, rd) = Err IndexError.
Proof.
  intros Hs Hno. unfold process_round.
  destruct (count_round_sides_ok (idx + 1) rd _ Hs) as (t1 & -> & _). simpl.
  now rewrite credit_round_no_kills.
Qed.

Lemma process_round_ok_kills (st st' : preagg) (idx : Z) (rd : round_result) :
  process_round st (idx, rd) = Ok st' -> round_kill_events rd <> [].
Proof.
  unfold process_round. intros Hrun Hno.
  apply bind_ok in Hrun as (t1 & _ & Hrun).
  now rewrite (credit_round_no_kills _ _ Hno) in Hrun.
Qed.

Lemma process_round_keeps_sides (st st' : preagg) (item : Z * round_result) :
  has_both_sides (team_preaggregated_stats st) ->
  process_round st item = Ok st' ->
  has_both_sides (team_preaggregated_stats st').
Proof.
  destruct item as [idx rd]. unfold process_round. intros Hs Hrun.
  destruct (count_round_sides_ok (idx + 1) rd _ Hs) as (t1 & Ht1 & Hs1).
  rewrite Ht1 in Hrun. simpl in Hrun.
  apply bind_ok in Hrun as (p1 & _ & Hrun). now injection Hrun as <-.
Qed.

Lemma initial_has_both_sides :
  has_both_sides (team_preaggregated_stats initial_preagg).
Proof. split; simpl; unfold initial_team_preaggregated_stats; eauto. Qed.

Lemma rounds_loop_ok_kills (rounds : list round_result) (st : preagg) :
  for_each process_round (enumerate rounds) initial_preagg = Ok st ->
  forall rd, In rd rounds -> round_kill_events rd <> [].
Proof.
  intros Hrun rd Hrd.
  destruct (enumerate_from_in rounds rd 0 Hrd) as [n Hn].
  destruct (for_each_ok_each _ _ _ _ Hrun _ Hn) as (s1 & s2 & Hstep).
  exact (process_round_ok_kills _ _ _ _ Hstep).
Qed.

End ValRounds.

Section ValSidesAndCredit.
Import Val.

(** *** First kills and first deaths *)

Lemma rounds_loop_credit (rounds : list round_result) :
  forall (i : Z) (st st' : preagg),
    for_each process_round (enumerate_from i rounds) st = Ok st' ->
    forall q,
      first_kills_of (player_preaggregated_stats st') q
      = first_kills_of (player_preaggregated_stats st) q
        + rounds_credited first_killer q rounds
      /\ first_deaths_of (player_preaggregated_stats st') q
         = first_deaths_of (player_preaggregated_stats st) q
           + rounds_credited first_victim q rounds.
Proof.
  induction rounds as [|rd rounds IH]; intros i st st' Hrun q.
  - injection Hrun as <-. simpl. lia.
  - simpl enumerate_from in Hrun. rewrite for_each_cons in Hrun.
    apply bind_ok in Hrun as (st1 & Hstep & Hrun).
    destruct (IH _ _ _ Hrun q) as [Hk Hd]. rewrite Hk, Hd. clear Hk Hd.
    unfold process_round in Hstep.
    apply bind_ok in Hstep as (t1 & _ & Hstep).
    apply bind_ok in Hstep as (p1 & Hcredit & Hstep). injection Hstep as <-. simpl.
    apply credit_round_ok in Hcredit as (k & rest & Hs & _ & Hk & Hd).
    unfold first_killer, first_victim. rewrite Hs, Hk, Hd. simpl.
    split; [destruct (String.eqb q (killer k)) | destruct (String.eqb q (victim k))]; lia.
Qed.

(** C9.  A round that is processed has an earliest kill, the head of its
    kill events sorted by [timeSinceRoundStartMillis]; the round adds one
    to the [first_kills] of that kill's killer and one to the
    [first_deaths] of its victim, and changes no other first-kill or
    first-death counter.  A round is processed when it has a kill and its
    kill events name players of the round.  Over a whole game a player's counters are the
    numbers of rounds in which the player is that killer or that victim. *)
Theorem first_kill_and_first_death_credit :
  (forall (rd : round_result) (stats stats' : gmap string player_agg),
      credit_round rd stats = Ok stats' ->
      exists k rest,
        sorted Z.leb timeSinceRoundStartMillis (round_kill_events rd) = k :: rest
        /\ is_earliest timeSinceRoundStartMillis (round_kill_events rd) k
        /\ (forall q, first_kills_of stats' q
                      = first_kills_of stats q
                        + (if String.eqb q (killer k) then 1 else 0))
        /\ (forall q, first_deaths_of stats' q
                      = first_deaths_of stats q
                        + (if String.eqb q (victim k) then 1 else 0)))
  /\ (forall (rd : round_result) (stats : gmap string player_agg),
      round_kill_events rd <> [] ->
      (forall k, In k (round_kill_events rd) ->
         In (killer k) (map prs_puuid (playerStats rd))
         /\ In (victim k) (map prs_puuid (playerStats rd))) ->
      exists stats', credit_round rd stats = Ok stats')
  /\ (forall (rounds : list round_result) (st : preagg),
      for_each process_round (enumerate rounds) initial_preagg = Ok st ->
      forall q,
        first_kills_of (player_preaggregated_stats st) q
        = rounds_credited first_killer q rounds
        /\ first_deaths_of (player_preaggregated_stats st) q
           = rounds_credited first_victim q rounds).
Proof.
  split; [exact credit_round_ok|]. split; [exact credit_round_succeeds|].
  intros rounds st Hrun q.
  destruct (rounds_loop_credit rounds 0 _ _ Hrun q) as [Hk Hd].
  rewrite Hk, Hd. unfold first_kills_of, first_deaths_of. simpl.
  rewrite lookup_empty. lia.
Qed.

Lemma first_kill_and_first_death_credit_witness :
  exists stats',
    credit_round (ValSample.played_round "Red") ∅ = Ok stats'
    /\ exists k rest,
         sorted Z.leb timeSinceRoundStartMillis
           (round_kill_events (ValSample.played_round "Red")) = k :: rest
         /\ is_earliest timeSinceRoundStartMillis
              (round_kill_events (ValSample.played_round "Red")) k
         /\ (forall q, first_kills_of stats' q
                       = first_kills_of ∅ q
                         + (if String.eqb q (killer k) then 1 else 0))
         /\ (forall q, first_deaths_of stats' q
                       = first_deaths_of ∅ q
                         + (if String.eqb q (victim k) then 1 else 0)).
Proof.
  destruct (credit_round (ValSample.played_round "Red") ∅) as [stats'|e] eqn:Hrun.
  - exists stats'. split; [reflexivity|].
    exact (proj1 first_kill_and_first_death_credit _ _ _ Hrun).
  - assert (Hcomputed : is_ok (credit_round (ValSample.played_round "Red") ∅) = true)
      by (vm_compute; reflexivity).
    rewrite Hrun in Hcomputed. discriminate Hcomputed.
Defined.

(** *** A round without kills *)

Lemma rounds_loop_fails_at_quiet_round (pre post : list round_result)
    (rd : round_result) (st : preagg) :
  for_each process_round (enumerate pre) initial_preagg = Ok st ->
  round_kill_events rd = [] ->
  for_each process_round (enumerate (pre ++ rd :: post)) initial_preagg
  = Err IndexError.
Proof.
  intros Hpre Hno. unfold enumerate in *.
  rewrite enumerate_from_app, for_each_app, Hpre.
  change (for_each process_round
            (enumerate_from (0 + Z.of_nat (length pre)) (rd :: post)) st
          = Err IndexError).
  simpl enumerate_from. rewrite for_each_cons.
  rewrite process_round_no_kills; [reflexivity | | assumption].
  apply (for_each_invariant
           (fun s => has_both_sides (team_preaggregated_stats s))
           process_round (enumerate_from 0 pre)
           (fun s x s' => process_round_keeps_sides s s' x)
           _ _ initial_has_both_sides Hpre).
Qed.

End ValSidesAndCredit.

Section ValTeams.
Import Val.

(** *** Team identity *)

Lemma map_team_ok (gm : game_metadata) (refs refs' : gmap string (option team_ref))
    (team : raw_team) :
  map_team gm refs team = Ok refs' ->
  exists one,
    expected_rounds (team_one gm) = Some one
    /\ ((rt_roundsWon team = one
         /\ refs' = <[rt_teamId team := Some team_one_ref]> refs)
        \/ (rt_roundsWon team <> one
            /\ expected_rounds (team_two gm) = Some (rt_roundsWon team)
            /\ refs' = <[rt_teamId team := Some team_two_ref]> refs)).
Proof.
  unfold map_team, expected_rounds, team_field.
  destruct (team_one gm) as [t1|]; [|discriminate]. simpl.
  destruct (rt_roundsWon team =? rounds_won t1) eqn:E1.
  - apply Z.eqb_eq in E1. intros [= <-]. exists (rounds_won t1).
    split; [reflexivity|]. left. now split.
  - apply Z.eqb_neq in E1. destruct (team_two gm) as [t2|]; [|discriminate]. simpl.
    destruct (rt_roundsWon team =? rounds_won t2) eqn:E2; [|discriminate].
    apply Z.eqb_eq in E2. intros [= <-]. exists (rounds_won t1).
    split; [reflexivity|]. right.
    split; [exact E1|]. split; [simpl; now rewrite E2 | reflexivity].
Qed.

Lemma map_team_unmatched (gm : game_metadata) (refs : gmap string (option team_ref))
    (team : raw_team) (one two : Z) :
  expected_rounds (team_one gm) = Some one ->
  expected_rounds (team_two gm) = Some two ->
  rt_roundsWon team <> one -> rt_roundsWon team <> two ->
  map_team gm refs team = Err ValueError.
Proof.
  unfold map_team, expected_rounds, team_field.
  destruct (team_one gm) as [t1|]; [|discriminate].
  destruct (team_two gm) as [t2|]; [|discriminate]. simpl.
  intros [= <-] [= <-] N1 N2. apply Z.eqb_neq in N1, N2. now rewrite N1, N2.
Qed.

Lemma map_team_only_raises (gm : game_metadata) (refs : gmap string (option team_ref))
    (team : raw_team) (one two : Z) :
  expected_rounds (team_one gm) = Some one ->
  expected_rounds (team_two gm) = Some two ->
  only_raises ValueError (map_team gm refs team).
Proof.
  unfold map_team, expected_rounds, team_field.
  destruct (team_one gm) as [t1|]; [|discriminate].
  destruct (team_two gm) as [t2|]; [|discriminate]. simpl. intros _ _ e.
  destruct (_ =? _); [discriminate|]. destruct (_ =? _); [discriminate|]. congruence.
Qed.

Lemma teams_loop_unmatched (gm : game_metadata) (one two : Z) (teams : list raw_team) :
  expected_rounds (team_one gm) = Some one ->
  expected_rounds (team_two gm) = Some two ->
  (exists team, In team teams /\ rt_roundsWon team <> one /\ rt_roundsWon team <> two) ->
  forall refs, for_each (map_team gm) teams refs = Err ValueError.
Proof.
  intros H1 H2. induction teams as [|t teams IH]; intros (team & Hin & N1 & N2) refs.
  - destruct Hin.
  - rewrite for_each_cons. destruct (map_team gm refs t) as [refs1|e] eqn:Hstep.
    + simpl. apply IH. destruct Hin as [-> | Hin]; [|eauto].
      now rewrite (map_team_unmatched _ _ _ _ _ H1 H2 N1 N2) in Hstep.
    + simpl. f_equal. exact (map_team_only_raises _ _ _ _ _ H1 H2 _ Hstep).
Qed.

Lemma teams_loop_ok (gm : game_metadata) (teams : list raw_team) :
  forall refs refs',
    for_each (map_team gm) teams refs = Ok refs' ->
    (forall team, In team teams -> matches_metadata gm team)
    /\ (List.NoDup (map rt_teamId teams) ->
        forall team, In team teams ->
          exists one,
            expected_rounds (team_one gm) = Some one
            /\ refs' !! rt_teamId team
               = Some (Some (if rt_roundsWon team =? one
                             then team_one_ref else team_two_ref)))
    /\ (forall k, ~ In k (map rt_teamId teams) -> refs' !! k = refs !! k).
Proof.
  induction teams as [|t teams IH]; intros refs refs' Hrun.
  - injection Hrun as <-. repeat split; intros; try contradiction; reflexivity.
  - rewrite for_each_cons in Hrun. apply bind_ok in Hrun as (refs1 & Hstep & Hrun).
    destruct (IH _ _ Hrun) as (Hall & Hnd & Hother).
    apply map_team_ok in Hstep as (one & Hone & Hcase).
    split; [|split].
    + intros team [<- | Hin]; [|now apply Hall].
      unfold matches_metadata.
      destruct Hcase as [[E _] | (_ & E & _)]; [left; now rewrite E | now right].
    + simpl. intros Hdup team Hin. apply List.NoDup_cons_iff in Hdup as [Hfresh Hdup].
      destruct Hin as [<- | Hin]; [|now apply Hnd].
      exists one. split; [assumption|]. rewrite (Hother _ Hfresh).
      destruct Hcase as [[E ->] | (N & _ & ->)]; rewrite lookup_insert_eq.
      * apply Z.eqb_eq in E. now rewrite E.
      * apply Z.eqb_neq in N. now rewrite N.
    + simpl. intros k Hk. rewrite Hother by tauto.
      destruct Hcase as [[_ ->] | (_ & _ & ->)];
        rewrite lookup_insert_ne; try reflexivity; intros E; apply Hk; now left.
Qed.

(** *** The loop over the players *)

Section WithRuntime.
Context `{PyRuntime}.

Lemma add_player_rows_count sm vm h (st st' : rows_state) (player : raw_player) :
  add_player_rows sm vm h st player = Ok st' ->
  player_count_found st'
  = player_count_found st
    + (if String.eqb (pl_teamId player) "Neutral" then 0 else 1).
Proof.
  unfold add_player_rows. destruct (String.eqb (pl_teamId player) "Neutral").
  - intros [= <-]. lia.
  - intros Hrun.
    do 12 (apply bind_ok in Hrun as (? & _ & Hrun)).
    apply bind_ok in Hrun as (added & _ & Hrun).
    destruct (negb added); now injection Hrun as <-.
Qed.

Lemma players_loop_count sm vm h (ps : list raw_player) :
  forall st st',
    for_each (add_player_rows sm vm h) ps st = Ok st' ->
    player_count_found st' = player_count_found st + non_neutral ps.
Proof.
  induction ps as [|p ps IH]; intros st st' Hrun.
  - injection Hrun as <-. simpl. lia.
  - rewrite for_each_cons in Hrun. apply bind_ok in Hrun as (st1 & Hstep & Hrun).
    rewrite (IH _ _ Hrun), (add_player_rows_count _ _ _ _ _ _ Hstep). simpl.
    destruct (String.eqb (pl_teamId p) "Neutral"); lia.
Qed.

Lemma check_rows_ok (st : rows_state) :
  check_rows st = Ok tt ->
  10 <= player_count_found st
  /\ team_rows_added_map st !! "Blue_team_row_added" = Some true
  /\ team_rows_added_map st !! "Red_team_row_added" = Some true.
Proof.
  unfold check_rows, getitem.
  destruct (player_count_found st <? 10) eqn:E; [discriminate|].
  apply Z.ltb_ge in E.
  destruct (team_rows_added_map st !! "Blue_team_row_added") as [[|]|]; try discriminate.
  destruct (team_rows_added_map st !! "Red_team_row_added") as [[|]|]; try discriminate.
  simpl. now intros _.
Qed.

(** What a successful run consists of. *)
Lemma val_game_factory_ok raw sm vm rows :
  game_factory raw sm vm = Ok rows ->
  exists entry gm refs stats st,
    maps vm !! mapId (matchInfo raw) = Some entry
    /\ match_game_metadata (displayName entry) (games sm) = Ok gm
    /\ resolve_team_side_refs gm (rg_teams raw) = Ok refs
    /\ for_each process_round (enumerate (roundResults raw)) initial_preagg = Ok stats
    /\ player_count_found st = non_neutral (players raw)
    /\ check_rows st = Ok tt
    /\ rows = sorted row_key_leb row_key (cleaned_game_data st).
Proof.
  unfold game_factory. intros Hrun.
  apply bind_ok in Hrun as (entry & Hentry & Hrun).
  apply bind_ok in Hrun as (seconds & _ & Hrun).
  apply bind_ok in Hrun as (start & _ & Hrun).
  apply bind_ok in Hrun as (version & _ & Hrun).
  apply bind_ok in Hrun as (gm & Hgm & Hrun).
  apply bind_ok in Hrun as (refs & Hrefs & Hrun).
  apply bind_ok in Hrun as (stats & Hstats & Hrun).
  apply bind_ok in Hrun as (st & Hst & Hrun).
  apply bind_ok in Hrun as ([] & Hcheck & Hrun).
  injection Hrun as <-.
  exists entry, gm, refs, stats, st.
  unfold getitem in Hentry.
  destruct (maps vm !! mapId (matchInfo raw)) as [entry'|]; [|discriminate].
  injection Hentry as ->.
  repeat split; try assumption.
  now rewrite (players_loop_count _ _ _ _ _ _ Hst).
Qed.

End WithRuntime.

End ValTeams.

Section ValGame.
Import Val.
Context `{PyRuntime}.

(** C10.  A round without kill events makes the per-round credit raise
    [IndexError]: the sorted list is indexed at 0 without a check.  In the
    loop over the rounds the exception is raised at the first such round
    once the rounds before it are processed, so a game that is flattened
    has a kill in every round and a game with a round without kills gives
    no rows. *)
Theorem round_without_kills_raises :
  (forall rd stats,
      round_kill_events rd = [] -> credit_round rd stats = Err IndexError)
  /\ (forall pre rd post st,
        for_each process_round (enumerate pre) initial_preagg = Ok st ->
        round_kill_events rd = [] ->
        for_each process_round (enumerate (pre ++ rd :: post)) initial_preagg
        = Err IndexError)
  /\ (forall raw sm vm rows,
        game_factory raw sm vm = Ok rows ->
        forall rd, In rd (roundResults raw) -> round_kill_events rd <> [])
  /\ (forall raw sm vm rd,
        In rd (roundResults raw) -> round_kill_events rd = [] ->
        exists e, game_factory raw sm vm = Err e).
Proof.
  assert (Hok : forall raw sm vm rows,
             game_factory raw sm vm = Ok rows ->
             forall rd, In rd (roundResults raw) -> round_kill_events rd <> []).
  { intros raw sm vm rows Hrun.
    apply val_game_factory_ok in Hrun
      as (entry & gm & refs & stats & st & _ & _ & _ & Hrounds & _).
    exact (rounds_loop_ok_kills _ _ Hrounds). }
  split; [exact credit_round_no_kills|].
  split; [intros pre rd post; apply rounds_loop_fails_at_quiet_round|].
  split; [exact Hok|].
  intros raw sm vm rd Hin Hno. destruct (game_factory raw sm vm) as [rows|e] eqn:Hrun.
  - destruct (Hok _ _ _ _ Hrun rd Hin Hno).
  - eauto.
Qed.

End ValGame.

Lemma round_without_kills_raises_witness :
  for_each Val.process_round
    (enumerate (Val.roundResults ValSample.game_with_quiet_round)) Val.initial_preagg
  = Err IndexError
  /\ exists e, Val.game_factory (H := ValSample.runtime) ValSample.game_with_quiet_round
                 ValSample.series ValSample.reference = Err e.
Proof.
  destruct (round_without_kills_raises (H := ValSample.runtime))
    as (_ & Hloop & _ & Hgame).
  split.
  - destruct (for_each Val.process_round
                (enumerate (repeat (ValSample.played_round "Red") 2))
                Val.initial_preagg) as [st|e] eqn:Hpre.
    + exact (Hloop (repeat (ValSample.played_round "Red") 2)
               (ValSample.quiet_round "Red") _ st Hpre eq_refl).
    + assert (Hcomputed : is_ok (for_each Val.process_round
                                   (enumerate (repeat (ValSample.played_round "Red") 2))
                                   Val.initial_preagg) = true)
        by (vm_compute; reflexivity).
      rewrite Hpre in Hcomputed. discriminate Hcomputed.
  - apply (Hgame _ _ _ (ValSample.quiet_round "Red")); [|reflexivity].
    simpl. right. right. now left.
Defined.

(** * Further properties of the League of Legends flattener *)

Section LolNames.
Import Lol.

Lemma any_append (p : ascii -> bool) (s1 s2 : string) :
  PyStr.any p (s1 ++ s2) = PyStr.any p s1 || PyStr.any p s2.
Proof. induction s1 as [|a s1 IH]; simpl; [reflexivity|]. now rewrite IH, orb_assoc. Qed.

Lemma isupper_nonempty (s : string) : PyStr.isupper s = true -> s <> EmptyString.
Proof. intros Hup ->. discriminate Hup. Qed.

(** A tag that is split off is not empty. *)
Lemma split_team_tag_nonempty (s t name : string) :
  split_team_tag_and_player_nickname s = Ok (Some t, name) -> t <> EmptyString.
Proof.
  unfold split_team_tag_and_player_nickname.
  destruct (PyStr.find PyStr.space s =? -1); simpl; [discriminate|].
  destruct (PyStr.find PyStr.space s <? 5); [|discriminate].
  destruct (PyStr.split PyStr.space s) as [|pre rest]; simpl; try discriminate.
  destruct (PyStr.isupper pre) eqn:Hup; [|discriminate].
  intros [= <- _]. exact (isupper_nonempty _ Hup).
Qed.

End LolNames.

Section LolCutoff.
Import Lol.

Lemma scan_frames_prefix (pre : list frame) :
  forall (f : frame) (post : list frame) (st : scan_state),
    (forall g, In g pre -> timestamp g <= 850000) ->
    850000 < timestamp f ->
    scan_frames (pre ++ f :: post) st = scan_frames pre st.
Proof.
  induction pre as [|g pre IH]; intros f post st Hpre Hf; simpl.
  - destruct (timestamp f >? 850000) eqn:E; [reflexivity|].
    rewrite Z.gtb_ltb in E. apply Z.ltb_ge in E. lia.
  - destruct (timestamp g >? 850000) eqn:E; [reflexivity|].
    destruct (for_each scan_event (events g) st) as [st'|e]; simpl; [|reflexivity].
    apply IH; [|assumption]. intros; apply Hpre; now right.
Qed.

Lemma scan_frames_all (fs : list frame) :
  forall st : scan_state,
    (forall g, In g fs -> timestamp g <= 850000) ->
    scan_frames fs st = for_each scan_event (flat_map events fs) st.
Proof.
  induction fs as [|g fs IH]; intros st Hfs; simpl; [reflexivity|].
  destruct (timestamp g >? 850000) eqn:E.
  - rewrite Z.gtb_ltb in E. apply Z.ltb_lt in E.
    specialize (Hfs g (or_introl eq_refl)). lia.
  - rewrite for_each_app.
    destruct (for_each scan_event (events g) st) as [st'|e]; simpl; [|reflexivity].
    apply IH. intros; apply Hfs; now right.
Qed.

Lemma scan_frames_restamped (pre : list frame) :
  forall (f : frame) (t : Z) (post : list frame) (st : scan_state),
    (forall g, In g pre -> timestamp g <= 850000) ->
    timestamp f <= 850000 -> t <= 850000 ->
    scan_frames (pre ++ f :: post) st
    = scan_frames (pre ++ {| timestamp := t; events := events f |} :: post) st.
Proof.
  induction pre as [|g pre IH]; intros f t post st Hpre Hf Ht; simpl.
  - destruct (timestamp f >? 850000) eqn:E1;
      [rewrite Z.gtb_ltb in E1; apply Z.ltb_lt in E1; lia|].
    destruct (t >? 850000) eqn:E2;
      [rewrite Z.gtb_ltb in E2; apply Z.ltb_lt in E2; lia | reflexivity].
  - destruct (timestamp g >? 850000); [reflexivity|].
    destruct (for_each scan_event (events g) st) as [st'|e]; simpl; [|reflexivity].
    apply IH; [|assumption|assumption]. intros; apply Hpre; now right.
Qed.

(** X2.  The timeline loop stops at the first frame whose timestamp
    exceeds 850000: that frame and every frame after it, whatever their
    timestamps, leave the result unchanged.  A frame stamped 850000 or
    less, so also one stamped exactly 850000, is read like any earlier
    frame: its timestamp can be replaced by any other one up to 850000
    without changing the result, and when no frame is stamped above
    850000 the loop handles the events of all frames. *)
Theorem frames_after_cutoff_are_ignored :
  forall game_id si sf live (pre : list frame) (f : frame) (post : list frame),
    (forall g, In g pre -> timestamp g <= 850000) ->
    (850000 < timestamp f ->
     game_factory game_id si sf {| frames := pre ++ f :: post |} live
     = game_factory game_id si sf {| frames := pre |} live)
    /\ (timestamp f <= 850000 ->
        (forall t, t <= 850000 ->
           game_factory game_id si sf {| frames := pre ++ f :: post |} live
           = game_factory game_id si sf
               {| frames := pre ++ {| timestamp := t; events := events f |} :: post |}
               live)
        /\ forall st,
             scan_frames (pre ++ [f]) st
             = for_each scan_event (flat_map events pre ++ events f) st).
Proof.
  intros game_id si sf live pre f post Hpre. split; [|split].
  - intros Hf. unfold game_factory. simpl. now rewrite scan_frames_prefix.
  - intros t Ht. unfold game_factory. simpl.
    now rewrite (scan_frames_restamped pre f t post).
  - intros st. rewrite scan_frames_all.
    + rewrite flat_map_app. simpl. now rewrite app_nil_r.
    + intros g Hg. apply in_app_or in Hg as [Hg | [<- | []]]; [now apply Hpre | assumption].
Qed.

Lemma frames_after_cutoff_are_ignored_witness :
  game_factory "NA1_1" LolSample.info LolSample.stats LolSample.timeline EmptyString
  = game_factory "NA1_1" LolSample.info LolSample.stats
      {| frames := firstn 3 (frames LolSample.timeline) |} EmptyString
  /\ game_factory "NA1_1" LolSample.info LolSample.stats
       {| frames := [ {| timestamp := 850000;
                         events := [LolSample.plate 849000 100] |};
                      {| timestamp := 850001;
                         events := [LolSample.plate 850000 100] |} ] |} EmptyString
     = game_factory "NA1_1" LolSample.info LolSample.stats
         {| frames := [ {| timestamp := 0;
                           events := [LolSample.plate 849000 100] |};
                        {| timestamp := 850001;
                           events := [LolSample.plate 850000 100] |} ] |} EmptyString
  /\ scan_frames [ {| timestamp := 850000;
                      events := [LolSample.plate 849000 100] |} ] initial_scan_state
     = for_each scan_event [LolSample.plate 849000 100] initial_scan_state.
Proof.
  split; [|split].
  - apply (proj1 (frames_after_cutoff_are_ignored "NA1_1" LolSample.info LolSample.stats
                    EmptyString (firstn 3 (frames LolSample.timeline))
                    {| timestamp := 900000; events := [LolSample.plate 860000 100] |} []
                    ltac:(simpl; intros g [<- | [<- | [<- | []]]]; simpl; lia))).
    simpl. lia.
  - apply (proj1 (proj2 (frames_after_cutoff_are_ignored "NA1_1" LolSample.info
                           LolSample.stats EmptyString []
                           {| timestamp := 850000;
                              events := [LolSample.plate 849000 100] |}
                           [ {| timestamp := 850001;
                                events := [LolSample.plate 850000 100] |} ]
                           ltac:(intros g []))
                    ltac:(simpl; lia)) 0).
    lia.
  - exact (proj2 (proj2 (frames_after_cutoff_are_ignored "NA1_1" LolSample.info
                           LolSample.stats EmptyString []
                           {| timestamp := 850000;
                              events := [LolSample.plate 849000 100] |} []
                           ltac:(intros g []))
                    ltac:(simpl; lia)) initial_scan_state).
Defined.

End LolCutoff.

Section LolShape.
Import Lol.

(** A loop that appends one item per element, the item depending on what
    was collected so far: each item is computed from the start value
    followed by the items before it. *)
Lemma for_each_collect_prefix {A B R : Type} (f : list R -> A -> result B)
    (g : B -> R) (xs : list A) :
  forall (acc out : list R),
    for_each (fun acc x => y ← f acc x; Ok (acc ++ [g y])%list) xs acc = Ok out ->
    exists ys,
      out = (acc ++ map g ys)%list
      /\ length ys = length xs
      /\ forall j x, xs !! j = Some x ->
           exists y, ys !! j = Some y
                     /\ f (acc ++ map g (firstn j ys))%list x = Ok y.
Proof.
  induction xs as [|x xs IH]; intros acc out Hrun.
  - injection Hrun as <-. exists []. rewrite app_nil_r.
    repeat split. intros j x Hj. destruct j; discriminate.
  - rewrite for_each_cons in Hrun. apply bind_ok in Hrun as (acc1 & Hstep & Hrun).
    apply bind_ok in Hstep as (y & Hy & Hstep). injection Hstep as <-.
    destruct (IH _ _ Hrun) as (ys & -> & Hlen & Hlk).
    exists (y :: ys). rewrite <- app_assoc. simpl. repeat split; [lia|].
    intros [|j] x' Hj; simpl in *.
    + injection Hj as <-. exists y. rewrite app_nil_r. now split.
    + destruct (Hlk j x' Hj) as (y' & Hy' & Hf). exists y'. split; [assumption|].
      now rewrite <- app_assoc in Hf.
Qed.

Lemma make_player_dto_names game_id si sf (tt : gmap Z totals) fbv p d :
  make_player_dto game_id si sf tt fbv p = Ok d ->
  pd_side d = p_teamId p
  /\ pd_team_tag d = tag_of p
  /\ pd_summoner_name d = name_of p.
Proof.
  unfold make_player_dto, tag_of, name_of. intros Hd.
  apply bind_ok in Hd as ([tag name] & Hsplit & Hd). rewrite Hsplit.
  do 9 (apply bind_ok in Hd as (? & _ & Hd)).
  injection Hd as <-. now repeat split.
Qed.

Lemma make_team_dto_tag game_id si sf (tt : gmap Z totals) acc tm d :
  make_team_dto game_id si sf tt acc tm = Ok d ->
  td_side d = tm_teamId tm
  /\ td_team_tag d = find_team_tag (tm_teamId tm) acc.
Proof.
  unfold make_team_dto. intros Hd.
  do 5 (apply bind_ok in Hd as (? & _ & Hd)).
  injection Hd as <-. now split.
Qed.

Lemma tag_of_truthy (p : participant) (t : string) :
  tag_of p = Some t -> truthy (Some t) = true.
Proof.
  unfold tag_of. destruct (split_team_tag_and_player_nickname _) as [[tag name]|e] eqn:E;
    [|discriminate].
  intros ->. apply split_team_tag_nonempty in E.
  destruct t; [congruence | reflexivity].
Qed.

Lemma find_team_tag_app (side : Z) (l1 l2 : list row) :
  find_team_tag side (l1 ++ l2)
  = match find_team_tag side l1 with
    | Some t => Some t
    | None => find_team_tag side l2
    end.
Proof.
  induction l1 as [|r l1 IH]; simpl; [reflexivity|].
  destruct (row_side r =? side); simpl; [|exact IH].
  destruct (row_team_tag r) as [t|]; simpl; [|exact IH].
  destruct t; simpl; [exact IH | reflexivity].
Qed.

Lemma find_team_tag_players game_id si sf (tt : gmap Z totals) fbv (side : Z)
    (ps : list participant) :
  forall pds,
    traverse (make_player_dto game_id si sf tt fbv) ps = Ok pds ->
    find_team_tag side (map PlayerRow pds) = side_tag side ps.
Proof.
  induction ps as [|p ps IH]; simpl; intros pds Hpds.
  - now injection Hpds as <-.
  - apply bind_ok in Hpds as (d & Hd & Hpds).
    apply bind_ok in Hpds as (pds' & Hpds' & Hpds). injection Hpds as <-.
    apply make_player_dto_names in Hd as (Hside & Htag & _).
    simpl. rewrite Hside, Htag, (IH _ Hpds').
    destruct (p_teamId p =? side); simpl; [|reflexivity].
    destruct (tag_of p) as [t|] eqn:Et; [|reflexivity].
    now rewrite (tag_of_truthy _ _ Et).
Qed.

Lemma find_team_tag_untagged_team_rows (side : Z) (tds : list team_dto) :
  (forall d, In d tds -> td_side d = side -> td_team_tag d = None) ->
  find_team_tag side (map TeamRow tds) = None.
Proof.
  induction tds as [|d tds IH]; simpl; intros Hall; [reflexivity|].
  destruct (td_side d =? side) eqn:E; simpl; [|apply IH; auto].
  apply Z.eqb_eq in E. rewrite (Hall d (or_introl eq_refl) E). simpl. apply IH; auto.
Qed.

(** What a successful run consists of, with the rows each team row was
    computed from. *)
Lemma game_factory_rows game_id si sf tl live rows :
  game_factory game_id si sf tl live = Ok rows ->
  exists (tt : gmap Z totals) (pds : list player_dto) (tds : list team_dto),
    rows = (map PlayerRow pds ++ map TeamRow tds)%list
    /\ traverse (make_player_dto game_id si sf tt
                   (first_blood (scanned_events (frames tl))))
         (participants sf) = Ok pds
    /\ length pds = length (participants sf)
    /\ length tds = length (teams sf)
    /\ forall j tm, teams sf !! j = Some tm ->
         exists d, tds !! j = Some d
           /\ make_team_dto game_id si sf tt
                (map PlayerRow pds ++ map TeamRow (firstn j tds))%list tm = Ok d.
Proof.
  unfold game_factory. intros Hrun.
  destruct (scan_timeline_spec (frames tl)) as (st & Hscan & _ & _ & _ & Hfb).
  rewrite Hscan in Hrun. simpl in Hrun.
  apply bind_ok in Hrun as (tt & Hagg & Hrun).
  rewrite for_each_collect in Hrun.
  apply bind_ok in Hrun as (rows1 & Hplayers & Hrun).
  apply bind_ok in Hplayers as (pds & Hpds & Hplayers). injection Hplayers as <-.
  apply for_each_collect_prefix in Hrun as (tds & -> & Hlen & Hteams).
  exists tt, pds, tds. rewrite <- Hfb.
  destruct (traverse_lookup _ _ _ Hpds) as [Hlp _].
  repeat split; assumption.
Qed.

Lemma team_rows_tags game_id si sf (tt : gmap Z totals) fbv
    (pds : list player_dto) (tds : list team_dto) :
  traverse (make_player_dto game_id si sf tt fbv) (participants sf) = Ok pds ->
  (forall j tm, teams sf !! j = Some tm ->
     exists d, tds !! j = Some d
       /\ make_team_dto game_id si sf tt
            (map PlayerRow pds ++ map TeamRow (firstn j tds))%list tm = Ok d) ->
  forall j tm d, teams sf !! j = Some tm -> tds !! j = Some d ->
    td_side d = tm_teamId tm
    /\ td_team_tag d = side_tag (tm_teamId tm) (participants sf).
Proof.
  intros Hpds Hteams j. induction j as [j IH] using lt_wf_ind.
  intros tm d Hj Hd. destruct (Hteams j tm Hj) as (d' & Hd' & Hmk).
  rewrite Hd in Hd'. injection Hd' as <-.
  apply make_team_dto_tag in Hmk as [Hside Htag]. split; [assumption|].
  rewrite Htag, find_team_tag_app, (find_team_tag_players _ _ _ _ _ _ _ _ Hpds).
  destruct (side_tag (tm_teamId tm) (participants sf)) eqn:Es; [reflexivity|].
  apply find_team_tag_untagged_team_rows. intros d0 Hin Hs0.
  apply list_elem_of_In, list_elem_of_lookup in Hin as [i Hi].
  apply lookup_take_Some in Hi as [Hi Hlt].
  destruct (teams sf !! i) as [tm0|] eqn:Htm0.
  - destruct (IH i Hlt tm0 d0 Htm0 Hi) as [Hs Ht]. rewrite Ht, <- Hs, Hs0. exact Es.
  - destruct (Hteams j tm Hj) as (dj & Hdj & _).
    apply lookup_ge_None in Htm0. apply lookup_lt_Some in Hj. lia.
Qed.

(** X3.  A flattened game gives one player row per participant, in the
    order of the participants, followed by one team row per team, in the
    order of the teams; a player row carries the participant's side and the
    tag and name split from its display name, a team row the team's side. *)
Theorem rows_follow_participants_and_teams :
  forall game_id si sf tl live rows,
    game_factory game_id si sf tl live = Ok rows ->
    length rows = (length (participants sf) + length (teams sf))%nat
    /\ (forall i p, participants sf !! i = Some p ->
          exists d, rows !! i = Some (PlayerRow d)
                    /\ pd_side d = p_teamId p
                    /\ pd_team_tag d = tag_of p
                    /\ pd_summoner_name d = name_of p)
    /\ (forall j tm, teams sf !! j = Some tm ->
          exists d, rows !! (length (participants sf) + j)%nat = Some (TeamRow d)
                    /\ td_side d = tm_teamId tm).
Proof.
  intros game_id si sf tl live rows Hrun.
  apply game_factory_rows in Hrun as (tt & pds & tds & -> & Hpds & Hlp & Hlt & Hteams).
  destruct (traverse_lookup _ _ _ Hpds) as [_ Hlk].
  split; [|split].
  - rewrite length_app, !length_map. lia.
  - intros i p Hp. destruct (Hlk i p Hp) as (d & Hd & Hmk). exists d.
    split; [now apply lookup_player_row|]. exact (make_player_dto_names _ _ _ _ _ _ _ Hmk).
  - intros j tm Hj. destruct (Hteams j tm Hj) as (d & Hd & Hmk). exists d.
    rewrite <- Hlp. split; [now apply lookup_team_row|].
    exact (proj1 (make_team_dto_tag _ _ _ _ _ _ _ Hmk)).
Qed.

Lemma rows_follow_participants_and_teams_witness :
  exists rows,
    game_factory "NA1_1" LolSample.info LolSample.stats LolSample.timeline
      EmptyString = Ok rows
    /\ length rows = 12%nat.
Proof.
  eassert (Hrun : game_factory "NA1_1" LolSample.info LolSample.stats
                    LolSample.timeline EmptyString = Ok _)
    by (vm_compute; reflexivity).
  eexists. split; [exact Hrun|].
  exact (proj1 (rows_follow_participants_and_teams _ _ _ _ _ _ Hrun)).
Defined.

(** X4.  The tag of a team row is the tag of the first participant of
    that side whose display name has one, and [None] when no participant
    of the side has a tag; the team rows written before it do not change
    that. *)
Theorem team_row_tag_is_first_player_tag :
  forall game_id si sf tl live rows,
    game_factory game_id si sf tl live = Ok rows ->
    forall j tm, teams sf !! j = Some tm ->
      exists d, rows !! (length (participants sf) + j)%nat = Some (TeamRow d)
                /\ td_team_tag d = side_tag (tm_teamId tm) (participants sf).
Proof.
  intros game_id si sf tl live rows Hrun j tm Hj.
  apply game_factory_rows in Hrun as (tt & pds & tds & -> & Hpds & Hlp & Hlt & Hteams).
  destruct (Hteams j tm Hj) as (d & Hd & _). exists d.
  rewrite <- Hlp. split; [now apply lookup_team_row|].
  exact (proj2 (team_rows_tags _ _ _ _ _ _ _ Hpds Hteams j tm d Hj Hd)).
Qed.

Lemma team_row_tag_is_first_player_tag_witness :
  exists rows d100 d200,
    game_factory "NA1_1" LolSample.info LolSample.stats LolSample.timeline
      EmptyString = Ok rows
    /\ rows !! 10%nat = Some (TeamRow d100) /\ td_team_tag d100 = Some "TSM"
    /\ rows !! 11%nat = Some (TeamRow d200) /\ td_team_tag d200 = None.
Proof.
  eassert (Hrun : game_factory "NA1_1" LolSample.info LolSample.stats
                    LolSample.timeline EmptyString = Ok _)
    by (vm_compute; reflexivity).
  destruct (team_row_tag_is_first_player_tag _ _ _ _ _ _ Hrun 0%nat _ eq_refl)
    as (d100 & H100 & T100).
  destruct (team_row_tag_is_first_player_tag _ _ _ _ _ _ Hrun 1%nat _ eq_refl)
    as (d200 & H200 & T200).
  eexists _, d100, d200. split; [exact Hrun|].
  split; [exact H100|]. split; [exact T100|]. split; [exact H200 | exact T200].
Defined.

End LolShape.

Section LolOutcome.
Import Lol.

Lemma per_minute_ok_inv (x d : Z) (q : Q) : per_minute x d = Ok q -> d <> 0.
Proof.
  unfold per_minute. intros Hq ->. now rewrite truediv_nonzero in Hq by lia.
Qed.

Lemma make_player_dto_divisors game_id si sf (tt : gmap Z totals) fbv p d :
  make_player_dto game_id si sf tt fbv p = Ok d ->
  exists t,
    tt !! p_teamId p = Some t
    /\ kills t <> 0 /\ damage_to_champions t <> 0 /\ gameDuration sf <> 0.
Proof.
  unfold make_player_dto. intros Hd.
  apply bind_ok in Hd as ([tag name] & _ & Hd).
  apply bind_ok in Hd as (kda & _ & Hd).
  apply bind_ok in Hd as (t & Ht & Hd).
  apply bind_ok in Hd as (kp & Hkp & Hd).
  apply bind_ok in Hd as (dpm & Hdpm & Hd).
  apply bind_ok in Hd as (ds & Hds & Hd).
  unfold getitem in Ht. destruct (tt !! p_teamId p) as [t'|]; [|discriminate].
  injection Ht as ->. exists t. split; [reflexivity|].
  apply truediv_ok_inv in Hkp as [Hk _]. apply truediv_ok_inv in Hds as [Hdm _].
  apply per_minute_ok_inv in Hdpm. now repeat split.
Qed.

Lemma make_team_dto_divisors game_id si sf (tt : gmap Z totals) acc tm d :
  make_team_dto game_id si sf tt acc tm = Ok d ->
  is_Some (tt !! tm_teamId tm) /\ gameDuration sf <> 0.
Proof.
  unfold make_team_dto. intros Hd.
  apply bind_ok in Hd as (t & Ht & Hd).
  apply bind_ok in Hd as (w & Hw & Hd).
  unfold getitem in Ht. destruct (tt !! tm_teamId tm) as [t'|]; [|discriminate].
  split; [eauto | exact (per_minute_ok_inv _ _ _ Hw)].
Qed.

(** X5.  A flattened game has every participant and every team on side
    100 or 200, a non-zero kill total and a non-zero damage total on every
    side with a participant, and a game duration that is not zero unless
    there is neither a participant nor a team.  For a stats file whose
    counters are in the range of a float, where no division overflows,
    these conditions are also enough for the flattener to return rows. *)
Theorem game_factory_returns_rows_iff :
  forall game_id si sf tl live,
    ((exists rows, game_factory game_id si sf tl live = Ok rows) ->
     (forall p, In p (participants sf) ->
        known_side (p_teamId p)
        /\ team_sum p_kills (p_teamId p) (participants sf) <> 0
        /\ team_sum p_totalDamageDealtToChampions (p_teamId p) (participants sf) <> 0)
     /\ (forall tm, In tm (teams sf) -> known_side (tm_teamId tm))
     /\ (participants sf <> [] \/ teams sf <> [] -> gameDuration sf <> 0))
    /\ (counters_fit sf = true ->
        (forall p, In p (participants sf) ->
           known_side (p_teamId p)
           /\ team_sum p_kills (p_teamId p) (participants sf) <> 0
           /\ team_sum p_totalDamageDealtToChampions (p_teamId p) (participants sf) <> 0) ->
        (forall tm, In tm (teams sf) -> known_side (tm_teamId tm)) ->
        (participants sf <> [] \/ teams sf <> [] -> gameDuration sf <> 0) ->
        exists rows, game_factory game_id si sf tl live = Ok rows).
Proof.
  intros game_id si sf tl live. split.
  - intros [rows Hrun].
    apply game_factory_ok in Hrun
      as (tt & pds & tds & -> & H100 & H200 & Ho & Hpds & Hlen & Htds).
    destruct (traverse_lookup _ _ _ Hpds) as [_ Hlk].
    assert (Hp : forall p, In p (participants sf) ->
              known_side (p_teamId p)
              /\ team_sum p_kills (p_teamId p) (participants sf) <> 0
              /\ team_sum p_totalDamageDealtToChampions (p_teamId p)
                   (participants sf) <> 0
              /\ gameDuration sf <> 0).
    { intros p Hin. apply list_elem_of_In, list_elem_of_lookup in Hin as [i Hi].
      destruct (Hlk i p Hi) as (d & _ & Hmk).
      apply make_player_dto_divisors in Hmk as (t & Ht & Hk & Hd & Hdur).
      destruct (side_totals _ _ _ H100 H200 Ho _ _ Ht) as (Hside & Ek & _ & Ed & _).
      rewrite <- Ek, <- Ed. now repeat split. }
    assert (Ht : forall tm, In tm (teams sf) ->
              known_side (tm_teamId tm) /\ gameDuration sf <> 0).
    { intros tm Hin. apply list_elem_of_In, list_elem_of_lookup in Hin as [j Hj].
      destruct (Htds j tm Hj) as (d & acc & _ & Hmk).
      apply make_team_dto_divisors in Hmk as [[t Hsome] Hdur].
      destruct (side_totals _ _ _ H100 H200 Ho _ _ Hsome) as (Hside & _).
      now split. }
    split; [|split].
    + intros p Hin. destruct (Hp p Hin) as (A & B & C & _). now repeat split.
    + intros tm Hin. now destruct (Ht tm Hin).
    + intros [Hne | Hne].
      * destruct (participants sf) as [|p ps] eqn:E; [congruence|].
        rewrite <- E in Hp. apply (Hp p). rewrite E. now left.
      * destruct (teams sf) as [|tm tms] eqn:E; [congruence|].
        rewrite <- E in Ht. apply (Ht tm). rewrite E. now left.
  - intros _ Hp Ht Hdur.
    destruct (participants sf) as [|p0 ps0] eqn:Eps;
      [destruct (teams sf) as [|tm0 tms0] eqn:Etm|].
    + exists []. unfold game_factory.
      destruct (scan_timeline_spec (frames tl)) as (st & -> & _). simpl.
      now rewrite Eps, Etm.
    + rewrite <- Eps, <- Etm in *. apply game_factory_succeeds.
      * apply Hdur. right. rewrite Etm. discriminate.
      * intros p Hin. rewrite Eps in Hin. destruct Hin.
      * exact Ht.
    + rewrite <- Eps in *. apply game_factory_succeeds.
      * apply Hdur. left. rewrite Eps. discriminate.
      * exact Hp.
      * exact Ht.
Qed.

Lemma game_factory_returns_rows_iff_witness :
  (exists rows,
      game_factory "NA1_1" LolSample.info LolSample.stats LolSample.timeline
        EmptyString = Ok rows)
  /\ team_sum p_kills 200 (participants LolSample.stats) <> 0.
Proof.
  pose proof (game_factory_returns_rows_iff "NA1_1" LolSample.info LolSample.stats
                LolSample.timeline EmptyString) as [Hif Honly].
  assert (Hrows : exists rows,
             game_factory "NA1_1" LolSample.info LolSample.stats
               LolSample.timeline EmptyString = Ok rows).
  { apply Honly.
    - vm_compute. reflexivity.
    - intros p Hin. simpl in Hin.
      repeat (destruct Hin as [<- | Hin];
              [split; [first [now left | now right] | split; discriminate]|]).
      destruct Hin.
    - intros tm [<- | [<- | []]]; [now left | now right].
    - intros _. discriminate. }
  split; [exact Hrows|].
  destruct (Hif Hrows) as (Hp & _).
  exact (proj1 (proj2 (Hp (LolSample.player 6 200 "Faker" 2 2 1)
                         (or_intror (or_intror (or_intror (or_intror (or_intror
                            (or_introl eq_refl))))))))).
Defined.

(** *** Exceptions *)

Lemma add_participant_only_raises (tt : gmap Z totals) (p : participant) :
  only_raises KeyError (add_participant tt p).
Proof.
  unfold add_participant, getitem. intros e.
  destruct (tt !! p_teamId p); simpl; congruence.
Qed.

Lemma participants_loop_only_raises (ps : list participant) :
  forall tt : gmap Z totals, only_raises KeyError (for_each add_participant ps tt).
Proof.
  induction ps as [|p ps IH]; intros tt e Hagg; [discriminate|].
  rewrite for_each_cons in Hagg.
  apply bind_err in Hagg as [Hstep | (tt1 & _ & Hagg)]; [|exact (IH _ _ Hagg)].
  exact (add_participant_only_raises _ _ _ Hstep).
Qed.

Lemma participants_loop_unknown_side (ps : list participant) :
  forall tt : gmap Z totals,
    (forall k, is_Some (tt !! k) -> known_side k) ->
    (exists p, In p ps /\ ~ known_side (p_teamId p)) ->
    for_each add_participant ps tt = Err KeyError.
Proof.
  induction ps as [|p ps IH]; intros tt Hdom (q & Hin & Hq); [destruct Hin|].
  rewrite for_each_cons. destruct (add_participant tt p) as [tt1|e] eqn:Hstep; simpl.
  - apply IH.
    + intros k Hk. unfold add_participant, getitem in Hstep.
      destruct (tt !! p_teamId p) as [t|] eqn:Ht; [|discriminate].
      injection Hstep as <-. apply lookup_insert_is_Some' in Hk as [<- | Hk]; eauto.
    + destruct Hin as [-> | Hin]; [|eauto].
      unfold add_participant, getitem in Hstep.
      destruct (tt !! p_teamId q) as [t|] eqn:Ht; [|discriminate].
      destruct Hq. apply Hdom. eauto.
  - f_equal. exact (add_participant_only_raises _ _ _ Hstep).
Qed.

Lemma make_team_dto_only_raises game_id si sf (tt : gmap Z totals) acc tm :
  forall e, make_team_dto game_id si sf tt acc tm = Err e ->
    e = KeyError \/ e = ZeroDivisionError.
Proof.
  unfold make_team_dto, getitem. intros e.
  destruct (tt !! tm_teamId tm) as [t|]; simpl; [|intros [= <-]; now left].
  intros He. right. revert e He.
  repeat first
    [ apply only_raises_ok
    | apply only_raises_bind; [apply per_minute_only_raises | intros ? _] ].
Qed.

Lemma team_loop_only_raises game_id si sf (tt : gmap Z totals) (tms : list team) :
  forall acc e,
    for_each
      (fun acc team =>
         team_dto ← make_team_dto game_id si sf tt acc team;
         Ok (acc ++ [TeamRow team_dto])%list) tms acc = Err e ->
    e = KeyError \/ e = ZeroDivisionError.
Proof.
  induction tms as [|tm tms IH]; intros acc e Hrun; [discriminate|].
  rewrite for_each_cons in Hrun.
  apply bind_err in Hrun as [Hstep | (acc1 & _ & Hrun)]; [|exact (IH _ _ Hrun)].
  apply bind_err in Hstep as [Hstep | (d & _ & Hstep)]; [|discriminate].
  exact (make_team_dto_only_raises _ _ _ _ _ _ _ Hstep).
Qed.

(** X6.  For a stats file whose counters are in the range of a float,
    where no division overflows, the only exceptions the flattener raises
    are [KeyError] and [ZeroDivisionError].  A participant on a side other
    than 100 and 200 makes it raise [KeyError], in the first loop over the
    participants and so before any division. *)
Theorem game_factory_exceptions :
  forall game_id si sf tl live,
    (counters_fit sf = true ->
     forall e, game_factory game_id si sf tl live = Err e ->
       e = KeyError \/ e = ZeroDivisionError)
    /\ ((exists p, In p (participants sf) /\ ~ known_side (p_teamId p)) ->
        game_factory game_id si sf tl live = Err KeyError).
Proof.
  intros game_id si sf tl live. unfold game_factory.
  destruct (scan_timeline_spec (frames tl)) as (st & -> & H100 & H200 & Ho & _).
  simpl. split.
  - intros _ e Hrun.
    apply bind_err in Hrun as [Hagg | (tt & Hagg & Hrun)].
    { left. exact (participants_loop_only_raises _ _ _ Hagg). }
    rewrite for_each_collect in Hrun.
    apply bind_err in Hrun as [Hrows | (rows1 & _ & Hrun)].
    + right. apply bind_err in Hrows as [Hpds | (pds & _ & Hrows)]; [|discriminate].
      apply (traverse_only_raises ZeroDivisionError
               (make_player_dto game_id si sf tt (first_blood_victim st))
               (participants sf)); [|exact Hpds].
      intros q Hq. apply make_player_dto_only_raises.
      destruct (for_each_ok_each _ _ _ _ Hagg q Hq) as (s1 & s2 & Hstep).
      unfold add_participant, getitem in Hstep.
      destruct (s1 !! p_teamId q) as [t|] eqn:Ht; [|discriminate].
      assert (Hside : known_side (p_teamId q)).
      { destruct (Z.eq_dec (p_teamId q) 100) as [E|N1]; [now left|].
        destruct (Z.eq_dec (p_teamId q) 200) as [E|N2]; [now right|].
        exfalso.
        assert (Hq' : exists p, In p (participants sf) /\ ~ known_side (p_teamId p)).
        { exists q. split; [assumption|]. intros [E | E]; congruence. }
        rewrite (participants_loop_unknown_side _ (team_totals st)) in Hagg;
          [discriminate | | exact Hq'].
        intros k [t0 Hk]. destruct (Z.eq_dec k 100) as [->|K1]; [now left|].
        destruct (Z.eq_dec k 200) as [->|K2]; [now right|].
        rewrite (Ho k K1 K2) in Hk. discriminate. }
      destruct Hside as [E | E]; rewrite E;
        [rewrite (totals_after_participants _ _ _ Hagg 100 _ H100)
        |rewrite (totals_after_participants _ _ _ Hagg 200 _ H200)]; eauto.
    + exact (team_loop_only_raises _ _ _ _ _ _ _ Hrun).
  - intros Hbad. rewrite participants_loop_unknown_side; [reflexivity | | exact Hbad].
    intros k [t0 Hk]. destruct (Z.eq_dec k 100) as [->|K1]; [now left|].
    destruct (Z.eq_dec k 200) as [->|K2]; [now right|].
    rewrite (Ho k K1 K2) in Hk. discriminate.
Qed.

Lemma game_factory_exceptions_witness :
  (forall e,
      game_factory "NA1_1" LolSample.info LolSample.shutout_stats LolSample.timeline
        EmptyString = Err e ->
      e = KeyError \/ e = ZeroDivisionError)
  /\ game_factory "NA1_1" LolSample.info
       {| gameDuration := 1800;
          participants := [LolSample.player 1 300 "Faker" 1 1 1];
          teams := [] |}
       LolSample.timeline EmptyString
     = Err KeyError.
Proof.
  split.
  - apply (proj1 (game_factory_exceptions _ _ _ _ _)). vm_compute. reflexivity.
  - apply (proj2 (game_factory_exceptions _ _ _ _ _)).
    exists (LolSample.player 1 300 "Faker" 1 1 1).
    split; [now left|]. intros [E | E]; discriminate E.
Defined.

End LolOutcome.

(** * Further properties of the Valorant flattener *)

Section ValSides.
Import Val.

Lemma incr_side_lookup (side : string) (c : side_counter)
    (stats : gmap string side_agg) (t : side_agg) :
  stats !! side = Some t ->
  incr_side side c stats = Ok (<[side := bump c t]> stats).
Proof. intros Ht. unfold incr_side, getitem. now rewrite Ht. Qed.

(** One round, from a table that has both sides. *)
Lemma count_round_sides_spec (n : Z) (rd : round_result)
    (stats : gmap string side_agg) (b r : side_agg) :
  stats !! "Blue" = Some b -> stats !! "Red" = Some r ->
  exists b' r' stats',
    count_round_sides n rd stats = Ok stats'
    /\ stats' !! "Blue" = Some b' /\ stats' !! "Red" = Some r'
    /\ attackWins b' = attackWins b
         + int_of_bool (String.eqb (attackers n) "Blue"
                        && String.eqb (winningTeam rd) "Blue")
    /\ attackLosses b' = attackLosses b
         + int_of_bool (String.eqb (attackers n) "Blue"
                        && negb (String.eqb (winningTeam rd) "Blue"))
    /\ defenseWins b' = defenseWins b
         + int_of_bool (String.eqb (attackers n) "Red"
                        && negb (String.eqb (winningTeam rd) "Red"))
    /\ defenseLosses b' = defenseLosses b
         + int_of_bool (String.eqb (attackers n) "Red"
                        && String.eqb (winningTeam rd) "Red")
    /\ attackWins r' = attackWins r
         + int_of_bool (String.eqb (attackers n) "Red"
                        && String.eqb (winningTeam rd) "Red")
    /\ attackLosses r' = attackLosses r
         + int_of_bool (String.eqb (attackers n) "Red"
                        && negb (String.eqb (winningTeam rd) "Red"))
    /\ defenseWins r' = defenseWins r
         + int_of_bool (String.eqb (attackers n) "Blue"
                        && negb (String.eqb (winningTeam rd) "Blue"))
    /\ defenseLosses r' = defenseLosses r
         + int_of_bool (String.eqb (attackers n) "Blue"
                        && String.eqb (winningTeam rd) "Blue").
Proof.
  intros Hb Hr. unfold count_round_sides.
  assert (Hbr : "Blue" <> "Red") by discriminate.
  assert (Hrb : "Red" <> "Blue") by discriminate.
  destruct (attackers_red_or_blue n) as [-> | ->];
    destruct (String.eqb (winningTeam rd) "Blue") eqn:EB;
    destruct (String.eqb (winningTeam rd) "Red") eqn:ER;
    simpl;
    first
      [ rewrite (incr_side_lookup "Red" _ _ _ Hr); simpl;
        rewrite (incr_side_lookup "Blue" _ _ b) by (now rewrite lookup_insert_ne)
      | rewrite (incr_side_lookup "Blue" _ _ _ Hb); simpl;
        rewrite (incr_side_lookup "Red" _ _ r) by (now rewrite lookup_insert_ne) ];
    (eexists _, _, _; split; [reflexivity|]);
    rewrite lookup_insert_eq, lookup_insert_ne, lookup_insert_eq by assumption;
    (split; [reflexivity|]); (split; [reflexivity|]);
    destruct b, r; simpl; repeat split; lia.
Qed.

Lemma rounds_loop_sides (rounds : list round_result) :
  forall (i : Z) (st st' : preagg) (b r : side_agg),
    team_preaggregated_stats st !! "Blue" = Some b ->
    team_preaggregated_stats st !! "Red" = Some r ->
    for_each process_round (enumerate_from i rounds) st = Ok st' ->
    exists b' r',
      team_preaggregated_stats st' !! "Blue" = Some b'
      /\ team_preaggregated_stats st' !! "Red" = Some r'
      /\ attackWins b' = attackWins b + attack_wins "Blue" i rounds
      /\ attackLosses b' = attackLosses b + attack_losses "Blue" i rounds
      /\ defenseWins b' = defenseWins b + attack_losses "Red" i rounds
      /\ defenseLosses b' = defenseLosses b + attack_wins "Red" i rounds
      /\ attackWins r' = attackWins r + attack_wins "Red" i rounds
      /\ attackLosses r' = attackLosses r + attack_losses "Red" i rounds
      /\ defenseWins r' = defenseWins r + attack_losses "Blue" i rounds
      /\ defenseLosses r' = defenseLosses r + attack_wins "Blue" i rounds.
Proof.
  induction rounds as [|rd rounds IH]; intros i st st' b r Hb Hr Hrun.
  - injection Hrun as <-. exists b, r. simpl. repeat split; try assumption; lia.
  - simpl enumerate_from in Hrun. rewrite for_each_cons in Hrun.
    apply bind_ok in Hrun as (st1 & Hstep & Hrun).
    unfold process_round in Hstep.
    destruct (count_round_sides_spec (i + 1) rd _ b r Hb Hr)
      as (b1 & r1 & t1 & Ht1 & Hb1 & Hr1 & E1 & E2 & E3 & E4 & E5 & E6 & E7 & E8).
    rewrite Ht1 in Hstep. simpl in Hstep.
    apply bind_ok in Hstep as (p1 & _ & Hstep). injection Hstep as <-.
    destruct (IH (i + 1) (Build_preagg p1 t1) st' b1 r1 Hb1 Hr1 Hrun)
      as (b' & r' & Hb' & Hr' & F1 & F2 & F3 & F4 & F5 & F6 & F7 & F8).
    exists b', r'. simpl. repeat split; try assumption; lia.
Qed.

Lemma attack_counts_total (rounds : list round_result) :
  forall i,
    attack_wins "Blue" i rounds + attack_losses "Blue" i rounds
    + attack_wins "Red" i rounds + attack_losses "Red" i rounds
    = Z.of_nat (length rounds).
Proof.
  induction rounds as [|rd rounds IH]; intros i; [reflexivity|].
  simpl attack_wins. simpl attack_losses. simpl length.
  specialize (IH (i + 1)).
  destruct (attackers_red_or_blue (i + 1)) as [-> | ->];
    destruct (String.eqb (winningTeam rd) "Blue");
    destruct (String.eqb (winningTeam rd) "Red"); simpl; lia.
Qed.

(** X7.  After the loop over the rounds the attack and defence counters
    of the two sides mirror each other: an attack won by one side is a
    defence lost by the other, and an attack not won (also when the
    winning team is neither Blue nor Red) is a defence won by the other.
    Every round is counted once as an attack. *)
Theorem attack_and_defence_counters :
  forall (rounds : list round_result) (st : preagg),
    for_each process_round (enumerate rounds) initial_preagg = Ok st ->
    exists blue red,
      team_preaggregated_stats st !! "Blue" = Some blue
      /\ team_preaggregated_stats st !! "Red" = Some red
      /\ attackWins blue = attack_wins "Blue" 0 rounds
      /\ attackLosses blue = attack_losses "Blue" 0 rounds
      /\ attackWins red = attack_wins "Red" 0 rounds
      /\ attackLosses red = attack_losses "Red" 0 rounds
      /\ defenseLosses red = attackWins blue
      /\ defenseWins red = attackLosses blue
      /\ defenseLosses blue = attackWins red
      /\ defenseWins blue = attackLosses red
      /\ attackWins blue + attackLosses blue + attackWins red + attackLosses red
         = Z.of_nat (length rounds).
Proof.
  intros rounds st Hrun.
  destruct (rounds_loop_sides rounds 0 initial_preagg st zero_side_agg zero_side_agg)
    as (b & r & Hb & Hr & E1 & E2 & E3 & E4 & E5 & E6 & E7 & E8);
    [reflexivity | reflexivity | exact Hrun |].
  exists b, r. simpl in *. pose proof (attack_counts_total rounds 0).
  repeat split; try assumption; lia.
Qed.

Lemma attack_and_defence_counters_witness :
  exists st blue red,
    for_each process_round (enumerate ValSample.eighteen_rounds) initial_preagg = Ok st
    /\ team_preaggregated_stats st !! "Blue" = Some blue
    /\ team_preaggregated_stats st !! "Red" = Some red
    /\ attackWins red = 12 /\ defenseWins red = 1
    /\ attackWins blue = 5 /\ attackLosses blue = 1.
Proof.
  destruct (for_each process_round (enumerate ValSample.eighteen_rounds)
              initial_preagg) as [st|e] eqn:Hrun.
  - destruct (attack_and_defence_counters _ _ Hrun)
      as (blue & red & Hb & Hr & E1 & E2 & E3 & E4 & E5 & E6 & E7 & E8 & _).
    exists st, blue, red. split; [reflexivity|].
    split; [exact Hb|]. split; [exact Hr|].
    assert (C1 : attack_wins "Red" 0 ValSample.eighteen_rounds = 12)
      by (vm_compute; reflexivity).
    assert (C2 : attack_wins "Blue" 0 ValSample.eighteen_rounds = 5)
      by (vm_compute; reflexivity).
    assert (C3 : attack_losses "Blue" 0 ValSample.eighteen_rounds = 1)
      by (vm_compute; reflexivity).
    repeat split; lia.
  - assert (Hcomputed : is_ok (for_each process_round
                                 (enumerate ValSample.eighteen_rounds)
                                 initial_preagg) = true)
      by (vm_compute; reflexivity).
    rewrite Hrun in Hcomputed. discriminate Hcomputed.
Defined.

End ValSides.

Section ValDamage.
Import Val.

Lemma add_damage_fields (puuid : string) (stats : gmap string player_agg)
    (target : damage_entry) (a : player_agg) :
  stats !! puuid = Some a ->
  exists a',
    add_damage puuid stats target = Ok (<[puuid := a']> stats)
    /\ forall k, agg_get k a' = agg_get k a + entry_get k target.
Proof.
  intros Ha. unfold add_damage, getitem. rewrite Ha. simpl.
  eexists. split; [reflexivity|]. now intros [].
Qed.

Lemma damage_loop_fields (puuid : string) (targets : list damage_entry) :
  forall (stats : gmap string player_agg) (a : player_agg),
    stats !! puuid = Some a ->
    exists a',
      for_each (add_damage puuid) targets stats = Ok (<[puuid := a']> stats)
      /\ forall k, agg_get k a' = agg_get k a + hits k targets.
Proof.
  induction targets as [|t ts IH]; intros stats a Ha.
  - exists a. simpl. rewrite insert_id by assumption.
    split; [reflexivity | intros k; lia].
  - rewrite for_each_cons.
    destruct (add_damage_fields puuid stats t a Ha) as (a1 & -> & H1). simpl.
    destruct (IH (<[puuid := a1]> stats) a1 (lookup_insert_eq _ _ _)) as (a2 & -> & Hk).
    exists a2. rewrite insert_insert_eq. split; [reflexivity|].
    intros k. rewrite Hk, H1. simpl. lia.
Qed.

Lemma add_player_round_fields (stats stats' : gmap string player_agg)
    (acc acc' : list kill) (player : player_round_stats) :
  add_player_round (stats, acc) player = Ok (stats', acc') ->
  (forall k q,
      agg_field k stats' q
      = agg_field k stats q
        + (if String.eqb (prs_puuid player) q
           then hits k (prs_damage player) else 0))
  /\ (forall q, is_Some (stats' !! q)
                <-> is_Some (stats !! q) \/ q = prs_puuid player).
Proof.
  unfold add_player_round. intros Hrun.
  assert (He : exists a,
             ensure_player (prs_puuid player) stats !! prs_puuid player = Some a
             /\ (forall k, agg_get k a = agg_field k stats (prs_puuid player))
             /\ forall q, q <> prs_puuid player ->
                  ensure_player (prs_puuid player) stats !! q = stats !! q).
  { unfold ensure_player, agg_field.
    destruct (stats !! prs_puuid player) as [a|] eqn:E.
    - exists a. now repeat split.
    - exists zero_player_agg. rewrite lookup_insert_eq.
      split; [reflexivity|]. split; [now intros []|].
      intros q Hq. now rewrite lookup_insert_ne. }
  destruct He as (a & Ha & Hfields & Ho).
  destruct (damage_loop_fields (prs_puuid player) (prs_damage player) _ a Ha)
    as (a' & Hloop & Hk).
  rewrite Hloop in Hrun. simpl in Hrun. injection Hrun as <- _.
  split.
  - intros k q. unfold agg_field at 1. destruct (String.eqb_spec (prs_puuid player) q) as [<- | Hq].
    + now rewrite lookup_insert_eq, Hk, Hfields.
    + rewrite lookup_insert_ne by assumption. rewrite Ho by congruence.
      unfold agg_field. lia.
  - intros q. destruct (String.string_dec q (prs_puuid player)) as [-> | Hq].
    + rewrite lookup_insert_eq. split; eauto.
    + rewrite lookup_insert_ne by congruence. rewrite (Ho q Hq). tauto.
Qed.

Lemma players_loop_fields (prs : list player_round_stats) :
  forall (stats stats' : gmap string player_agg) (acc acc' : list kill),
    for_each add_player_round prs (stats, acc) = Ok (stats', acc') ->
    (forall k q, agg_field k stats' q = agg_field k stats q + round_hits k q prs)
    /\ (forall q, is_Some (stats' !! q)
                  <-> is_Some (stats !! q) \/ In q (map prs_puuid prs)).
Proof.
  induction prs as [|p prs IH]; intros stats stats' acc acc' Hrun.
  - injection Hrun as <- _. split; [intros; simpl; lia | simpl; tauto].
  - rewrite for_each_cons in Hrun. apply bind_ok in Hrun as ([s1 acc1] & Hstep & Hrun).
    apply add_player_round_fields in Hstep as [Hf1 Hk1].
    apply IH in Hrun as [Hf2 Hk2]. split.
    + intros k q. rewrite Hf2, Hf1. simpl. lia.
    + intros q. rewrite Hk2, Hk1. simpl.
      split; [intros [[H | ->] | H]; auto | intros [H | [<- | H]]; auto].
Qed.

Lemma incr_first_kills_fields (p : string) (stats stats' : gmap string player_agg) :
  incr_first_kills p stats = Ok stats' ->
  (forall k q, agg_field k stats' q = agg_field k stats q)
  /\ (forall q, is_Some (stats' !! q) <-> is_Some (stats !! q)).
Proof.
  unfold incr_first_kills, getitem. destruct (stats !! p) as [a|] eqn:Ha; [|discriminate].
  simpl. intros [= <-]. split.
  - intros k q. unfold agg_field. destruct (String.string_dec p q) as [<- | Hq].
    + rewrite lookup_insert_eq, Ha. now destruct k.
    + now rewrite lookup_insert_ne.
  - intros q. destruct (String.string_dec p q) as [<- | Hq].
    + rewrite lookup_insert_eq, Ha. split; eauto.
    + now rewrite lookup_insert_ne.
Qed.

Lemma incr_first_deaths_fields (p : string) (stats stats' : gmap string player_agg) :
  incr_first_deaths p stats = Ok stats' ->
  (forall k q, agg_field k stats' q = agg_field k stats q)
  /\ (forall q, is_Some (stats' !! q) <-> is_Some (stats !! q)).
Proof.
  unfold incr_first_deaths, getitem. destruct (stats !! p) as [a|] eqn:Ha; [|discriminate].
  simpl. intros [= <-]. split.
  - intros k q. unfold agg_field. destruct (String.string_dec p q) as [<- | Hq].
    + rewrite lookup_insert_eq, Ha. now destruct k.
    + now rewrite lookup_insert_ne.
  - intros q. destruct (String.string_dec p q) as [<- | Hq].
    + rewrite lookup_insert_eq, Ha. split; eauto.
    + now rewrite lookup_insert_ne.
Qed.

Lemma credit_round_fields (rd : round_result) (stats stats' : gmap string player_agg) :
  credit_round rd stats = Ok stats' ->
  (forall k q, agg_field k stats' q
               = agg_field k stats q + round_hits k q (playerStats rd))
  /\ (forall q, is_Some (stats' !! q)
                <-> is_Some (stats !! q) \/ In q (map prs_puuid (playerStats rd))).
Proof.
  unfold credit_round. intros Hrun.
  apply bind_ok in Hrun as ([s1 kills] & Hloop & Hrun).
  apply players_loop_fields in Hloop as [Hf1 Hk1].
  apply bind_ok in Hrun as (k0 & _ & Hrun).
  apply bind_ok in Hrun as (s2 & Hfk & Hrun).
  apply bind_ok in Hrun as (k1 & _ & Hfd).
  apply incr_first_kills_fields in Hfk as [Hf2 Hk2].
  apply incr_first_deaths_fields in Hfd as [Hf3 Hk3].
  split.
  - intros k q. now rewrite Hf3, Hf2, Hf1.
  - intros q. now rewrite Hk3, Hk2, Hk1.
Qed.

Lemma rounds_loop_fields (rounds : list round_result) :
  forall (i : Z) (st st' : preagg),
    for_each process_round (enumerate_from i rounds) st = Ok st' ->
    (forall k q,
        agg_field k (player_preaggregated_stats st') q
        = agg_field k (player_preaggregated_stats st) q + game_hits k q rounds)
    /\ (forall q, is_Some (player_preaggregated_stats st' !! q)
                  <-> is_Some (player_preaggregated_stats st !! q)
                      \/ plays_in q rounds).
Proof.
  induction rounds as [|rd rounds IH]; intros i st st' Hrun.
  - injection Hrun as <-. split; [intros; simpl; lia|].
    intros q. split; [auto|]. intros [H | (rd & pr & [] & _)]. exact H.
  - simpl enumerate_from in Hrun. rewrite for_each_cons in Hrun.
    apply bind_ok in Hrun as (st1 & Hstep & Hrun).
    apply IH in Hrun as [Hf2 Hk2].
    unfold process_round in Hstep.
    apply bind_ok in Hstep as (t1 & _ & Hstep).
    apply bind_ok in Hstep as (p1 & Hcredit & Hstep). injection Hstep as <-.
    apply credit_round_fields in Hcredit as [Hf1 Hk1]. simpl in *.
    split.
    + intros k q. rewrite Hf2, Hf1. lia.
    + intros q. rewrite Hk2, Hk1. unfold plays_in. split.
      * intros [[H | H] | (rd' & pr & Hrd & Hpr & E)]; auto.
        -- apply in_map_iff in H as (pr & E & Hpr). right. exists rd, pr. simpl. auto.
        -- right. exists rd', pr. simpl. auto.
      * intros [H | (rd' & pr & [<- | Hrd] & Hpr & E)]; auto.
        -- left. right. apply in_map_iff. eauto.
        -- right. exists rd', pr. auto.
Qed.

(** X8.  After the loop over the rounds a player has statistics exactly
    when the player is listed in some round, and the player's damage, head
    shots, body shots and leg shots are the sums of these counters over
    all damage entries the rounds list for the player. *)
Theorem damage_totals :
  forall (rounds : list round_result) (st : preagg),
    for_each process_round (enumerate rounds) initial_preagg = Ok st ->
    forall puuid,
      (is_Some (player_preaggregated_stats st !! puuid) <-> plays_in puuid rounds)
      /\ forall k, agg_field k (player_preaggregated_stats st) puuid
                   = game_hits k puuid rounds.
Proof.
  intros rounds st Hrun puuid.
  apply rounds_loop_fields in Hrun as [Hf Hk]. split.
  - rewrite Hk. simpl. rewrite lookup_empty. split; [|auto].
    intros [[x Hx] | H]; [discriminate | exact H].
  - intros k. rewrite Hf. unfold agg_field. simpl. rewrite lookup_empty. lia.
Qed.

Lemma damage_totals_witness :
  exists st,
    for_each process_round (enumerate ValSample.eighteen_rounds) initial_preagg = Ok st
    /\ agg_field Damage (player_preaggregated_stats st) "r1" = 2700
    /\ agg_field Head (player_preaggregated_stats st) "r1" = 18.
Proof.
  destruct (for_each process_round (enumerate ValSample.eighteen_rounds)
              initial_preagg) as [st|e] eqn:Hrun.
  - exists st. split; [reflexivity|].
    destruct (damage_totals _ _ Hrun "r1") as [_ Hk].
    rewrite (Hk Damage), (Hk Head). split; vm_compute; reflexivity.
  - assert (Hcomputed : is_ok (for_each process_round
                                 (enumerate ValSample.eighteen_rounds)
                                 initial_preagg) = true)
      by (vm_compute; reflexivity).
    rewrite Hrun in Hcomputed. discriminate Hcomputed.
Defined.

End ValDamage.

Section ValRows.
Import Val.
Context `{PyRuntime}.

(** What one pass of the loop over the players does. *)
Lemma add_player_rows_inv sm vm h (st st' : rows_state) (player : raw_player) :
  add_player_rows sm vm h st player = Ok st' ->
  (pl_teamId player = "Neutral" /\ st' = st)
  \/ (pl_teamId player <> "Neutral"
      /\ exists (ref : option team_ref) (tm : team_meta) (agg : player_agg)
                (added : bool) (prow : row),
           team_side_refs h !! pl_teamId player = Some ref
           /\ metadata_team (this_game_metadata h) ref = Ok (Some tm)
           /\ is_Some (agents vm !! pl_characterId player)
           /\ is_Some (team_preaggregated_stats (stats h) !! pl_teamId player)
           /\ roundsPlayed (pl_stats player) <> 0
           /\ player_preaggregated_stats (stats h) !! pl_puuid player = Some agg
           /\ agg_headshots agg + agg_bodyshots agg + agg_legshots agg <> 0
           /\ team_rows_added_map st !! team_row_key (pl_teamId player) = Some added
           /\ player_count_found st' = player_count_found st + 1
           /\ (if added
               then cleaned_game_data st' = (cleaned_game_data st ++ [prow])%list
                    /\ team_rows_added_map st' = team_rows_added_map st
               else exists trow : row,
                    cleaned_game_data st' = (cleaned_game_data st ++ [prow; trow])%list
                    /\ team_rows_added_map st'
                       = <[team_row_key (pl_teamId player) := true]>
                           (team_rows_added_map st)
                    /\ r_player_name trow = EmptyString
                    /\ r_team_name trow = tmeta_name tm)
           /\ r_player_name prow = pl_gameName player
           /\ r_team_name prow = tmeta_name tm
           /\ r_first_kills prow = Num (first_kills agg)
           /\ r_first_deaths prow = Num (first_deaths agg)).
Proof.
  unfold add_player_rows.
  destruct (String.eqb_spec (pl_teamId player) "Neutral") as [E | E].
  - intros [= <-]. now left.
  - intros Hrun. right. split; [assumption|].
    apply bind_ok in Hrun as (ref & Href & Hrun).
    apply bind_ok in Hrun as (tm & Htm & Hrun).
    apply bind_ok in Hrun as (rw & Hrw & Hrun).
    apply bind_ok in Hrun as (tid & Htid & Hrun).
    apply bind_ok in Hrun as (tname & Htname & Hrun).
    apply bind_ok in Hrun as (agent & Hagent & Hrun).
    apply bind_ok in Hrun as (won & Hwon & Hrun).
    apply bind_ok in Hrun as (side & Hside & Hrun).
    apply bind_ok in Hrun as (acs & Hacs & Hrun).
    apply bind_ok in Hrun as (agg & Hagg & Hrun).
    apply bind_ok in Hrun as (dpr & Hdpr & Hrun).
    apply bind_ok in Hrun as (hsr & Hhsr & Hrun).
    apply bind_ok in Hrun as (added & Hadded & Hrun).
    unfold getitem in Href, Hagent, Hside, Hagg, Hadded.
    destruct (team_side_refs h !! pl_teamId player) as [ref'|]; [|discriminate].
    injection Href as ->.
    destruct (agents vm !! pl_characterId player) as [agent'|]; [|discriminate].
    destruct (team_preaggregated_stats (stats h) !! pl_teamId player) as [side'|];
      [|discriminate].
    destruct (player_preaggregated_stats (stats h) !! pl_puuid player) as [agg'|];
      [|discriminate].
    injection Hagg as ->.
    destruct (team_rows_added_map st !! team_row_key (pl_teamId player)) as [added'|];
      [|discriminate].
    injection Hadded as ->.
    destruct tm as [tm|]; [|discriminate].
    injection Htname as <-.
    apply truediv_ok_inv in Hacs as [Hrp _]. apply truediv_ok_inv in Hhsr as [Hshots _].
    destruct added; simpl in Hrun; injection Hrun as <-;
      eexists ref, tm, agg, _, _; simpl;
      do 9 (split; [first [reflexivity | assumption | eauto]|]).
    + split; [split; reflexivity|]. repeat (split; try reflexivity).
    + split.
      * eexists. split; [now rewrite <- app_assoc|]. repeat (split; try reflexivity).
      * repeat (split; try reflexivity).
Qed.

(** *** The number of rows *)

Lemma add_player_rows_accounted sm vm h (st : rows_state) (player : raw_player)
    (st' : rows_state) :
  rows_accounted st -> add_player_rows sm vm h st player = Ok st' ->
  rows_accounted st'.
Proof.
  intros [Hlen Hdom] Hstep.
  apply add_player_rows_inv in Hstep
    as [[_ ->] | (_ & ref & tm & agg & added & prow & _ & _ & _ & _ & _ & _ & _
                   & Hadded & Hcount & Hrows & _)]; [now split|].
  unfold rows_accounted. destruct added.
  - destruct Hrows as [Hc Hm]. rewrite Hc, Hm, Hcount, length_app. simpl.
    split; [lia | assumption].
  - destruct Hrows as (trow & Hc & Hm & _). rewrite Hc, Hm, Hcount, length_app. simpl.
    split.
    + unfold team_rows_written, flag_set in *.
      destruct (Hdom _ (ex_intro _ _ Hadded)) as [E | E]; rewrite E in *.
      * rewrite lookup_insert_eq, lookup_insert_ne by discriminate.
        rewrite Hadded in Hlen. lia.
      * rewrite lookup_insert_eq, lookup_insert_ne by discriminate.
        rewrite Hadded in Hlen. lia.
    + intros k Hk. apply lookup_insert_is_Some' in Hk as [<- | Hk]; [|auto].
      apply Hdom. eauto.
Qed.

Lemma initial_rows_accounted :
  rows_accounted {| cleaned_game_data := [];
                    team_rows_added_map := initial_team_rows_added_map;
                    player_count_found := 0 |}.
Proof.
  split; [reflexivity|]. simpl. unfold initial_team_rows_added_map. intros k Hk.
  apply lookup_insert_is_Some' in Hk as [<- | Hk]; [now right|].
  apply lookup_insert_is_Some' in Hk as [<- | Hk]; [now left|].
  rewrite lookup_empty in Hk. now destruct Hk.
Qed.

(** What a successful run consists of, with the state of the loop over
    the players. *)
Lemma val_game_factory_parts raw sm vm rows :
  game_factory raw sm vm = Ok rows ->
  exists h st,
    maps vm !! mapId (matchInfo raw) = Some {| displayName := h_map_name h |}
    /\ match_game_metadata (h_map_name h) (games sm) = Ok (this_game_metadata h)
    /\ resolve_team_side_refs (this_game_metadata h) (rg_teams raw)
       = Ok (team_side_refs h)
    /\ for_each process_round (enumerate (roundResults raw)) initial_preagg
       = Ok (stats h)
    /\ for_each (add_player_rows sm vm h) (players raw)
         {| cleaned_game_data := [];
            team_rows_added_map := initial_team_rows_added_map;
            player_count_found := 0 |} = Ok st
    /\ check_rows st = Ok tt
    /\ rows = sorted row_key_leb row_key (cleaned_game_data st).
Proof.
  unfold game_factory. intros Hrun.
  apply bind_ok in Hrun as (entry & Hentry & Hrun).
  apply bind_ok in Hrun as (seconds & _ & Hrun).
  apply bind_ok in Hrun as (start & _ & Hrun).
  apply bind_ok in Hrun as (version & _ & Hrun).
  apply bind_ok in Hrun as (gm & Hgm & Hrun).
  apply bind_ok in Hrun as (refs & Hrefs & Hrun).
  apply bind_ok in Hrun as (stats & Hstats & Hrun).
  apply bind_ok in Hrun as (st & Hst & Hrun).
  apply bind_ok in Hrun as ([] & Hcheck & Hrun).
  injection Hrun as <-.
  exists {| game_id := matchId (matchInfo raw); map_id := mapId (matchInfo raw);
            h_map_name := displayName entry; game_start := start;
            game_version_clean := version; this_game_metadata := gm;
            team_side_refs := refs; stats := stats |}, st.
  simpl. split; [|repeat split; assumption].
  unfold getitem in Hentry.
  destruct (maps vm !! mapId (matchInfo raw)) as [[name]|]; [|discriminate].
  now injection Hentry as <-.
Qed.

(** X9.  A flattened game gives one row for every player that is not on
    the Neutral side and two team rows: the number of rows is the number of
    such players plus two. *)
Theorem rows_are_players_plus_two_teams :
  forall raw sm vm rows,
    game_factory raw sm vm = Ok rows ->
    Z.of_nat (length rows) = non_neutral (players raw) + 2.
Proof.
  intros raw sm vm rows Hrun.
  apply val_game_factory_parts in Hrun
    as (h & st & _ & _ & _ & _ & Hloop & Hcheck & ->).
  rewrite sorted_length.
  pose proof (for_each_invariant rows_accounted (add_player_rows sm vm h)
                (players raw) (add_player_rows_accounted sm vm h)
                _ _ initial_rows_accounted Hloop) as [Hlen _].
  rewrite (players_loop_count _ _ _ _ _ _ Hloop) in Hlen. simpl in Hlen.
  apply check_rows_ok in Hcheck as (_ & HB & HR).
  unfold team_rows_written, flag_set in Hlen. rewrite HB, HR in Hlen. lia.
Qed.

End ValRows.

Lemma rows_are_players_plus_two_teams_witness :
  exists rows,
    Val.game_factory (H := ValSample.runtime) ValSample.game ValSample.series
      ValSample.reference = Ok rows
    /\ length rows = 12%nat.
Proof.
  eassert (Hrun : Val.game_factory (H := ValSample.runtime) ValSample.game
                    ValSample.series ValSample.reference = Ok _)
    by (vm_compute; reflexivity).
  eexists. split; [exact Hrun|].
  pose proof (rows_are_players_plus_two_teams (H := ValSample.runtime) _ _ _ _ Hrun) as Hn.
  change (non_neutral (Val.players ValSample.game)) with 10 in Hn. lia.
Defined.

(** ** The stable sort keeps the elements and orders them *)

Lemma sorted_insert_In {A K : Type} (leb : K -> K -> bool) (key : A -> K) x l y :
  In y (sorted_insert leb key x l) <-> y = x \/ In y l.
Proof.
  induction l as [|z l IH]; simpl; [intuition|].
  destruct (leb (key x) (key z)); simpl; [intuition|]. rewrite IH. intuition.
Qed.

Lemma sorted_In {A K : Type} (leb : K -> K -> bool) (key : A -> K) l y :
  In y (sorted leb key l) <-> In y l.
Proof.
  induction l as [|x l IH]; simpl; [reflexivity|].
  rewrite sorted_insert_In, IH. intuition.
Qed.

Lemma sorted_strongly {A K : Type} (leb : K -> K -> bool) (key : A -> K) :
  (forall a b, leb a b = false -> leb b a = true) ->
  (forall a b c, leb a b = true -> leb b c = true -> leb a c = true) ->
  forall l, StronglySorted (fun a b => leb (key a) (key b) = true) (sorted leb key l).
Proof.
  intros Htotal Htrans. induction l as [|x l IH]; simpl; [constructor|].
  induction IH as [|y l' Hsorted IHl Hall]; simpl; [repeat constructor|].
  destruct (leb (key x) (key y)) eqn:E.
  - constructor; [now constructor|]. constructor; [assumption|].
    rewrite List.Forall_forall in *. intros z Hz. exact (Htrans _ _ _ E (Hall z Hz)).
  - constructor; [assumption|]. rewrite List.Forall_forall in *.
    intros z Hz. apply sorted_insert_In in Hz as [-> | Hz]; [now apply Htotal | auto].
Qed.

Lemma strongly_sorted_lookup {A : Type} (R : A -> A -> Prop) (l : list A) :
  StronglySorted R l ->
  forall i j a b, (i < j)%nat -> l !! i = Some a -> l !! j = Some b -> R a b.
Proof.
  induction 1 as [|x l Hsorted IH Hall]; intros i j a b Hij Ha Hb; [destruct i; discriminate|].
  destruct j as [|j]; [lia|]. simpl in Hb. destruct i as [|i]; simpl in Ha.
  - injection Ha as <-. rewrite List.Forall_forall in Hall. apply Hall.
    apply list_elem_of_In, list_elem_of_lookup. eauto.
  - apply (IH i j); [lia | assumption | assumption].
Qed.

(** ** The order of the sort keys *)

Lemma string_compare_refl (s : string) : String.compare s s = Eq.
Proof.
  destruct (String.compare s s) eqn:E; [reflexivity | |];
    pose proof (String.compare_antisym s s) as Hanti; rewrite E in Hanti; discriminate.
Qed.

Lemma string_compare_lt_trans (a b c : string) :
  String.compare a b = Lt -> String.compare b c = Lt -> String.compare a c = Lt.
Proof. apply OrdersEx.String_as_OT.lt_strorder. Qed.

Lemma string_compare_gt_lt (a b : string) :
  String.compare a b = Gt -> String.compare b a = Lt.
Proof. intros E. rewrite String.compare_antisym, E. reflexivity. Qed.

Lemma string_leb_trans (a b c : string) :
  String.leb a b = true -> String.leb b c = true -> String.leb a c = true.
Proof.
  unfold String.leb.
  destruct (String.compare a b) eqn:Eab; try discriminate;
    destruct (String.compare b c) eqn:Ebc; try discriminate; intros _ _.
  - apply String.compare_eq_iff in Eab as ->. now rewrite Ebc.
  - apply String.compare_eq_iff in Eab as ->. now rewrite Ebc.
  - apply String.compare_eq_iff in Ebc as <-. now rewrite Eab.
  - now rewrite (string_compare_lt_trans _ _ _ Eab Ebc).
Qed.

Lemma string_leb_total (a b : string) : String.leb a b = false -> String.leb b a = true.
Proof.
  unfold String.leb. destruct (String.compare a b) eqn:E; try discriminate.
  intros _. now rewrite (string_compare_gt_lt _ _ E).
Qed.

Section RowOrder.
Import Val.
Context `{PyRuntime}.

Lemma row_key_leb_total (a b : bool * string * string) :
  row_key_leb a b = false -> row_key_leb b a = true.
Proof.
  destruct a as [[a1 a2] a3], b as [[b1 b2] b3]. unfold row_key_leb.
  destruct a1, b1; simpl; try discriminate; try reflexivity;
    (destruct (String.compare a2 b2) eqn:E; try discriminate;
     [ apply String.compare_eq_iff in E as ->; rewrite string_compare_refl;
       apply string_leb_total
     | intros _; now rewrite (string_compare_gt_lt _ _ E) ]).
Qed.

Lemma row_key_leb_trans (a b c : bool * string * string) :
  row_key_leb a b = true -> row_key_leb b c = true -> row_key_leb a c = true.
Proof.
  destruct a as [[a1 a2] a3], b as [[b1 b2] b3], c as [[c1 c2] c3]. unfold row_key_leb.
  destruct a1, b1, c1; simpl; try discriminate; try reflexivity;
    (destruct (String.compare a2 b2) eqn:Eab; try discriminate;
     destruct (String.compare b2 c2) eqn:Ebc; try discriminate;
     [ apply String.compare_eq_iff in Eab as ->; rewrite Ebc; apply string_leb_trans
     | apply String.compare_eq_iff in Eab as ->; now rewrite Ebc
     | apply String.compare_eq_iff in Ebc as <-; now rewrite Eab
     | now rewrite (string_compare_lt_trans _ _ _ Eab Ebc) ]).
Qed.

Lemma row_key_leb_order (a b : row) :
  row_key_leb (row_key a) (row_key b) = true -> in_key_order a b.
Proof.
  unfold row_key, row_key_leb, in_key_order.
  destruct (String.eqb_spec (r_player_name a) EmptyString) as [Ea | Ea];
    destruct (String.eqb_spec (r_player_name b) EmptyString) as [Eb | Eb]; simpl.
  - rewrite Ea, Eb. simpl. intros Hle. right. split; [tauto|]. right. now split.
  - discriminate.
  - intros _. left. now split.
  - intros Hle. right. split; [tauto|].
    destruct (String.compare (r_player_name a) (r_player_name b)) eqn:E;
      [|now left | discriminate].
    right. split; [now apply String.compare_eq_iff | exact Hle].
Qed.

(** X10.  The rows of a flattened game are in the order of the sort key
    [(player_name == '', player_name, team_name)]: a row with a player
    name comes before every row without one (the team rows, and the row
    of a player whose name is empty); rows that both have a name, or both
    have none, are in the order of their player names and, for equal
    player names, of their team names. *)
Theorem rows_are_in_key_order :
  forall raw sm vm rows,
    game_factory raw sm vm = Ok rows ->
    forall i j a b,
      (i < j)%nat -> rows !! i = Some a -> rows !! j = Some b ->
      in_key_order a b.
Proof.
  intros raw sm vm rows Hrun i j a b Hij Ha Hb.
  apply val_game_factory_parts in Hrun as (h & st & _ & _ & _ & _ & _ & _ & ->).
  apply row_key_leb_order.
  exact (strongly_sorted_lookup _ _
           (sorted_strongly row_key_leb row_key row_key_leb_total row_key_leb_trans
              (cleaned_game_data st))
           i j a b Hij Ha Hb).
Qed.

End RowOrder.

Lemma rows_are_in_key_order_witness :
  exists rows a b,
    Val.game_factory (H := ValSample.runtime) ValSample.game ValSample.series
      ValSample.reference = Ok rows
    /\ rows !! 9%nat = Some a /\ rows !! 10%nat = Some b
    /\ in_key_order (H := ValSample.runtime) a b.
Proof.
  eassert (Hrun : Val.game_factory (H := ValSample.runtime) ValSample.game
                    ValSample.series ValSample.reference = Ok _)
    by (vm_compute; reflexivity).
  eexists _, _, _. split; [exact Hrun|]. split; [reflexivity|]. split; [reflexivity|].
  apply (rows_are_in_key_order (H := ValSample.runtime) _ _ _ _ Hrun 9%nat 10%nat);
    [lia | reflexivity | reflexivity].
Defined.

Lemma bind_of_ok {A B : Type} (a : A) (k : A -> result B) : Ok a ≫= k = k a.
Proof. reflexivity. Qed.

Section ValPlayers.
Import Val.
Context `{PyRuntime}.

Lemma incr_side_keys (side : string) (c : side_counter)
    (stats stats' : gmap string side_agg) :
  incr_side side c stats = Ok stats' -> only_sides stats -> only_sides stats'.
Proof.
  unfold incr_side, getitem. destruct (stats !! side) as [t|] eqn:Ht; [|discriminate].
  simpl. intros [= <-] Hdom k Hk.
  apply lookup_insert_is_Some' in Hk as [<- | Hk]; apply Hdom; eauto.
Qed.

Lemma count_round_sides_keys (n : Z) (rd : round_result)
    (stats stats' : gmap string side_agg) :
  count_round_sides n rd stats = Ok stats' -> only_sides stats -> only_sides stats'.
Proof.
  unfold count_round_sides. intros Hrun Hdom.
  destruct (String.eqb (attackers n) "Blue");
    [|destruct (String.eqb (attackers n) "Red"); [|now injection Hrun as <-]];
    destruct (String.eqb (winningTeam rd) _);
    apply bind_ok in Hrun as (s1 & H1 & H2);
    exact (incr_side_keys _ _ _ _ H2 (incr_side_keys _ _ _ _ H1 Hdom)).
Qed.

Lemma rounds_loop_only_sides (rounds : list round_result) (st : preagg) :
  for_each process_round (enumerate rounds) initial_preagg = Ok st ->
  only_sides (team_preaggregated_stats st).
Proof.
  apply (for_each_invariant (fun s => only_sides (team_preaggregated_stats s))).
  - intros s [idx rd] s' Hs Hstep. unfold process_round in Hstep.
    apply bind_ok in Hstep as (t1 & Ht1 & Hstep).
    apply bind_ok in Hstep as (p1 & _ & Hstep). injection Hstep as <-.
    exact (count_round_sides_keys _ _ _ _ Ht1 Hs).
  - intros k Hk. simpl in Hk. unfold initial_team_preaggregated_stats in Hk.
    apply lookup_insert_is_Some' in Hk as [<- | Hk]; [now right|].
    apply lookup_insert_is_Some' in Hk as [<- | Hk]; [now left|].
    rewrite lookup_empty in Hk. now destruct Hk.
Qed.

(** X11.  A game is flattened only if every player off the Neutral side
    is on side Blue or Red, has an agent in the reference table, has
    played a non-zero number of rounds, is listed in some round, and has
    at least one head, body or leg shot over the whole game: otherwise the
    row of that player raises and the game gives no rows. *)
Theorem flattened_game_players :
  forall raw sm vm rows,
    game_factory raw sm vm = Ok rows ->
    forall player, In player (players raw) ->
      pl_teamId player <> "Neutral" ->
      (pl_teamId player = "Blue" \/ pl_teamId player = "Red")
      /\ is_Some (agents vm !! pl_characterId player)
      /\ roundsPlayed (pl_stats player) <> 0
      /\ plays_in (pl_puuid player) (roundResults raw)
      /\ game_hits Head (pl_puuid player) (roundResults raw)
         + game_hits Body (pl_puuid player) (roundResults raw)
         + game_hits Leg (pl_puuid player) (roundResults raw) <> 0.
Proof.
  intros raw sm vm rows Hrun player Hin Hside.
  apply val_game_factory_parts in Hrun
    as (h & st & _ & _ & _ & Hrounds & Hloop & _ & _).
  destruct (for_each_ok_each _ _ _ _ Hloop player Hin) as (s1 & s2 & Hstep).
  apply add_player_rows_inv in Hstep
    as [[E _] | (_ & ref & tm & agg & added & prow & _ & _ & Hagent & Hteam & Hrp
                 & Hagg & Hshots & _)]; [contradiction|].
  pose proof (rounds_loop_only_sides _ _ Hrounds) as Hdom.
  assert (Hplays : is_Some (player_preaggregated_stats (stats h) !! pl_puuid player)
                   -> plays_in (pl_puuid player) (roundResults raw)).
  { destruct (rounds_loop_fields _ _ _ _ Hrounds) as [_ Hk].
    intros Hsome. apply Hk in Hsome as [[x Hx] | Hp]; [|exact Hp].
    simpl in Hx. rewrite lookup_empty in Hx. discriminate. }
  assert (Hfields : forall k,
             agg_field k (player_preaggregated_stats (stats h)) (pl_puuid player)
             = game_hits k (pl_puuid player) (roundResults raw)).
  { destruct (rounds_loop_fields _ _ _ _ Hrounds) as [Hf _].
    intros k. rewrite Hf. unfold agg_field. simpl. rewrite lookup_empty. lia. }
  split; [exact (Hdom _ Hteam)|]. split; [assumption|]. split; [assumption|].
  split; [apply Hplays; eauto|].
  rewrite <- !Hfields. unfold agg_field. rewrite Hagg. exact Hshots.
Qed.

(** *** The steps before the rounds *)

Lemma match_game_metadata_first (name : string) (gs : list game_metadata) :
  (forall gm,
      match_game_metadata name gs = Ok gm <->
      exists pre post,
        gs = (pre ++ gm :: post)%list
        /\ map_name gm = name
        /\ forall g, In g pre -> map_name g <> name)
  /\ (match_game_metadata name gs = Err ValueError <->
      forall g, In g gs -> map_name g <> name).
Proof.
  induction gs as [|g gs [IHok IHerr]]; simpl.
  - split.
    + intros gm. split; [discriminate|]. intros (pre & post & E & _). now destruct pre.
    + split; [intros _ g []| reflexivity].
  - destruct (String.eqb_spec (map_name g) name) as [E | E].
    + split.
      * intros gm. split.
        -- intros [= <-]. exists [], gs. repeat split; [assumption | intros ? []].
        -- intros (pre & post & Heq & Hname & Hpre).
           destruct pre as [|g0 pre]; simpl in Heq; injection Heq as Eg Egs;
             [now rewrite Eg|].
           destruct (Hpre g0 (or_introl eq_refl)). now rewrite <- Eg.
      * split; [discriminate|]. intros Hall. destruct (Hall g (or_introl eq_refl) E).
    + split.
      * intros gm. rewrite IHok. split.
        -- intros (pre & post & -> & Hname & Hpre). exists (g :: pre), post.
           repeat split; [assumption|]. intros g0 [<- | Hin]; auto.
        -- intros (pre & post & Heq & Hname & Hpre).
           destruct pre as [|g0 pre]; simpl in Heq; injection Heq as Eg Egs;
             [congruence|].
           exists pre, post. repeat split; [assumption..|]. intros; apply Hpre; now right.
      * rewrite IHerr. split; [intros Hall g0 [<- | Hin]; auto | intros Hall g0 Hin; apply Hall; now right].
Qed.

(** *** The metadata factory *)

(** X13.  The metadata factory raises [ValueError] for a game that has
    not started or not finished.  For a game that has, it returns the
    capitalised map name and the sequence number, with the first end-state
    team as [team_one] and the second as [team_two]; a team that is not
    listed stays an empty dict; a third team raises [IndexError]. *)
Theorem game_metadata_factory_spec :
  forall g : grid_game,
    (started g = false -> game_metadata_factory g = Err ValueError)
    /\ (finished g = false -> game_metadata_factory g = Err ValueError)
    /\ (started g = true -> finished g = true ->
        game_metadata_factory g
        = match gg_teams g with
          | [] =>
              Ok {| map_name := capitalize (gg_map_name g);
                    game_number := sequenceNumber g;
                    team_one := None; team_two := None |}
          | [t1] =>
              Ok {| map_name := capitalize (gg_map_name g);
                    game_number := sequenceNumber g;
                    team_one := Some (team_meta_of t1); team_two := None |}
          | [t1; t2] =>
              Ok {| map_name := capitalize (gg_map_name g);
                    game_number := sequenceNumber g;
                    team_one := Some (team_meta_of t1);
                    team_two := Some (team_meta_of t2) |}
          | _ => Err IndexError
          end).
Proof.
  intros g. unfold game_metadata_factory. split; [|split].
  - now intros ->.
  - intros ->. now destruct (started g).
  - intros -> ->. simpl. now destruct (gg_teams g) as [|t1 [|t2 [|t3 ts]]].
Qed.

End ValPlayers.

Lemma flattened_game_players_witness :
  plays_in "b3" (Val.roundResults ValSample.game)
  /\ Val.roundsPlayed (Val.pl_stats (ValSample.on_side "b3" "Blue")) <> 0.
Proof.
  eassert (Hrun : Val.game_factory (H := ValSample.runtime) ValSample.game
                    ValSample.series ValSample.reference = Ok _)
    by (vm_compute; reflexivity).
  destruct (flattened_game_players (H := ValSample.runtime) _ _ _ _ Hrun
              (ValSample.on_side "b3" "Blue"))
    as (_ & _ & Hrp & Hplays & _).
  - simpl. do 8 right. now left.
  - discriminate.
  - now split.
Defined.

Lemma game_metadata_factory_spec_witness :
  Val.game_metadata_factory (H := ValSample.runtime)
    {| Val.started := true; Val.finished := false; Val.gg_map_name := "ascent";
       Val.sequenceNumber := 1; Val.gg_teams := [] |}
  = Err ValueError
  /\ Val.game_metadata_factory (H := ValSample.runtime) ValSample.three_team_game
     = Err IndexError.
Proof.
  split.
  - apply (proj1 (proj2 (game_metadata_factory_spec (H := ValSample.runtime) _))).
    reflexivity.
  - exact (proj2 (proj2 (game_metadata_factory_spec (H := ValSample.runtime)
                           ValSample.three_team_game)) eq_refl eq_refl).
Defined.

(** ** Slices of strings *)

Lemma str_length_app (a b : string) :
  String.length (a ++ b) = (String.length a + String.length b)%nat.
Proof. induction a as [|x a IH]; simpl; [reflexivity | now rewrite IH]. Qed.

Lemma drop_app_plus (a b : string) (n : nat) :
  PyStr.drop (String.length a + n) (a ++ b) = PyStr.drop n b.
Proof. induction a as [|x a IH]; simpl; [reflexivity | exact IH]. Qed.

Lemma take_app_exact (a b : string) : PyStr.take (String.length a) (a ++ b) = a.
Proof. induction a as [|x a IH]; simpl; [now destruct b | now rewrite IH]. Qed.

Lemma find_none (c : ascii) (s : string) : no_char c s -> PyStr.find c s = -1.
Proof.
  unfold no_char. induction s as [|a s IH]; simpl; [reflexivity|].
  intros Hno. apply orb_false_iff in Hno as [Ha Hs]. now rewrite Ha, (IH Hs).
Qed.

Lemma no_char_drop (c : ascii) (s : string) (n : nat) :
  no_char c s -> no_char c (PyStr.drop n s).
Proof.
  unfold no_char. revert n. induction s as [|a s IH]; intros [|n]; simpl; auto.
  intros Hno. apply orb_false_iff in Hno as [_ Hs]. now apply IH.
Qed.

Section ValVersion.
Import Val.
Context `{PyRuntime}.

(** X14.  The text handed to [float] is the second dash-separated part
    of the game version when the version has a second dash after it; its
    first character is taken whatever it is, since the search for the
    second dash starts one position later.  A version with one dash gives
    the part after the dash without its last character, and a version
    without a dash gives the whole version without its last character.
    When [float] rejects the text, so does the flattener. *)
Theorem version_text_spec :
  (forall (p : string) (c : ascii) (v rest : string),
      no_char dash p -> no_char dash v ->
      version_text (p ++ String dash (String c (v ++ String dash rest)))
      = String c v)
  /\ (forall p v : string,
        no_char dash p -> no_char dash v ->
        version_text (p ++ String dash v)
        = PyStr.take (String.length v - 1) v)
  /\ (forall s : string,
        no_char dash s ->
        version_text s = PyStr.take (String.length s - 1) s)
  /\ (forall raw sm vm entry e,
        maps vm !! mapId (matchInfo raw) = Some entry ->
        is_ok (fromtimestamp
                 (Qred (inject_Z (gameStartMillis (matchInfo raw)) / inject_Z 1000)))
        = true ->
        float_of_str (version_text (gameVersion (matchInfo raw))) = Err e ->
        game_factory raw sm vm = Err e).
Proof.
  split; [|split; [|split]].
  - intros p c v rest Hp Hv. unfold version_text. fold dash.
    set (gv := p ++ String dash (String c (v ++ String dash rest))).
    assert (Hlen : String.length gv
                   = (String.length p + (String.length v + 3 + String.length rest))%nat).
    { unfold gv. rewrite str_length_app. simpl. rewrite str_length_app. simpl. lia. }
    assert (Hfind : PyStr.find dash gv = Z.of_nat (String.length p))
      by (apply find_prefix; assumption).
    rewrite Hfind.
    assert (Hend : PyStr.find_from dash (Z.of_nat (String.length p) + 1 + 1) gv
                   = Z.of_nat (String.length p + 2 + String.length v)).
    { unfold PyStr.find_from, PyStr.clip.
      destruct (_ <? 0) eqn:E; [apply Z.ltb_lt in E; lia|].
      rewrite Z.min_l by lia.
      replace (Z.to_nat (Z.of_nat (String.length p) + 1 + 1))
        with (String.length p + 2)%nat by lia.
      unfold gv. rewrite drop_app_plus. simpl PyStr.drop.
      rewrite (find_prefix _ _ _ Hv).
      destruct (_ =? -1) eqn:E1; [apply Z.eqb_eq in E1; lia | lia]. }
    rewrite Hend. unfold PyStr.slice, PyStr.clip.
    destruct (Z.of_nat (String.length p) + 1 <? 0) eqn:E1; [apply Z.ltb_lt in E1; lia|].
    destruct (Z.of_nat (String.length p + 2 + String.length v) <? 0) eqn:E2;
      [apply Z.ltb_lt in E2; lia|].
    rewrite !Z.min_l by lia.
    replace (Z.to_nat (Z.of_nat (String.length p) + 1))
      with (String.length p + 1)%nat by lia.
    replace (Z.to_nat (Z.of_nat (String.length p + 2 + String.length v)
                       - (Z.of_nat (String.length p) + 1)))
      with (S (String.length v)) by lia.
    unfold gv. rewrite drop_app_plus. simpl. now rewrite take_app_exact.
  - intros p v Hp Hv. unfold version_text. fold dash.
    set (gv := p ++ String dash v).
    assert (Hlen : String.length gv = (String.length p + S (String.length v))%nat)
      by (unfold gv; now rewrite str_length_app).
    assert (Hfind : PyStr.find dash gv = Z.of_nat (String.length p))
      by (apply find_prefix; assumption).
    rewrite Hfind.
    assert (Hend : PyStr.find_from dash (Z.of_nat (String.length p) + 1 + 1) gv = -1).
    { unfold PyStr.find_from, PyStr.clip.
      destruct (_ <? 0) eqn:E; [apply Z.ltb_lt in E; lia|].
      replace (Z.to_nat (Z.min (Z.of_nat (String.length p) + 1 + 1)
                           (Z.of_nat (String.length gv))))
        with (String.length p + Nat.min 2 (S (String.length v)))%nat by lia.
      unfold gv. rewrite drop_app_plus.
      change (Nat.min 2 (S (String.length v))) with (S (Nat.min 1 (String.length v))).
      simpl PyStr.drop. rewrite find_none; [reflexivity|]. now apply no_char_drop. }
    rewrite Hend. unfold PyStr.slice, PyStr.clip.
    destruct (Z.of_nat (String.length p) + 1 <? 0) eqn:E1; [apply Z.ltb_lt in E1; lia|].
    change (-1 <? 0) with true. cbv iota.
    rewrite Z.min_l by lia.
    replace (Z.to_nat (Z.of_nat (String.length p) + 1))
      with (String.length p + 1)%nat by lia.
    replace (Z.to_nat (Z.max 0 (-1 + Z.of_nat (String.length gv))
                       - (Z.of_nat (String.length p) + 1)))
      with (String.length v - 1)%nat by lia.
    unfold gv. now rewrite drop_app_plus.
  - intros s Hs. unfold version_text. fold dash.
    rewrite (find_none _ _ Hs).
    change (-1 + 1 + 1) with 1. change (-1 + 1) with 0.
    assert (Hend : PyStr.find_from dash 1 s = -1).
    { unfold PyStr.find_from. rewrite find_none; [reflexivity|]. now apply no_char_drop. }
    rewrite Hend. unfold PyStr.slice, PyStr.clip.
    change (0 <? 0) with false. change (-1 <? 0) with true. cbv iota.
    rewrite Z.min_l by lia. simpl (Z.to_nat 0). simpl PyStr.drop.
    f_equal. lia.
  - intros raw sm vm entry e Hentry Hdate Hversion. unfold game_factory, getitem.
    rewrite Hentry, bind_of_ok, truediv_nonzero, bind_of_ok by lia.
    destruct (fromtimestamp _) as [d|e']; [|discriminate]. rewrite bind_of_ok.
    unfold version_text in Hversion. cbv zeta in *. now rewrite Hversion.
Qed.

End ValVersion.

Lemma version_text_spec_witness :
  version_text "release-08.03-shipping-5-2319959" = "08.03"
  /\ version_text "release-08.03" = "08.0"
  /\ version_text "8.03" = "8.0"
  /\ version_text "release-v8.03-shipping" = "v8.03"
  /\ Val.game_factory (H := ValSample.runtime) ValVersionSample.unnumbered_game
       ValSample.series ValSample.reference = Err ValueError.
Proof.
  destruct (version_text_spec (H := ValSample.runtime)) as (H2 & H1 & H0 & Hf).
  split; [|split; [|split; [|split]]].
  - exact (H2 "release" "0"%char "8.03" "shipping-5-2319959" eq_refl eq_refl).
  - exact (H1 "release" "08.03" eq_refl eq_refl).
  - exact (H0 "8.03" eq_refl).
  - exact (H2 "release" "v"%char "8.03" "shipping" eq_refl eq_refl).
  - apply (Hf ValVersionSample.unnumbered_game ValSample.series ValSample.reference
              {| Val.displayName := "Ascent" |} ValueError);
      vm_compute; reflexivity.
Defined.

(** ** The retry loop of the HTTP client *)

Section HttpGet.
Import Http.

Variable network : nat -> reply.

Lemma seq_step (k m : nat) : (k < m)%nat -> seq k (m - k) = k :: seq (S k) (m - S k).
Proof. intros Hlt. replace (m - k)%nat with (S (m - S k)) by lia. reflexivity. Qed.

(** A retryable reply hands the run over to the next try. *)
Lemma run_from_continue (k n : nat) (sl : list Z) (r : run) :
  retryable (network k) = true ->
  run_from network (S k) n (sl ++ pause (network k))%list r ->
  run_from network k (S n) sl r.
Proof.
  intros Hr (Hb & Hpre & Hsl & Hexc & Hlast & Hcontent & Hstatus).
  unfold run_from. replace (k + S n)%nat with (S k + n)%nat by lia.
  split; [lia|]. split.
  { intros j Hj. destruct (Nat.eq_dec j k) as [->|Hne]; [exact Hr|].
    apply Hpre. lia. }
  split.
  { rewrite Hsl, (seq_step k) by lia. simpl. now rewrite <- app_assoc. }
  split; [exact Hexc|]. split; [exact Hlast|]. split; [exact Hcontent | exact Hstatus].
Qed.

(** A reply that is not retryable ends the run at this try. *)
Lemma run_from_stop (k n : nat) (sl : list Z) (o : outcome) :
  retryable (network k) = false ->
  o <> Raise Exception ->
  (forall c, o = Return_content c <-> exists ra, network k = Response 200 ra c) ->
  (forall code,
      o = Return_status code
      <-> (code = 401 \/ code = 403 \/ code = 404)
          /\ exists ra c, network k = Response code ra c) ->
  run_from network k (S n) sl {| outcome_of := o; try_count := k; slept := sl |}.
Proof.
  intros Hr Ho Hcontent Hstatus. unfold run_from. simpl.
  rewrite Nat.sub_diag. simpl. rewrite app_nil_r.
  split; [lia|]. split; [intros j Hj; lia|]. split; [reflexivity|].
  split; [split; [contradiction | lia]|]. split; [intros _; exact Hr|].
  split.
  - intros c. rewrite Hcontent. split; [intros Hx; split; [lia | exact Hx] | now intros [_ Hx]].
  - intros code. rewrite Hstatus.
    split; [intros Hx; split; [lia | exact Hx] | now intros [_ Hx]].
Qed.

Lemma get_loop_spec (n : nat) :
  forall (k : nat) (sl : list Z), run_from network k n sl (get_loop n k network sl).
Proof.
  induction n as [|n IH]; intros k sl.
  - unfold run_from. simpl. rewrite Nat.sub_diag, Nat.add_0_r. simpl. rewrite app_nil_r.
    split; [lia|]. split; [intros j Hj; lia|]. split; [reflexivity|].
    split; [tauto|]. split; [lia|].
    split; intros x; (split; [discriminate | intros [Hlt _]; lia]).
  - simpl get_loop. destruct (network k) as [| |code ra content] eqn:Hnet.
    + apply run_from_continue; [now rewrite Hnet|].
      rewrite Hnet. simpl. rewrite app_nil_r. apply IH.
    + apply run_from_stop; [now rewrite Hnet | discriminate | |].
      * intros c. split; [discriminate | intros [ra' Hx]; rewrite Hnet in Hx; discriminate].
      * intros c. split; [discriminate|].
        intros (_ & ra' & c' & Hx). rewrite Hnet in Hx. discriminate.
    + destruct (code =? 200) eqn:E200.
      { apply Z.eqb_eq in E200. subst code.
        apply run_from_stop; [now rewrite Hnet | discriminate | |].
        - intros c. rewrite Hnet. split.
          + intros Hx. injection Hx as ->. now exists ra.
          + intros [ra' Hx]. now injection Hx as _ ->.
        - intros c. rewrite Hnet. split; [discriminate|].
          intros (Hc & ra' & c' & Hx). injection Hx as Hx _ _. lia. }
      destruct (code =? 429) eqn:E429.
      { apply Z.eqb_eq in E429. subst code. destruct ra as [seconds|].
        - apply run_from_continue; [now rewrite Hnet|]. rewrite Hnet. apply IH.
        - apply run_from_stop; [now rewrite Hnet | discriminate | |].
          + intros c. rewrite Hnet.
            split; [discriminate | intros [ra' Hx]; discriminate].
          + intros c. rewrite Hnet. split; [discriminate|].
            intros (Hc & ra' & c' & Hx). injection Hx as Hx _ _. lia. }
      assert (Hret : (code = 401 \/ code = 403 \/ code = 404) ->
                run_from network k (S n) sl
                  {| outcome_of := Return_status code; try_count := k; slept := sl |}).
      { intros Hc. apply run_from_stop.
        - rewrite Hnet. simpl. rewrite E429. destruct Hc as [-> | [-> | ->]]; reflexivity.
        - discriminate.
        - intros c. rewrite Hnet. split; [discriminate|].
          intros [ra' Hx]. injection Hx as Hx _ _. subst code. discriminate.
        - intros c. rewrite Hnet. split.
          + intros Hx. injection Hx as <-. split; [exact Hc|]. now exists ra, content.
          + intros (_ & ra' & c' & Hx). now injection Hx as -> _ _. }
      destruct (code =? 401) eqn:E401; [apply Hret; apply Z.eqb_eq in E401; lia|].
      destruct (code =? 403) eqn:E403; [apply Hret; apply Z.eqb_eq in E403; lia|].
      destruct (code =? 404) eqn:E404; [apply Hret; apply Z.eqb_eq in E404; lia|].
      apply run_from_continue.
      * rewrite Hnet. simpl. now rewrite E429, E200, E401, E403, E404.
      * rewrite Hnet. simpl. rewrite E429. apply IH.
Qed.

(** Replies that are never asked for do not matter. *)
Lemma get_loop_later_replies (other : nat -> reply) (n : nat) :
  forall (k : nat) (sl : list Z),
    (forall j, (k <= j <= try_count (get_loop n k network sl))%nat -> (j < k + n)%nat ->
               other j = network j) ->
    get_loop n k other sl = get_loop n k network sl.
Proof.
  induction n as [|n IH]; intros k sl Hsame; [reflexivity|].
  pose proof (get_loop_spec (S n) k sl) as [Hb _].
  simpl in *. rewrite (Hsame k) by lia.
  destruct (network k) as [| |code ra content] eqn:Hnet; try reflexivity.
  - apply IH. intros j Hj Hlt. apply Hsame; lia.
  - destruct (code =? 200); [reflexivity|].
    destruct (code =? 429).
    { destruct ra; [|reflexivity]. apply IH. intros j Hj Hlt. apply Hsame; lia. }
    destruct (code =? 401); [reflexivity|].
    destruct (code =? 403); [reflexivity|].
    destruct (code =? 404); [reflexivity|].
    apply IH. intros j Hj Hlt. apply Hsame; lia.
Qed.

(** X15.  [get] sends at most five requests.  Every reply before the one
    it stops at was retryable, and it slept after each of those: the
    Retry-After seconds after a 429, one second after another status,
    nothing after a timeout.  It raises the retry-limit exception exactly
    when all five replies were retryable; it returns the body of the first
    reply that is not retryable when that is a 200, and its status code
    when that is a 401, 403 or 404.  Replies after the one it stops at
    make no difference. *)
Theorem get_retries_at_most_five_times :
  (requests_sent (get network) <= 5)%nat
  /\ (forall j, (j < try_count (get network))%nat -> retryable (network j) = true)
  /\ slept (get network)
     = flat_map pause (first_replies network (try_count (get network)))
  /\ (outcome_of (get network) = Raise Exception
      <-> forall j, (j < 5)%nat -> retryable (network j) = true)
  /\ (forall content,
        outcome_of (get network) = Return_content content
        <-> exists k ra,
              (k < 5)%nat
              /\ (forall j, (j < k)%nat -> retryable (network j) = true)
              /\ network k = Response 200 ra content)
  /\ (forall code,
        outcome_of (get network) = Return_status code
        <-> exists k ra content,
              (k < 5)%nat
              /\ (forall j, (j < k)%nat -> retryable (network j) = true)
              /\ (code = 401 \/ code = 403 \/ code = 404)
              /\ network k = Response code ra content)
  /\ (forall other : nat -> reply,
        (forall j, (j < requests_sent (get network))%nat -> other j = network j) ->
        get other = get network).
Proof.
  destruct (get_loop_spec 5 0 []) as (Hb & Hpre & Hsl & Hexc & Hlast & Hcontent & Hstatus).
  fold (get network) in *.
  assert (Hfirst : forall k,
             (k < 5)%nat ->
             (forall j, (j < k)%nat -> retryable (network j) = true) ->
             retryable (network k) = false ->
             try_count (get network) = k).
  { intros k Hk Hbefore Hk'.
    destruct (Nat.lt_trichotomy (try_count (get network)) k) as [Hlt | [E | Hgt]].
    - rewrite Hbefore in Hlast by exact Hlt. specialize (Hlast ltac:(lia)). discriminate.
    - exact E.
    - rewrite Hpre in Hk' by lia. discriminate. }
  split.
  { unfold requests_sent. destruct (outcome_of (get network)) as [c|c|[| |]] eqn:Ho;
      try lia.
    - destruct (proj1 (Hcontent c) eq_refl) as [Hlt _]. lia.
    - destruct (proj1 (Hstatus c) eq_refl) as [Hlt _]. lia.
    - assert (try_count (get network) <> 5)%nat by (intros E; apply Hexc in E; discriminate).
      lia.
    - assert (try_count (get network) <> 5)%nat by (intros E; apply Hexc in E; discriminate).
      lia. }
  split; [intros j Hj; apply Hpre; lia|].
  split; [now rewrite Hsl, Nat.sub_0_r|].
  split.
  { rewrite Hexc. split.
    - intros E j Hj. apply Hpre. lia.
    - intros Hall.
      destruct (Nat.eq_dec (try_count (get network)) 5%nat) as [E|Hne]; [exact E|].
      rewrite Hall in Hlast by lia. specialize (Hlast ltac:(lia)). discriminate. }
  split.
  { intros c. rewrite Hcontent. split.
    - intros (Hlt & ra & Hx). exists (try_count (get network)), ra.
      split; [lia|]. split; [|exact Hx]. intros j Hj. apply Hpre. lia.
    - intros (k & ra & Hk & Hbefore & Hx).
      rewrite (Hfirst k Hk Hbefore) by now rewrite Hx.
      split; [lia | now exists ra]. }
  split.
  { intros code. rewrite Hstatus. split.
    - intros (Hlt & Hc & ra & c & Hx). exists (try_count (get network)), ra, c.
      split; [lia|]. split; [|split; [exact Hc | exact Hx]]. intros j Hj. apply Hpre. lia.
    - intros (k & ra & c & Hk & Hbefore & Hc & Hx).
      rewrite (Hfirst k Hk Hbefore).
      + split; [lia|]. split; [exact Hc|]. now exists ra, c.
      + rewrite Hx. simpl. destruct Hc as [-> | [-> | ->]]; reflexivity. }
  intros other Hsame. apply get_loop_later_replies.
  intros j Hj Hlt. apply Hsame. unfold requests_sent.
  change (get_loop 5 0 network []) with (get network) in Hj.
  destruct (outcome_of (get network)) as [c|c|[| |]] eqn:Ho; try lia.
  assert (try_count (get network) = 5)%nat by (now apply Hexc). lia.
Qed.

End HttpGet.

Lemma get_retries_at_most_five_times_witness :
  Http.outcome_of (Http.get HttpSample.busy_network) = Http.Return_content "zip"
  /\ Http.slept (Http.get HttpSample.busy_network) = [2; 1]
  /\ (requests_sent (Http.get HttpSample.busy_network) <= 5)%nat.
Proof.
  destruct (get_retries_at_most_five_times HttpSample.busy_network)
    as (Hsent & _ & Hslept & _ & Hcontent & _).
  split; [|split].
  - apply Hcontent. exists 3%nat, None. split; [lia|]. split; [|reflexivity].
    intros [|[|[|j]]] Hj; try reflexivity. lia.
  - rewrite Hslept. reflexivity.
  - exact Hsent.
Defined.

(** ** The columns of the League of Legends CSV file *)

Section LolColumns.
Import Lol LolCsv.

(** X16.  Every line of the CSV file has one cell per name of
    [FIELD_LIST].  A player row fills the first 29 columns with its values
    in order and leaves the ten objective columns empty.  A team row
    stores its duration, kills and deaths under the keys [gameDuration],
    [teamKills] and [teamDeaths], which no column reads: the columns
    [game_duration], [team_kills] and [team_deaths] are among the
    seventeen that a team row leaves empty. *)
Theorem csv_columns_of_rows :
  (forall r : row, length (csv_line r) = 39%nat)
  /\ (forall d : player_dto,
        unread_keys (PlayerRow d) = []
        /\ csv_line (PlayerRow d)
           = (map snd (player_items d) ++ repeat VNone 10)%list)
  /\ (forall d : team_dto,
        unread_keys (TeamRow d) = ["gameDuration"; "teamKills"; "teamDeaths"]
        /\ unfed_columns (TeamRow d)
           = [ "summoner_name"; "auto_detect_role"; "champion"; "game_duration";
               "kills"; "deaths"; "assists"; "kda"; "kill_participation";
               "team_kills"; "team_deaths"; "firstBloodAssist";
               "firstBloodVictim"; "damagePerMinute"; "damageShare";
               "creepScore"; "goldEarned" ]
        /\ map (fun field => get field (team_items d)) (unfed_columns (TeamRow d))
           = repeat VNone 17
        /\ get "gameDuration" (team_items d) = VInt (td_gameDuration d)
        /\ get "teamKills" (team_items d) = VInt (td_teamKills d)
        /\ get "teamDeaths" (team_items d) = VInt (td_teamDeaths d)).
Proof.
  split; [|split].
  - intros r. unfold csv_line. now rewrite length_map.
  - intros d. split; reflexivity.
  - intros d. repeat split; reflexivity.
Qed.

End LolColumns.

(** ** The series loop of the Valorant script *)

Lemma Forall2_In_left {A B : Type} (R : A -> B -> Prop) (xs : list A) (ys : list B) :
  Forall2 R xs ys -> forall x, In x xs -> exists y, In y ys /\ R x y.
Proof.
  induction 1 as [|x0 y0 xs ys Hxy _ IH]; intros x; [intros []|].
  intros [<- | Hin]; [exists y0; split; [now left | exact Hxy]|].
  destruct (IH x Hin) as (y & Hy & Hr). exists y. split; [now right | exact Hr].
Qed.

Lemma Forall2_In_right {A B : Type} (R : A -> B -> Prop) (xs : list A) (ys : list B) :
  Forall2 R xs ys -> forall y, In y ys -> exists x, In x xs /\ R x y.
Proof.
  induction 1 as [|x0 y0 xs ys Hxy _ IH]; intros y; [intros []|].
  intros [<- | Hin]; [exists x0; split; [now left | exact Hxy]|].
  destruct (IH y Hin) as (x & Hx & Hr). exists x. split; [now right | exact Hr].
Qed.

Section ValSeries.
Import Val ValMain.
Context `{PyRuntime}.

Lemma usable_iff (g : grid_game) :
  usable g = true <-> exists m, game_metadata_factory g = Ok m.
Proof.
  unfold usable, game_metadata_factory.
  destruct (started g), (finished g); simpl;
    try (split; [discriminate | intros [m Hm]; discriminate]).
  destruct (gg_teams g) as [|t1 [|t2 [|t3 ts]]]; simpl;
    try (split; [eauto | reflexivity]).
  split; [discriminate | intros [m Hm]; discriminate].
Qed.

Lemma game_metadata_factory_map_name (g : grid_game) (m : game_metadata) :
  game_metadata_factory g = Ok m -> map_name m = capitalize (gg_map_name g).
Proof.
  unfold game_metadata_factory.
  destruct (started g), (finished g); simpl; try discriminate.
  destruct (gg_teams g) as [|t1 [|t2 [|t3 ts]]]; simpl; try discriminate;
    now intros [= <-].
Qed.

Lemma collect_game_metadata_pairs (grid_games : list grid_game) :
  forall collected,
    exists ms,
      collect_game_metadata grid_games collected = (collected ++ ms)%list
      /\ Forall2 (fun g m => game_metadata_factory g = Ok m)
           (List.filter usable grid_games) ms.
Proof.
  induction grid_games as [|g rest IH]; intros collected; simpl.
  - exists []. split; [now rewrite app_nil_r | constructor].
  - destruct (game_metadata_factory g) as [m|e] eqn:Hg.
    + rewrite (proj2 (usable_iff g)) by eauto.
      destruct (IH (collected ++ [m])%list) as (ms & -> & Hms).
      exists (m :: ms). split; [now rewrite <- app_assoc | now constructor].
    + destruct (usable g) eqn:Hu; [|apply IH].
      apply usable_iff in Hu as [m Hm]. rewrite Hg in Hm. discriminate.
Qed.

Lemma flatten_series_ok (sm : series_metadata) (vm : val_metadata)
    (series_data : list raw_game_data) :
  forall out rows,
    flatten_series series_data sm vm out = Ok rows
    <-> exists per_game,
          Forall2 (fun raw rs => game_factory raw sm vm = Ok rs) series_data per_game
          /\ rows = (out ++ concat per_game)%list.
Proof.
  unfold flatten_series.
  induction series_data as [|raw rest IH]; intros out rows; simpl.
  - split.
    + intros [= <-]. exists []. split; [constructor | now rewrite app_nil_r].
    + intros (per_game & Hall & ->). inversion Hall. simpl. now rewrite app_nil_r.
  - destruct (game_factory raw sm vm) as [rs|e] eqn:Hraw; simpl.
    + rewrite IH. split.
      * intros (per_game & Hall & ->). exists (rs :: per_game).
        split; [now constructor | simpl; now rewrite app_assoc].
      * intros (per_game & Hall & ->). inversion Hall as [|? rs' ? per_game' Hrs Hrest]; subst.
        rewrite Hraw in Hrs. injection Hrs as <-.
        exists per_game'. split; [exact Hrest | simpl; now rewrite app_assoc].
    + split; [discriminate|]. intros (per_game & Hall & _).
      inversion Hall as [|? rs' ? per_game' Hrs Hrest]; subst.
      rewrite Hraw in Hrs. discriminate.
Qed.

Lemma flatten_series_err (sm : series_metadata) (vm : val_metadata)
    (before : list raw_game_data) (raw : raw_game_data)
    (after : list raw_game_data) (e : exn) :
  forall out,
    (forall g, In g before -> is_ok (game_factory g sm vm) = true) ->
    game_factory raw sm vm = Err e ->
    flatten_series (before ++ raw :: after) sm vm out = Err e.
Proof.
  unfold flatten_series.
  induction before as [|g before IH]; intros out Hbefore Hraw; simpl.
  - now rewrite Hraw.
  - pose proof (Hbefore g (or_introl eq_refl)) as Hg.
    destruct (game_factory g sm vm) as [rs|e']; [|discriminate]. simpl.
    apply IH; [|exact Hraw]. intros g' Hg'. apply Hbefore. now right.
Qed.

(** X17.  The games of a series' metadata are those of the end-state
    games that have started and finished and list at most two teams, in
    order; the others are left out.  The rows of a series are the rows of
    its games one after the other, after the rows of earlier series; a
    game that raises ends the run with its exception.  So a series gives
    rows only if every game of the match-history file has, on its map, an
    end-state game that has started and finished and lists at most two
    teams. *)
Theorem series_rows_need_usable_games :
  forall (series_id tournament_id tournament_name : string)
         (grid_games : list grid_game) (series_data : list raw_game_data)
         (vm : val_metadata) (out : list row),
    Forall2 (fun g m => game_metadata_factory g = Ok m)
      (List.filter usable grid_games)
      (games (make_series_metadata series_id tournament_id tournament_name grid_games))
    /\ (forall rows,
          series_rows series_id tournament_id tournament_name grid_games
            series_data vm out = Ok rows
          <-> exists per_game,
                Forall2
                  (fun raw rs =>
                     game_factory raw
                       (make_series_metadata series_id tournament_id tournament_name
                          grid_games) vm = Ok rs)
                  series_data per_game
                /\ rows = (out ++ concat per_game)%list)
    /\ (forall before raw after e,
          series_data = (before ++ raw :: after)%list ->
          (forall g, In g before ->
             is_ok (game_factory g
                      (make_series_metadata series_id tournament_id tournament_name
                         grid_games) vm) = true) ->
          game_factory raw
            (make_series_metadata series_id tournament_id tournament_name grid_games)
            vm = Err e ->
          series_rows series_id tournament_id tournament_name grid_games
            series_data vm out = Err e)
    /\ (forall rows,
          series_rows series_id tournament_id tournament_name grid_games
            series_data vm out = Ok rows ->
          forall raw, In raw series_data ->
            exists entry g,
              maps vm !! mapId (matchInfo raw) = Some entry
              /\ In g grid_games
              /\ usable g = true
              /\ capitalize (gg_map_name g) = displayName entry).
Proof.
  intros series_id tournament_id tournament_name grid_games series_data vm out.
  destruct (collect_game_metadata_pairs grid_games []) as (ms & Hms & Hpairs).
  simpl in Hms.
  split; [simpl; now rewrite Hms|].
  split; [intros rows; apply flatten_series_ok|].
  split; [intros before raw after e ->; apply flatten_series_err|].
  intros rows Hrun raw Hraw.
  apply flatten_series_ok in Hrun as (per_game & Hall & _).
  destruct (Forall2_In_left _ _ _ Hall raw Hraw) as (rs & _ & Hrs).
  apply val_game_factory_parts in Hrs as (h & st & Hentry & Hgm & _).
  destruct (proj1 (proj1 (match_game_metadata_first _ _) _) Hgm)
    as (pre & post & Hgames & Hname & _).
  simpl in Hgames. rewrite Hms in Hgames.
  assert (Hin : In (this_game_metadata h) ms)
    by (rewrite Hgames; apply in_or_app; right; now left).
  destruct (Forall2_In_right _ _ _ Hpairs _ Hin) as (g & Hg & Hmeta).
  apply filter_In in Hg as [Hg Hu].
  exists {| displayName := h_map_name h |}, g.
  split; [exact Hentry|]. split; [exact Hg|]. split; [exact Hu|].
  simpl. rewrite <- Hname. symmetry. now apply game_metadata_factory_map_name.
Qed.

End ValSeries.

Lemma series_rows_need_usable_games_witness :
  (exists rows,
      ValMain.series_rows (H := ValSample.runtime) "2001" "77" "Masters"
        [ValSample.three_team_game; ValVersionSample.ascent_game]
        [ValSample.game] ValSample.reference [] = Ok rows
      /\ exists entry g,
           Val.maps ValSample.reference !! Val.mapId (Val.matchInfo ValSample.game)
           = Some entry
           /\ In g [ValSample.three_team_game; ValVersionSample.ascent_game]
           /\ usable g = true
           /\ capitalize (PyRuntime := ValSample.runtime) (Val.gg_map_name g)
              = Val.displayName entry)
  /\ ValMain.series_rows (H := ValSample.runtime) "2001" "77" "Masters"
       [ValSample.three_team_game; ValVersionSample.ascent_game]
       [ValSample.game; ValSample.nine_player_game; ValSample.game]
       ValSample.reference [] = Err ValueError.
Proof.
  split.
  - eassert (Hrun : ValMain.series_rows (H := ValSample.runtime) "2001" "77" "Masters"
                      [ValSample.three_team_game; ValVersionSample.ascent_game]
                      [ValSample.game] ValSample.reference [] = Ok _)
      by (vm_compute; reflexivity).
    eexists. split; [exact Hrun|].
    destruct (series_rows_need_usable_games (H := ValSample.runtime) "2001" "77" "Masters"
                [ValSample.three_team_game; ValVersionSample.ascent_game]
                [ValSample.game] ValSample.reference []) as (_ & _ & _ & Hneed).
    apply (Hneed _ Hrun ValSample.game). now left.
  - destruct (series_rows_need_usable_games (H := ValSample.runtime) "2001" "77" "Masters"
                [ValSample.three_team_game; ValVersionSample.ascent_game]
                [ValSample.game; ValSample.nine_player_game; ValSample.game]
                ValSample.reference []) as (_ & _ & Herr & _).
    apply (Herr [ValSample.game] ValSample.nine_player_game [ValSample.game] ValueError).
    + reflexivity.
    + intros g [<- | []]. vm_compute. reflexivity.
    + vm_compute. reflexivity.
Defined.

(** ** What the rows of the Valorant flattener hold *)

Section ValOutput.
Import Val.
Context `{PyRuntime}.

(** The flattener is its steps before the checks, the checks and the
    sort. *)
Lemma game_factory_before_checks raw sm vm :
  game_factory raw sm vm
  = (st ← before_checks raw sm vm;
     _ ← check_rows st;
     Ok (sorted row_key_leb row_key (cleaned_game_data st))).
Proof.
  unfold game_factory, before_checks, version_text. cbv zeta.
  destruct (getitem (maps vm) (mapId (matchInfo raw))) as [entry|e];
    [rewrite !bind_of_ok | reflexivity].
  destruct (truediv (gameStartMillis (matchInfo raw)) 1000) as [seconds|e];
    [rewrite !bind_of_ok | reflexivity].
  destruct (fromtimestamp seconds) as [start|e]; [rewrite !bind_of_ok | reflexivity].
  destruct (float_of_str _) as [version|e]; [rewrite !bind_of_ok | reflexivity].
  destruct (match_game_metadata _ _) as [gm|e]; [rewrite !bind_of_ok | reflexivity].
  destruct (resolve_team_side_refs _ _) as [refs|e]; [rewrite !bind_of_ok | reflexivity].
  destruct (for_each process_round _ _) as [stats|e]; [rewrite !bind_of_ok | reflexivity].
  reflexivity.
Qed.

(** One pass of the loop over the players, for a player off the Neutral
    side: the row of the player, followed by the team row when it is the
    first player of the side. *)
Lemma add_player_rows_new sm vm h (st st' : rows_state) (player : raw_player) :
  add_player_rows sm vm h st player = Ok st' ->
  pl_teamId player <> "Neutral" ->
  exists (ref : team_ref) (tm : team_meta) (side : side_agg) (prow : row)
         (new : list row),
    team_side_refs h !! pl_teamId player = Some (Some ref)
    /\ referred (this_game_metadata h) ref = Some tm
    /\ team_preaggregated_stats (stats h) !! pl_teamId player = Some side
    /\ cleaned_game_data st' = (cleaned_game_data st ++ prow :: new)%list
    /\ r_player_name prow = pl_gameName player
    /\ r_agent_id prow = pl_characterId player
    /\ row_common (this_game_metadata h) (h_map_name h) tm side prow
    /\ forall r, In r new ->
         r_player_name r = EmptyString
         /\ row_common (this_game_metadata h) (h_map_name h) tm side r.
Proof.
  unfold add_player_rows.
  destruct (String.eqb_spec (pl_teamId player) "Neutral") as [E | E];
    [intros _ N; now destruct N|].
  intros Hrun _.
  apply bind_ok in Hrun as (ref & Href & Hrun).
  apply bind_ok in Hrun as (tm & Htm & Hrun).
  apply bind_ok in Hrun as (rw & Hrw & Hrun).
  apply bind_ok in Hrun as (tid & Htid & Hrun).
  apply bind_ok in Hrun as (tname & Htname & Hrun).
  apply bind_ok in Hrun as (agent & Hagent & Hrun).
  apply bind_ok in Hrun as (won & Hwon & Hrun).
  apply bind_ok in Hrun as (side & Hside & Hrun).
  apply bind_ok in Hrun as (acs & Hacs & Hrun).
  apply bind_ok in Hrun as (agg & Hagg & Hrun).
  apply bind_ok in Hrun as (dpr & Hdpr & Hrun).
  apply bind_ok in Hrun as (hsr & Hhsr & Hrun).
  apply bind_ok in Hrun as (added & Hadded & Hrun).
  unfold getitem in Href, Hside.
  destruct (team_side_refs h !! pl_teamId player) as [ref'|]; [|discriminate].
  injection Href as ->.
  destruct (team_preaggregated_stats (stats h) !! pl_teamId player) as [side'|];
    [|discriminate].
  injection Hside as ->.
  destruct ref as [ref|]; [|discriminate].
  assert (Hreferred : referred (this_game_metadata h) ref = tm)
    by (destruct ref; simpl in Htm; now injection Htm).
  destruct tm as [tm|]; [|discriminate].
  injection Hrw as <-. injection Htid as <-. injection Htname as <-.
  exists ref, tm, side.
  destruct added; simpl in Hrun; injection Hrun as <-; simpl.
  - eexists _, []. do 3 (split; [reflexivity + assumption|]).
    split; [reflexivity|]. split; [reflexivity|]. split; [reflexivity|].
    split; [now repeat split | intros r []].
  - eexists _, [_]. do 3 (split; [reflexivity + assumption|]).
    split; [now rewrite <- app_assoc|]. split; [reflexivity|]. split; [reflexivity|].
    split; [now repeat split|]. intros r [<- | []]. now repeat split.
Qed.

(** The rows are only added to. *)
Lemma add_player_rows_keeps sm vm h (st st' : rows_state) (player : raw_player) :
  add_player_rows sm vm h st player = Ok st' ->
  exists new, cleaned_game_data st' = (cleaned_game_data st ++ new)%list.
Proof.
  intros Hrun.
  destruct (String.eqb_spec (pl_teamId player) "Neutral") as [E | E].
  - unfold add_player_rows in Hrun. rewrite E in Hrun. simpl in Hrun.
    injection Hrun as <-. exists []. now rewrite app_nil_r.
  - destruct (add_player_rows_new _ _ _ _ _ _ Hrun E)
      as (ref & tm & side & prow & new & _ & _ & _ & Hrows & _).
    eauto.
Qed.

Lemma players_loop_keeps sm vm h (ps : list raw_player) :
  forall st st',
    for_each (add_player_rows sm vm h) ps st = Ok st' ->
    forall r, In r (cleaned_game_data st) -> In r (cleaned_game_data st').
Proof.
  induction ps as [|p ps IH]; intros st st' Hrun r Hr.
  - now injection Hrun as <-.
  - rewrite for_each_cons in Hrun. apply bind_ok in Hrun as (st1 & Hstep & Hrun).
    apply (IH _ _ Hrun). destruct (add_player_rows_keeps _ _ _ _ _ _ Hstep) as [new ->].
    apply in_or_app. now left.
Qed.

(** Every player off the Neutral side has a row. *)
Lemma players_loop_rows sm vm h (ps : list raw_player) :
  forall st st',
    for_each (add_player_rows sm vm h) ps st = Ok st' ->
    forall player, In player ps -> pl_teamId player <> "Neutral" ->
      exists (ref : team_ref) (tm : team_meta) (side : side_agg) (prow : row),
        team_side_refs h !! pl_teamId player = Some (Some ref)
        /\ referred (this_game_metadata h) ref = Some tm
        /\ team_preaggregated_stats (stats h) !! pl_teamId player = Some side
        /\ In prow (cleaned_game_data st')
        /\ r_player_name prow = pl_gameName player
        /\ r_agent_id prow = pl_characterId player
        /\ row_common (this_game_metadata h) (h_map_name h) tm side prow.
Proof.
  induction ps as [|p ps IH]; intros st st' Hrun player Hin Hside; [destruct Hin|].
  rewrite for_each_cons in Hrun. apply bind_ok in Hrun as (st1 & Hstep & Hrun).
  destruct Hin as [-> | Hin]; [|exact (IH _ _ Hrun player Hin Hside)].
  destruct (add_player_rows_new _ _ _ _ _ _ Hstep Hside)
    as (ref & tm & side & prow & new & Href & Htm & Hs & Hrows & Hname & Hagent
        & Hcommon & _).
  exists ref, tm, side, prow. repeat (split; [assumption|]).
  split; [|split; [exact Hname | split; [exact Hagent | exact Hcommon]]].
  apply (players_loop_keeps _ _ _ _ _ _ Hrun). rewrite Hrows.
  apply in_or_app. right. now left.
Qed.

(** Every row comes from a team of the matched metadata and a side of the
    statistics. *)
Lemma players_loop_common sm vm h (ps : list raw_player) :
  forall st st',
    for_each (add_player_rows sm vm h) ps st = Ok st' ->
    forall r, In r (cleaned_game_data st') ->
      In r (cleaned_game_data st)
      \/ exists tm side,
           team_of (this_game_metadata h) tm
           /\ row_common (this_game_metadata h) (h_map_name h) tm side r.
Proof.
  induction ps as [|p ps IH]; intros st st' Hrun r Hr.
  - injection Hrun as <-. now left.
  - rewrite for_each_cons in Hrun. apply bind_ok in Hrun as (st1 & Hstep & Hrun).
    destruct (IH _ _ Hrun r Hr) as [Hold | Hnew]; [|now right].
    destruct (String.eqb_spec (pl_teamId p) "Neutral") as [E | E].
    + unfold add_player_rows in Hstep. rewrite E in Hstep. simpl in Hstep.
      injection Hstep as <-. now left.
    + destruct (add_player_rows_new _ _ _ _ _ _ Hstep E)
        as (ref & tm & side & prow & new & _ & Htm & _ & Hrows & _ & _
            & Hcommon & Hnew).
      rewrite Hrows in Hold. apply in_app_or in Hold as [Hold | [<- | Hold]].
      * now left.
      * right. exists tm, side. split; [|exact Hcommon].
        destruct ref; [now left | now right].
      * right. exists tm, side. split; [|exact (proj2 (Hnew r Hold))].
        destruct ref; [now left | now right].
Qed.

End ValOutput.

(** ** Attackers and team identity in the rows *)

Section ValAttribution.
Import Val.
Context `{PyRuntime}.

(** The counters of the two sides after the loop over the rounds. *)
Lemma rounds_loop_counters (rounds : list round_result) (st : preagg) :
  for_each process_round (enumerate rounds) initial_preagg = Ok st ->
  forall (side : string) (agg : side_agg),
    team_preaggregated_stats st !! side = Some agg ->
    attackWins agg = attack_wins side 0 rounds
    /\ attackLosses agg = attack_losses side 0 rounds
    /\ defenseWins agg = attack_losses (other_side side) 0 rounds
    /\ defenseLosses agg = attack_wins (other_side side) 0 rounds.
Proof.
  intros Hrun side agg Hside.
  destruct (rounds_loop_sides rounds 0 initial_preagg st zero_side_agg zero_side_agg)
    as (b & r & Hb & Hr & E1 & E2 & E3 & E4 & E5 & E6 & E7 & E8);
    [reflexivity | reflexivity | exact Hrun |].
  simpl in E1, E2, E3, E4, E5, E6, E7, E8.
  destruct (rounds_loop_only_sides _ _ Hrun side (ex_intro _ _ Hside)) as [-> | ->].
  - rewrite Hb in Hside. injection Hside as <-. now repeat split.
  - rewrite Hr in Hside. injection Hside as <-. now repeat split.
Qed.

(** C3.  Red attacks in rounds 1 to 12, Blue in rounds 13 to 24, and from
    round 25 on Red attacks in the odd rounds and Blue in the even ones;
    the round at position [i] of the round list is given the number
    [i + 1].  So rounds 1 and 13, and rounds 25 and 26, have different
    attackers.  The flattener attributes attack and defence by this rule:
    after the loop over the rounds the attack wins of a side are the rounds
    in which it is the attacker by the rule and wins, its attack losses
    those in which it is the attacker and does not win, and its defence
    wins and losses are the attack losses and wins of the other side; the
    row of every player of a flattened game holds these four numbers for
    the side of the player. *)
Theorem attackers_by_round_number :
  (forall n, 1 <= n <= 12 -> attackers n = "Red")
  /\ (forall n, 13 <= n <= 24 -> attackers n = "Blue")
  /\ (forall n, 25 <= n -> attackers n = if Z.odd n then "Red" else "Blue")
  /\ attackers 1 <> attackers 13
  /\ attackers 25 <> attackers 26
  /\ (forall (rounds : list round_result) (i : nat) (rd : round_result),
        rounds !! i = Some rd ->
        enumerate rounds !! i = Some (Z.of_nat i, rd)
        /\ forall st, process_round st (Z.of_nat i, rd)
                      = (teams ← count_round_sides (Z.of_nat i + 1) rd
                                   (team_preaggregated_stats st);
                         players ← credit_round rd (player_preaggregated_stats st);
                         Ok {| player_preaggregated_stats := players;
                               team_preaggregated_stats := teams |}))
  /\ (forall (rounds : list round_result) (st : preagg),
        for_each process_round (enumerate rounds) initial_preagg = Ok st ->
        forall side, side = "Blue" \/ side = "Red" ->
          exists agg,
            team_preaggregated_stats st !! side = Some agg
            /\ attackWins agg = attack_wins side 0 rounds
            /\ attackLosses agg = attack_losses side 0 rounds
            /\ defenseWins agg = attack_losses (other_side side) 0 rounds
            /\ defenseLosses agg = attack_wins (other_side side) 0 rounds)
  /\ (forall raw sm vm rows,
        game_factory raw sm vm = Ok rows ->
        forall player, In player (players raw) -> pl_teamId player <> "Neutral" ->
          exists row,
            In row rows
            /\ r_player_name row = pl_gameName player
            /\ r_agent_id row = pl_characterId player
            /\ r_attackRoundsWon row
               = attack_wins (pl_teamId player) 0 (roundResults raw)
            /\ r_attackRoundsLost row
               = attack_losses (pl_teamId player) 0 (roundResults raw)
            /\ r_defenseRoundsWon row
               = attack_losses (other_side (pl_teamId player)) 0 (roundResults raw)
            /\ r_defenseRoundsLost row
               = attack_wins (other_side (pl_teamId player)) 0 (roundResults raw)).
Proof.
  split; [|split; [|split; [|split; [|split; [|split; [|split]]]]]].
  - intros n Hn. unfold attackers.
    destruct (n <? 25) eqn:E1; [|apply Z.ltb_ge in E1; lia].
    destruct (n <? 13) eqn:E2; [reflexivity | apply Z.ltb_ge in E2; lia].
  - intros n Hn. unfold attackers.
    destruct (n <? 25) eqn:E1; [|apply Z.ltb_ge in E1; lia].
    destruct (n <? 13) eqn:E2; [apply Z.ltb_lt in E2; lia | reflexivity].
  - intros n Hn. unfold attackers.
    destruct (n <? 25) eqn:E1; [apply Z.ltb_lt in E1; lia|].
    rewrite Zmod_odd. now destruct (Z.odd n).
  - discriminate.
  - discriminate.
  - intros rounds i rd Hi. split; [|reflexivity].
    unfold enumerate. now rewrite (enumerate_from_lookup _ 0 _ _ Hi).
  - intros rounds st Hrun side Hside.
    destruct (rounds_loop_sides rounds 0 initial_preagg st zero_side_agg zero_side_agg)
      as (b & r & Hb & Hr & _); [reflexivity | reflexivity | exact Hrun |].
    destruct Hside as [-> | ->]; [exists b | exists r];
      (split; [assumption|]); now apply (rounds_loop_counters rounds st Hrun).
  - intros raw sm vm rows Hrun player Hin Hside.
    apply val_game_factory_parts in Hrun
      as (h & st & _ & _ & _ & Hrounds & Hloop & _ & ->).
    destruct (players_loop_rows _ _ _ _ _ _ Hloop player Hin Hside)
      as (ref & tm & side & prow & _ & _ & Hs & Hprow & Hname & Hagent & Hcommon).
    destruct Hcommon as (_ & _ & _ & _ & _ & A1 & A2 & A3 & A4).
    destruct (rounds_loop_counters _ _ Hrounds _ _ Hs) as (B1 & B2 & B3 & B4).
    exists prow. split; [now apply sorted_In|].
    split; [exact Hname|]. split; [exact Hagent|].
    rewrite A1, A2, A3, A4. now repeat split.
Qed.

(** *** Team identity *)

Lemma teams_loop_succeeds (gm : game_metadata) (one two : Z) (teams : list raw_team) :
  expected_rounds (team_one gm) = Some one ->
  expected_rounds (team_two gm) = Some two ->
  (forall team, In team teams -> rt_roundsWon team = one \/ rt_roundsWon team = two) ->
  forall refs, exists refs', for_each (map_team gm) teams refs = Ok refs'.
Proof.
  intros H1 H2. induction teams as [|t teams IH]; intros Hall refs; [now exists refs|].
  rewrite for_each_cons.
  assert (Hstep : exists refs1, map_team gm refs t = Ok refs1).
  { unfold map_team, expected_rounds, team_field in *.
    destruct (team_one gm) as [t1|]; [|discriminate].
    destruct (team_two gm) as [t2|]; [|discriminate].
    injection H1 as <-. injection H2 as <-. simpl.
    destruct (rt_roundsWon t =? rounds_won t1) eqn:E1; [eauto|].
    destruct (rt_roundsWon t =? rounds_won t2) eqn:E2; [eauto|].
    apply Z.eqb_neq in E1, E2.
    destruct (Hall t (or_introl eq_refl)); contradiction. }
  destruct Hstep as [refs1 ->]. rewrite bind_of_ok.
  apply IH. intros; apply Hall; now right.
Qed.

(** C8.  The loop over the vendor's teams maps a team to [team_one] when
    its round wins equal those of the metadata's first team, else to
    [team_two] when they equal those of the second team.  When both
    metadata teams are filled in, the loop succeeds if every team matches
    one of them and raises [ValueError] if some team matches neither.  A
    game that is flattened has all its teams matched, and the row of each
    of its players carries the id, the name and the round wins of the
    metadata team that the team of the player was mapped to. *)
Theorem team_identity_by_rounds_won :
  (forall gm teams refs,
      resolve_team_side_refs gm teams = Ok refs ->
      (forall team, In team teams -> matches_metadata gm team)
      /\ (List.NoDup (map rt_teamId teams) ->
          forall team, In team teams ->
            exists one,
              expected_rounds (team_one gm) = Some one
              /\ refs !! rt_teamId team
                 = Some (Some (if rt_roundsWon team =? one
                               then team_one_ref else team_two_ref))))
  /\ (forall gm teams one two,
        expected_rounds (team_one gm) = Some one ->
        expected_rounds (team_two gm) = Some two ->
        (forall team, In team teams ->
           rt_roundsWon team = one \/ rt_roundsWon team = two) ->
        exists refs, resolve_team_side_refs gm teams = Ok refs)
  /\ (forall gm teams one two,
        expected_rounds (team_one gm) = Some one ->
        expected_rounds (team_two gm) = Some two ->
        (exists team, In team teams
                      /\ rt_roundsWon team <> one /\ rt_roundsWon team <> two) ->
        resolve_team_side_refs gm teams = Err ValueError)
  /\ (forall raw sm vm rows,
        game_factory raw sm vm = Ok rows ->
        exists entry gm,
          maps vm !! mapId (matchInfo raw) = Some entry
          /\ match_game_metadata (displayName entry) (games sm) = Ok gm
          /\ (forall team, In team (rg_teams raw) -> matches_metadata gm team)
          /\ (List.NoDup (map rt_teamId (rg_teams raw)) ->
              forall team player,
                In team (rg_teams raw) -> In player (players raw) ->
                pl_teamId player = rt_teamId team ->
                pl_teamId player <> "Neutral" ->
                exists one tm row,
                  expected_rounds (team_one gm) = Some one
                  /\ referred gm (if rt_roundsWon team =? one
                                  then team_one_ref else team_two_ref) = Some tm
                  /\ In row rows
                  /\ r_player_name row = pl_gameName player
                  /\ r_agent_id row = pl_characterId player
                  /\ r_team_id row = tmeta_id tm
                  /\ r_team_name row = tmeta_name tm
                  /\ r_roundsWon row = rounds_won tm)).
Proof.
  split; [|split; [|split]].
  - intros gm teams refs Hrun.
    destruct (teams_loop_ok _ _ _ _ Hrun) as (Hall & Hnd & _). now split.
  - intros gm teams one two H1 H2 Hall.
    exact (teams_loop_succeeds gm one two teams H1 H2 Hall initial_team_side_refs).
  - intros gm teams one two H1 H2 Hbad.
    now apply (teams_loop_unmatched gm one two).
  - intros raw sm vm rows Hrun.
    apply val_game_factory_parts in Hrun
      as (h & st & Hentry & Hgm & Hrefs & _ & Hloop & _ & ->).
    exists {| displayName := h_map_name h |}, (this_game_metadata h).
    split; [exact Hentry|]. split; [exact Hgm|].
    destruct (teams_loop_ok _ _ _ _ Hrefs) as (Hall & Hnd & _).
    split; [exact Hall|].
    intros Hdistinct team player Hteam Hplayer Hsame Hside.
    destruct (Hnd Hdistinct team Hteam) as (one & Hone & Hlookup).
    destruct (players_loop_rows _ _ _ _ _ _ Hloop player Hplayer Hside)
      as (ref & tm & side & prow & Href & Htm & _ & Hprow & Hname & Hagent & Hcommon).
    destruct Hcommon as (_ & _ & Hid & Hteamname & Hwon & _).
    rewrite Hsame, Hlookup in Href. injection Href as <-.
    exists one, tm, prow.
    split; [exact Hone|]. split; [exact Htm|]. split; [now apply sorted_In|].
    now repeat split.
Qed.

End ValAttribution.

Lemma attackers_by_round_number_witness :
  Val.attackers 7 = "Red" /\ Val.attackers 20 = "Blue" /\ Val.attackers 31 = "Red"
  /\ enumerate ValSample.eighteen_rounds !! 12%nat
     = Some (12, ValSample.played_round "Red")
  /\ exists rows row,
       Val.game_factory (H := ValSample.runtime) ValSample.game ValSample.series
         ValSample.reference = Ok rows
       /\ In row rows
       /\ Val.r_player_name row = "b1"
       /\ Val.r_attackRoundsWon row = 5
       /\ Val.r_attackRoundsLost row = 1
       /\ Val.r_defenseRoundsWon row = 0
       /\ Val.r_defenseRoundsLost row = 12.
Proof.
  destruct (attackers_by_round_number (H := ValSample.runtime))
    as (H1 & H2 & H3 & _ & _ & H4 & _ & Hrows).
  split; [apply H1; lia|]. split; [apply H2; lia|].
  split; [apply (H3 31); lia|].
  split; [exact (proj1 (H4 ValSample.eighteen_rounds 12%nat _ eq_refl))|].
  eassert (Hrun : Val.game_factory (H := ValSample.runtime) ValSample.game
                    ValSample.series ValSample.reference = Ok _)
    by (vm_compute; reflexivity).
  destruct (Hrows _ _ _ _ Hrun (ValSample.on_side "b1" "Blue"))
    as (row & Hin & Hname & _ & A1 & A2 & A3 & A4).
  - simpl. do 6 right. now left.
  - discriminate.
  - eexists _, row. split; [exact Hrun|]. split; [exact Hin|]. split; [exact Hname|].
    rewrite A1, A2, A3, A4. repeat split; vm_compute; reflexivity.
Defined.

Lemma team_identity_by_rounds_won_witness :
  (exists refs,
      Val.resolve_team_side_refs ValMatchSample.ascent_metadata
        (Val.rg_teams ValSample.game) = Ok refs
      /\ refs !! "Red" = Some (Some Val.team_one_ref)
      /\ refs !! "Blue" = Some (Some Val.team_two_ref))
  /\ Val.resolve_team_side_refs ValMatchSample.ascent_metadata
       (Val.rg_teams ValSample.unmatched_game)
     = Err ValueError
  /\ exists rows row,
       Val.game_factory (H := ValSample.runtime) ValSample.game ValSample.series
         ValSample.reference = Ok rows
       /\ In row rows
       /\ Val.r_player_name row = "b1"
       /\ Val.r_team_id row = "t2"
       /\ Val.r_team_name row = "Bravo"
       /\ Val.r_roundsWon row = 5.
Proof.
  destruct (team_identity_by_rounds_won (H := ValSample.runtime))
    as (Hmap & Hgood & Hbad & Hgame).
  assert (Hdistinct : List.NoDup (map Val.rt_teamId (Val.rg_teams ValSample.game))).
  { simpl. constructor; [intros [E | []]; discriminate|].
    constructor; [intros []|]. constructor. }
  split; [|split].
  - destruct (Hgood ValMatchSample.ascent_metadata (Val.rg_teams ValSample.game) 13 5
                eq_refl eq_refl) as [refs Hrefs].
    { simpl. intros team [<- | [<- | []]]; [now left | now right]. }
    exists refs. split; [exact Hrefs|].
    destruct (Hmap _ _ _ Hrefs) as [_ Hlookup].
    split.
    + destruct (Hlookup Hdistinct {| Val.rt_teamId := "Red"; Val.rt_roundsWon := 13 |})
        as (one & Hone & Hred); [now left|].
      injection Hone as <-. exact Hred.
    + destruct (Hlookup Hdistinct {| Val.rt_teamId := "Blue"; Val.rt_roundsWon := 5 |})
        as (one & Hone & Hblue); [right; now left|].
      injection Hone as <-. exact Hblue.
  - apply (Hbad _ _ 13 5); [reflexivity | reflexivity |].
    exists {| Val.rt_teamId := "Blue"; Val.rt_roundsWon := 7 |}.
    split; [right; now left | split; discriminate].
  - eassert (Hrun : Val.game_factory (H := ValSample.runtime) ValSample.game
                      ValSample.series ValSample.reference = Ok _)
      by (vm_compute; reflexivity).
    destruct (Hgame _ _ _ _ Hrun) as (entry & gm & Hentry & Hgm & _ & Hrows).
    vm_compute in Hentry. injection Hentry as <-.
    vm_compute in Hgm. injection Hgm as <-.
    destruct (Hrows Hdistinct {| Val.rt_teamId := "Blue"; Val.rt_roundsWon := 5 |}
                (ValSample.on_side "b1" "Blue"))
      as (one & tm & row & Hone & Htm & Hin & Hname & _ & Hid & Hteam & Hwon).
    + right. now left.
    + simpl. do 6 right. now left.
    + reflexivity.
    + discriminate.
    + injection Hone as <-. simpl in Htm. injection Htm as <-.
      eexists _, row. split; [exact Hrun|]. now repeat split.
Defined.

(** ** The count checks and the metadata match *)

Section ValChecks.
Import Val.
Context `{PyRuntime}.

Lemma before_checks_count raw sm vm st :
  before_checks raw sm vm = Ok st ->
  player_count_found st = non_neutral (players raw).
Proof.
  unfold before_checks. intros Hrun.
  do 7 (apply bind_ok in Hrun as (? & _ & Hrun)).
  now rewrite (players_loop_count _ _ _ _ _ _ Hrun).
Qed.

(** C7, as the code has it.  The Valorant flattener returns rows only for
    a game with at least ten players off the [Neutral] side.  With fewer,
    it raises: the exception of a step before the checks when one of them
    raises, and else the [ValueError] of the check of the player count.
    The metadata factory raises [IndexError] on a started and finished
    end-state game that lists more than two teams.  The League of Legends
    flattener checks neither number: whatever the numbers of participants
    and teams, it returns one row for each of them when their sides are
    100 or 200, the kill and damage totals of the sides with a participant
    and the duration are not zero, and the counters are in the range of a
    float. *)
Theorem player_and_team_count_checks :
  (forall raw sm vm rows,
      game_factory raw sm vm = Ok rows -> 10 <= non_neutral (players raw))
  /\ (forall raw sm vm,
        non_neutral (players raw) < 10 ->
        (forall st, before_checks raw sm vm = Ok st ->
                    game_factory raw sm vm = Err ValueError)
        /\ (forall e, before_checks raw sm vm = Err e ->
                      game_factory raw sm vm = Err e)
        /\ exists e, game_factory raw sm vm = Err e)
  /\ (forall st : rows_state,
        player_count_found st < 10 -> check_rows st = Err ValueError)
  /\ (forall g : grid_game,
        started g = true -> finished g = true ->
        (2 < length (gg_teams g))%nat ->
        game_metadata_factory g = Err IndexError)
  /\ (forall game_id si sf tl live,
        counters_fit sf = true ->
        Lol.gameDuration sf <> 0 ->
        (forall p, In p (Lol.participants sf) ->
           known_side (Lol.p_teamId p)
           /\ team_sum Lol.p_kills (Lol.p_teamId p) (Lol.participants sf) <> 0
           /\ team_sum Lol.p_totalDamageDealtToChampions (Lol.p_teamId p)
                (Lol.participants sf) <> 0) ->
        (forall tm, In tm (Lol.teams sf) -> known_side (Lol.tm_teamId tm)) ->
        exists rows,
          Lol.game_factory game_id si sf tl live = Ok rows
          /\ length rows
             = (length (Lol.participants sf) + length (Lol.teams sf))%nat).
Proof.
  assert (Hcheck : forall st : rows_state,
             player_count_found st < 10 -> check_rows st = Err ValueError).
  { intros st Hfew. unfold check_rows. apply Z.ltb_lt in Hfew. now rewrite Hfew. }
  assert (Hfew : forall raw sm vm,
             non_neutral (players raw) < 10 ->
             (forall st, before_checks raw sm vm = Ok st ->
                         game_factory raw sm vm = Err ValueError)
             /\ (forall e, before_checks raw sm vm = Err e ->
                           game_factory raw sm vm = Err e)).
  { intros raw sm vm Hlt. split.
    - intros st Hst. rewrite game_factory_before_checks, Hst, bind_of_ok.
      rewrite Hcheck; [reflexivity|]. now rewrite (before_checks_count _ _ _ _ Hst).
    - intros e He. now rewrite game_factory_before_checks, He. }
  split; [|split; [|split; [|split]]].
  - intros raw sm vm rows Hrun.
    apply val_game_factory_ok in Hrun
      as (entry & gm & refs & stats & st & _ & _ & _ & _ & Hcount & Hc & _).
    apply check_rows_ok in Hc as [Hten _]. lia.
  - intros raw sm vm Hlt. destruct (Hfew raw sm vm Hlt) as [Hok Herr].
    split; [exact Hok|]. split; [exact Herr|].
    destruct (before_checks raw sm vm) as [st|e]; eauto.
  - exact Hcheck.
  - intros g Hs Hf Hlen. unfold game_metadata_factory. rewrite Hs, Hf. simpl.
    destruct (gg_teams g) as [|t0 [|t1 [|t2 ts]]]; simpl in Hlen; try lia.
    reflexivity.
  - intros game_id si sf tl live _ Hdur Hp Ht.
    destruct (game_factory_succeeds game_id si sf tl live Hdur Hp Ht) as [rows Hrun].
    exists rows. split; [exact Hrun|].
    apply game_factory_rows in Hrun as (tt & pds & tds & -> & _ & Hlp & Hlt & _).
    now rewrite length_app, !length_map, Hlp, Hlt.
Qed.

(** X12.  The flattener first looks the map up in the reference table
    and raises [KeyError] when it is missing.  When the map is known and
    the start time and the version are read, it raises [ValueError] if no
    metadata entry of the series has the map's display name.  A flattened
    game has taken the first such entry: every row carries the display
    name of the map, the game number of that entry, and the id, the name
    and the round wins of one of the two teams of that entry. *)
Theorem map_lookup_and_metadata_match :
  forall raw sm vm,
    (maps vm !! mapId (matchInfo raw) = None ->
     game_factory raw sm vm = Err KeyError)
    /\ (forall entry,
          maps vm !! mapId (matchInfo raw) = Some entry ->
          is_ok (fromtimestamp
                   (Qred (inject_Z (gameStartMillis (matchInfo raw)) / inject_Z 1000)))
          = true ->
          is_ok (float_of_str (version_text (gameVersion (matchInfo raw)))) = true ->
          (forall g, In g (games sm) -> map_name g <> displayName entry) ->
          game_factory raw sm vm = Err ValueError)
    /\ (forall rows,
          game_factory raw sm vm = Ok rows ->
          exists entry gm pre post,
            maps vm !! mapId (matchInfo raw) = Some entry
            /\ games sm = (pre ++ gm :: post)%list
            /\ map_name gm = displayName entry
            /\ (forall g, In g pre -> map_name g <> displayName entry)
            /\ forall row, In row rows ->
                 r_map_name row = displayName entry
                 /\ r_game_number row = game_number gm
                 /\ exists tm,
                      team_of gm tm
                      /\ r_team_id row = tmeta_id tm
                      /\ r_team_name row = tmeta_name tm
                      /\ r_roundsWon row = rounds_won tm).
Proof.
  intros raw sm vm. split; [|split].
  - intros Hnone. unfold game_factory, getitem. now rewrite Hnone.
  - intros entry Hentry Hdate Hversion Hnone. unfold game_factory, getitem.
    rewrite Hentry, bind_of_ok, truediv_nonzero, bind_of_ok by lia.
    destruct (fromtimestamp _) as [d|e]; [|discriminate]. rewrite bind_of_ok.
    unfold version_text in Hversion. cbv zeta in *.
    destruct (float_of_str _) as [v|e]; [|discriminate]. rewrite bind_of_ok.
    apply (proj2 (match_game_metadata_first _ _)) in Hnone. now rewrite Hnone.
  - intros rows Hrun.
    apply val_game_factory_parts in Hrun
      as (h & st & Hentry & Hgm & _ & _ & Hloop & _ & ->).
    destruct (proj1 (proj1 (match_game_metadata_first _ _) _) Hgm)
      as (pre & post & Hgames & Hname & Hpre).
    eexists _, (this_game_metadata h), pre, post. split; [exact Hentry|].
    simpl. split; [assumption|]. split; [assumption|]. split; [assumption|].
    intros row Hrow. apply sorted_In in Hrow.
    destruct (players_loop_common _ _ _ _ _ _ Hloop row Hrow)
      as [[] | (tm & side & Hteam & Hmap & Hnumber & Hid & Hteamname & Hwon & _)].
    split; [exact Hmap|]. split; [exact Hnumber|]. exists tm. now repeat split.
Qed.

End ValChecks.

Lemma player_and_team_count_checks_witness :
  10 <= non_neutral (Val.players ValSample.game)
  /\ Val.game_factory (H := ValSample.runtime) ValSample.nine_player_game
       ValSample.series ValSample.reference = Err ValueError
  /\ Val.game_factory (H := ValSample.runtime) ValMatchSample.nine_players_unknown_agent
       ValSample.series ValSample.reference = Err KeyError
  /\ Val.game_metadata_factory (H := ValSample.runtime) ValSample.three_team_game
     = Err IndexError
  /\ exists rows,
       Lol.game_factory "NA1_1" LolSample.info LolSample.short_stats
         LolSample.timeline EmptyString = Ok rows
       /\ length rows = 3%nat.
Proof.
  destruct (player_and_team_count_checks (H := ValSample.runtime))
    as (Hok & Hfew & _ & Hteams & Hlol).
  split; [|split; [|split; [|split]]].
  - eassert (Hrun : Val.game_factory (H := ValSample.runtime) ValSample.game
                      ValSample.series ValSample.reference = Ok _)
      by (vm_compute; reflexivity).
    exact (Hok _ _ _ _ Hrun).
  - destruct (Hfew ValSample.nine_player_game ValSample.series ValSample.reference)
      as (Hvalue & _); [vm_compute; reflexivity|].
    destruct (before_checks (H := ValSample.runtime) ValSample.nine_player_game
                ValSample.series ValSample.reference) as [st|e] eqn:Hst.
    + exact (Hvalue st eq_refl).
    + assert (Hcomputed : is_ok (before_checks (H := ValSample.runtime)
                                   ValSample.nine_player_game ValSample.series
                                   ValSample.reference) = true)
        by (vm_compute; reflexivity).
      rewrite Hst in Hcomputed. discriminate Hcomputed.
  - destruct (Hfew ValMatchSample.nine_players_unknown_agent ValSample.series
                ValSample.reference) as (_ & Hearlier & _); [vm_compute; reflexivity|].
    apply Hearlier. vm_compute. reflexivity.
  - apply Hteams; [reflexivity | reflexivity | simpl; lia].
  - apply (Hlol "NA1_1" LolSample.info LolSample.short_stats LolSample.timeline
             EmptyString).
    + vm_compute. reflexivity.
    + discriminate.
    + intros p [<- | [<- | []]]; (split; [first [now left | now right]|]);
        split; discriminate.
    + intros tm [<- | []]. now left.
Defined.

Lemma map_lookup_and_metadata_match_witness :
  Val.game_factory (H := ValSample.runtime) ValSample.game ValSample.series
    {| Val.maps := ∅; Val.agents := Val.agents ValSample.reference |}
  = Err KeyError
  /\ Val.game_factory (H := ValSample.runtime) ValSample.game
       {| Val.series_id := "2001"; Val.tournament_id := "77";
          Val.tournament_name := "Masters"; Val.games := [] |}
       ValSample.reference
     = Err ValueError
  /\ exists rows,
       Val.game_factory (H := ValSample.runtime) ValSample.game
         ValMatchSample.two_ascent_series ValSample.reference = Ok rows
       /\ forall row, In row rows ->
            Val.r_game_number row = 1 /\ Val.r_map_name row = "Ascent".
Proof.
  split; [|split].
  - apply (proj1 (map_lookup_and_metadata_match (H := ValSample.runtime) _ _ _)).
    reflexivity.
  - apply (proj1 (proj2 (map_lookup_and_metadata_match (H := ValSample.runtime) _ _ _))
             {| Val.displayName := "Ascent" |}).
    + vm_compute. reflexivity.
    + reflexivity.
    + vm_compute. reflexivity.
    + intros g [].
  - eassert (Hrun : Val.game_factory (H := ValSample.runtime) ValSample.game
                      ValMatchSample.two_ascent_series ValSample.reference = Ok _)
      by (vm_compute; reflexivity).
    eexists. split; [exact Hrun|].
    destruct (proj2 (proj2 (map_lookup_and_metadata_match (H := ValSample.runtime)
                              ValSample.game ValMatchSample.two_ascent_series
                              ValSample.reference)) _ Hrun)
      as (entry & gm & pre & post & Hentry & Hgames & Hname & Hpre & Hall).
    vm_compute in Hentry. injection Hentry as <-.
    intros row Hrow. destruct (Hall row Hrow) as (Hmap & Hnumber & _).
    split; [|exact Hmap]. rewrite Hnumber.
    unfold ValMatchSample.two_ascent_series, ValSample.series in Hgames.
    simpl in Hgames. destruct pre as [|g pre].
    + simpl in Hgames. injection Hgames as <- _. reflexivity.
    + simpl in Hgames. injection Hgames as <- _.
      now destruct (Hpre _ (or_introl eq_refl)).
Defined.

(** ** The name splitter on strings of code points *)

Lemma ufind_nonneg_or_absent (c : N) (s : PyUnicode.str) :
  PyUnicode.find c s = -1 \/ 0 <= PyUnicode.find c s.
Proof.
  induction s as [|a s IH]; simpl; [now left|].
  destruct (N.eqb a c); [right; lia|].
  destruct (PyUnicode.find c s =? -1) eqn:E; [now left | right].
  apply Z.eqb_neq in E. lia.
Qed.

Lemma ufind_prefix (c : N) (pre post : PyUnicode.str) :
  ~ In c pre ->
  PyUnicode.find c (pre ++ c :: post)%list = Z.of_nat (List.length pre).
Proof.
  induction pre as [|a pre IH]; simpl; intros Hno.
  - now rewrite N.eqb_refl.
  - destruct (N.eqb_spec a c) as [E | _]; [destruct Hno; now left|].
    rewrite IH by (intros Hin; apply Hno; now right).
    destruct (Z.of_nat (List.length pre) =? -1) eqn:E; [apply Z.eqb_eq in E|]; lia.
Qed.

Lemma ufind_decompose (c : N) (s : PyUnicode.str) :
  PyUnicode.find c s <> -1 ->
  exists pre post, s = (pre ++ c :: post)%list /\ ~ In c pre.
Proof.
  induction s as [|a s IH]; simpl; [congruence|].
  destruct (N.eqb_spec a c) as [-> | Hne].
  - intros _. exists [], s. split; [reflexivity | intros []].
  - destruct (PyUnicode.find c s =? -1) eqn:E; [congruence|]. intros _.
    apply Z.eqb_neq in E. destruct (IH E) as (pre & post & -> & Hno).
    exists (a :: pre), post. split; [reflexivity|].
    intros [Ha | Hin]; [congruence | contradiction].
Qed.

Lemma usplit_prefix (c : N) (pre post : PyUnicode.str) :
  ~ In c pre ->
  PyUnicode.split c (pre ++ c :: post)%list = pre :: PyUnicode.split c post.
Proof.
  induction pre as [|a pre IH]; simpl; intros Hno.
  - now rewrite N.eqb_refl.
  - destruct (N.eqb_spec a c) as [E | _]; [destruct Hno; now left|].
    now rewrite IH by (intros Hin; apply Hno; now right).
Qed.

Lemma uslice_from_prefix (pre post : PyUnicode.str) (c : N) :
  PyUnicode.slice_from (Z.of_nat (List.length pre) + 1) (pre ++ c :: post)%list = post.
Proof.
  unfold PyUnicode.slice_from.
  destruct (Z.of_nat (List.length pre) + 1 <? 0) eqn:E; [apply Z.ltb_lt in E; lia|].
  replace (Z.to_nat (Z.of_nat (List.length pre) + 1)) with (S (List.length pre)) by lia.
  clear E. induction pre as [|a pre IH]; simpl; [reflexivity | exact IH].
Qed.

Section UnicodeSplitter.
Context {U : UnicodeData}.

Lemma uisupper_nonempty (s : PyUnicode.str) : PyUnicode.isupper s = true -> s <> [].
Proof. intros Hup ->. discriminate Hup. Qed.

(** C4.  For every string of code points and every character database:
    a tag is split off exactly when the text before the first space has
    fewer than five characters and [isupper] holds of it; the tag is then
    that text and the name is the text after the space, and in every other
    case the tag is [None] and the name is the whole string.  With a
    database that knows the Latin letters, the three examples of the
    specification are instances. *)
Theorem split_team_tag_and_player_nickname_spec :
  (forall pre post : PyUnicode.str,
      ~ In PyUnicode.space pre ->
      (List.length pre < 5)%nat ->
      PyUnicode.isupper pre = true ->
      PyUnicode.split_team_tag_and_player_nickname (pre ++ PyUnicode.space :: post)%list
      = Ok (Some pre, post))
  /\ (forall s : PyUnicode.str,
        (forall pre post : PyUnicode.str,
            s = (pre ++ PyUnicode.space :: post)%list ->
            ~ In PyUnicode.space pre ->
            (List.length pre < 5)%nat ->
            PyUnicode.isupper pre = false) ->
        PyUnicode.split_team_tag_and_player_nickname s = Ok (None, s))
  /\ (extends_latin1 U ->
      PyUnicode.split_team_tag_and_player_nickname (code_points "TSM Bjergsen")
      = Ok (Some (code_points "TSM"), code_points "Bjergsen")
      /\ PyUnicode.split_team_tag_and_player_nickname (code_points "Faker")
         = Ok (None, code_points "Faker")
      /\ PyUnicode.split_team_tag_and_player_nickname (code_points "AB CD")
         = Ok (Some (code_points "AB"), code_points "CD")).
Proof.
  assert (Hsplit : forall pre post : PyUnicode.str,
             ~ In PyUnicode.space pre ->
             (List.length pre < 5)%nat ->
             PyUnicode.isupper pre = true ->
             PyUnicode.split_team_tag_and_player_nickname
               (pre ++ PyUnicode.space :: post)%list
             = Ok (Some pre, post)).
  { intros pre post Hno Hlen Hup. unfold PyUnicode.split_team_tag_and_player_nickname.
    rewrite (ufind_prefix _ _ _ Hno), (usplit_prefix _ _ _ Hno). simpl.
    rewrite Hup, uslice_from_prefix.
    destruct (Z.of_nat (List.length pre) =? -1) eqn:E1; [apply Z.eqb_eq in E1; lia|].
    destruct (Z.of_nat (List.length pre) <? 5) eqn:E2; [reflexivity|].
    apply Z.ltb_ge in E2. lia. }
  assert (Hwhole : forall s : PyUnicode.str,
             (forall pre post : PyUnicode.str,
                 s = (pre ++ PyUnicode.space :: post)%list ->
                 ~ In PyUnicode.space pre ->
                 (List.length pre < 5)%nat ->
                 PyUnicode.isupper pre = false) ->
             PyUnicode.split_team_tag_and_player_nickname s = Ok (None, s)).
  { intros s Hs. unfold PyUnicode.split_team_tag_and_player_nickname.
    destruct (PyUnicode.find PyUnicode.space s =? -1) eqn:E1; [reflexivity|]. simpl.
    destruct (PyUnicode.find PyUnicode.space s <? 5) eqn:E2; [|reflexivity].
    apply Z.eqb_neq in E1. apply Z.ltb_lt in E2.
    destruct (ufind_decompose _ _ E1) as (pre & post & -> & Hno).
    rewrite (ufind_prefix _ _ _ Hno) in E2.
    rewrite (usplit_prefix _ _ _ Hno). simpl.
    rewrite (Hs pre post eq_refl Hno); [reflexivity | lia]. }
  split; [exact Hsplit|]. split; [exact Hwhole|].
  intros Hlatin.
  assert (Hcap : forall (n : N) (a : ascii),
             N_of_ascii a = n ->
             PyStr.is_upper a = true -> PyStr.is_lower a = false ->
             cp_isupper n = true /\ cp_islower n = false /\ cp_istitle n = false).
  { intros n a <- Hu Hl. destruct (Hlatin a) as (-> & -> & ->). now repeat split. }
  destruct (Hcap 84%N "T"%char eq_refl eq_refl eq_refl) as (HT1 & HT2 & HT3).
  destruct (Hcap 83%N "S"%char eq_refl eq_refl eq_refl) as (HS1 & HS2 & HS3).
  destruct (Hcap 77%N "M"%char eq_refl eq_refl eq_refl) as (HM1 & HM2 & HM3).
  destruct (Hcap 65%N "A"%char eq_refl eq_refl eq_refl) as (HA1 & HA2 & HA3).
  destruct (Hcap 66%N "B"%char eq_refl eq_refl eq_refl) as (HB1 & HB2 & HB3).
  split; [|split].
  + change (code_points "TSM Bjergsen")
      with ([84; 83; 77] ++ PyUnicode.space :: code_points "Bjergsen")%list%N.
    change (code_points "TSM") with [84; 83; 77]%N.
    apply Hsplit.
    * intros [E | [E | [E | []]]]; discriminate.
    * simpl. lia.
    * unfold PyUnicode.isupper, PyUnicode.isupper_loop.
      now rewrite HT1, HT2, HT3, HS1, HS2, HS3, HM1, HM2, HM3.
  + reflexivity.
  + change (code_points "AB CD")
      with ([65; 66] ++ PyUnicode.space :: code_points "CD")%list%N.
    change (code_points "AB") with [65; 66]%N.
    apply Hsplit.
    * intros [E | [E | []]]; discriminate.
    * simpl. lia.
    * unfold PyUnicode.isupper, PyUnicode.isupper_loop.
      now rewrite HA1, HA2, HA3, HB1, HB2, HB3.
Qed.

(** X1.  When a tag is split off, the tag, a space and the name put
    together give the input back; the tag has one to four characters,
    holds no space and satisfies [isupper].  When no tag is split off the
    name is the input.  This holds of every string of code points and
    every character database. *)
Theorem split_team_tag_reassembles :
  forall (s : PyUnicode.str) (tag : option PyUnicode.str) (name : PyUnicode.str),
    PyUnicode.split_team_tag_and_player_nickname s = Ok (tag, name) ->
    match tag with
    | Some t =>
        s = (t ++ PyUnicode.space :: name)%list
        /\ (0 < List.length t < 5)%nat
        /\ ~ In PyUnicode.space t
        /\ PyUnicode.isupper t = true
    | None => name = s
    end.
Proof.
  intros s tag name. unfold PyUnicode.split_team_tag_and_player_nickname.
  destruct (PyUnicode.find PyUnicode.space s =? -1) eqn:E1; simpl;
    [now intros [= <- <-]|].
  destruct (PyUnicode.find PyUnicode.space s <? 5) eqn:E2; [|now intros [= <- <-]].
  apply Z.eqb_neq in E1. apply Z.ltb_lt in E2.
  destruct (ufind_decompose _ _ E1) as (pre & post & -> & Hno).
  rewrite (ufind_prefix _ _ _ Hno) in *. rewrite (usplit_prefix _ _ _ Hno). simpl.
  destruct (PyUnicode.isupper pre) eqn:Hup; [|now intros [= <- <-]].
  rewrite uslice_from_prefix. intros [= <- <-].
  split; [reflexivity|]. split; [|now split].
  pose proof (uisupper_nonempty _ Hup). destruct pre; [congruence | simpl in *; lia].
Qed.

(** *** The splitter of the flattener is its restriction to Latin-1 *)

Lemma code_points_find (c : ascii) (s : string) :
  PyUnicode.find (N_of_ascii c) (code_points s) = PyStr.find c s.
Proof.
  induction s as [|a s IH]; simpl; [reflexivity|]. fold (code_points s). rewrite IH.
  destruct (Ascii.eqb_spec a c) as [-> | Hne]; [now rewrite N.eqb_refl|].
  destruct (N.eqb_spec (N_of_ascii a) (N_of_ascii c)) as [E | _]; [|reflexivity].
  destruct Hne. now rewrite <- (ascii_N_embedding a), <- (ascii_N_embedding c), E.
Qed.

Lemma code_points_split (c : ascii) (s : string) :
  PyUnicode.split (N_of_ascii c) (code_points s) = map code_points (PyStr.split c s).
Proof.
  induction s as [|a s IH]; simpl; [reflexivity|]. fold (code_points s). rewrite IH.
  destruct (Ascii.eqb_spec a c) as [-> | Hne]; [now rewrite N.eqb_refl|].
  destruct (N.eqb_spec (N_of_ascii a) (N_of_ascii c)) as [E | _].
  - destruct Hne. now rewrite <- (ascii_N_embedding a), <- (ascii_N_embedding c), E.
  - now destruct (PyStr.split c s).
Qed.

Lemma code_points_length (s : string) :
  List.length (code_points s) = String.length s.
Proof. induction s as [|a s IH]; simpl; [reflexivity | now f_equal]. Qed.

Lemma code_points_drop (n : nat) (s : string) :
  skipn n (code_points s) = code_points (PyStr.drop n s).
Proof.
  revert s. induction n as [|n IH]; intros [|a s]; simpl; try reflexivity. apply IH.
Qed.

Lemma code_points_slice_from (i : Z) (s : string) :
  PyUnicode.slice_from i (code_points s) = code_points (PyStr.slice_from i s).
Proof.
  unfold PyUnicode.slice_from, PyStr.slice_from.
  now rewrite code_points_length, code_points_drop.
Qed.

Lemma latin1_cases_disjoint (a : ascii) :
  PyStr.is_upper a = true -> PyStr.is_lower a = false.
Proof.
  destruct a as [[] [] [] [] [] [] [] []]; vm_compute; intros Hx;
    first [reflexivity | discriminate Hx].
Qed.

Lemma code_points_isupper_loop (cased : bool) (s : string) :
  extends_latin1 U ->
  PyUnicode.isupper_loop cased (code_points s)
  = negb (PyStr.any PyStr.is_lower s) && (cased || PyStr.any PyStr.is_upper s).
Proof.
  intros Hlatin. revert cased. induction s as [|a s IH]; intros cased; simpl.
  - now rewrite orb_false_r.
  - fold (code_points s). destruct (Hlatin a) as (-> & -> & ->).
    destruct (PyStr.is_lower a); simpl; [reflexivity|].
    destruct cased, (PyStr.is_upper a); simpl; rewrite IH; simpl; reflexivity.
Qed.

Lemma code_points_isupper (s : string) :
  extends_latin1 U -> PyUnicode.isupper (code_points s) = PyStr.isupper s.
Proof.
  intros Hlatin. unfold PyStr.isupper. destruct s as [|a [|b s]].
  - reflexivity.
  - simpl. destruct (Hlatin a) as (_ & -> & _).
    destruct (PyStr.is_upper a) eqn:Hu; [|now rewrite andb_false_r].
    now rewrite (latin1_cases_disjoint a Hu).
  - change (PyUnicode.isupper (code_points (String a (String b s))))
      with (PyUnicode.isupper_loop false (code_points (String a (String b s)))).
    now rewrite code_points_isupper_loop.
Qed.

(** On a text of characters below 256 the splitter on code points gives
    what the splitter of the flattener gives. *)
Lemma latin1_splitter (s : string) :
  extends_latin1 U ->
  PyUnicode.split_team_tag_and_player_nickname (code_points s)
  = as_code_points (Lol.split_team_tag_and_player_nickname s).
Proof.
  intros Hlatin.
  unfold PyUnicode.split_team_tag_and_player_nickname,
    Lol.split_team_tag_and_player_nickname.
  change PyUnicode.space with (N_of_ascii PyStr.space).
  rewrite code_points_find, code_points_split.
  destruct (negb (PyStr.find PyStr.space s =? -1) && (PyStr.find PyStr.space s <? 5));
    [|reflexivity].
  destruct (PyStr.split PyStr.space s) as [|w ws]; simpl; [reflexivity|].
  rewrite (code_points_isupper w Hlatin).
  destruct (PyStr.isupper w); simpl; [|reflexivity].
  now rewrite code_points_slice_from.
Qed.

End UnicodeSplitter.

Lemma excerpt_extends_latin1 : extends_latin1 UnicodeSample.excerpt.
Proof.
  intros a. destruct a as [[] [] [] [] [] [] [] []]; vm_compute; now repeat split.
Qed.

Lemma split_team_tag_and_player_nickname_spec_witness :
  PyUnicode.split_team_tag_and_player_nickname (U := UnicodeSample.excerpt)
    UnicodeSample.greek_name
  = Ok (Some [913; 914; 915]%N, [916]%N)
  /\ PyUnicode.split_team_tag_and_player_nickname (U := UnicodeSample.excerpt)
       (code_points "TSM Bjergsen")
     = Ok (Some (code_points "TSM"), code_points "Bjergsen")
  /\ PyUnicode.split_team_tag_and_player_nickname (U := UnicodeSample.excerpt)
       (code_points "100 Thieves")
     = Ok (None, code_points "100 Thieves").
Proof.
  destruct (split_team_tag_and_player_nickname_spec (U := UnicodeSample.excerpt))
    as (Hsplit & Hwhole & Hexamples).
  split; [|split].
  - apply (Hsplit [913; 914; 915]%N [916]%N).
    + intros [E | [E | [E | []]]]; discriminate.
    + simpl. lia.
    + reflexivity.
  - exact (proj1 (Hexamples excerpt_extends_latin1)).
  - apply Hwhole. intros pre post Heq Hno Hlen.
    destruct pre as [|a [|b [|c [|d [|e pre]]]]]; simpl in Hlen; try lia;
      simpl in Heq; try discriminate.
    injection Heq as Ea Eb Ec _. now rewrite <- Ea, <- Eb, <- Ec.
Defined.

Lemma split_team_tag_reassembles_witness :
  UnicodeSample.greek_name = ([913; 914; 915] ++ PyUnicode.space :: [916])%list%N
  /\ (0 < List.length [913; 914; 915]%N < 5)%nat
  /\ ~ In PyUnicode.space [913; 914; 915]%N
  /\ PyUnicode.isupper (U := UnicodeSample.excerpt) [913; 914; 915]%N = true.
Proof.
  exact (split_team_tag_reassembles (U := UnicodeSample.excerpt)
           UnicodeSample.greek_name (Some [913; 914; 915]%N) [916]%N eq_refl).
Defined.
